(** * Vanderwaals wallpaper curation pipeline: checkpoint store, deduplication,
      source acquisition, asset scan, identifier generation and manifest

    A shallow embedding of [scripts/curate_wallpapers.py].  Python values
    that the script only moves around are kept as data ([string], [Z],
    [list]); the file system, the clock, the git client, the image decoder
    and the embedding model are explicit inputs of the functions that
    consult them, and [hashlib.md5] is a parameter.  Python [str] is
    modelled by [string], whose characters are the code points 0..255.
    The log (standard output and [curation.log]) and the temporary
    directories of the clones are left out of the file system.

    The first part holds the definitions: the libraries the script calls
    ([str] methods, [json], [imagehash], the file system), then the script's
    own functions under their own names, then the notions and the sample
    inputs the statements use.  The second part holds the facts, one module
    for each component of the pipeline. *)

From Stdlib Require Import ZArith List String Ascii Bool Lia Arith Permutation.
From Stdlib Require Import DecimalString DecimalZ DecimalFacts.
Import ListNotations.

#[local] Set Warnings "-register-all".

Local Open Scope string_scope.
Local Open Scope list_scope.
Local Open Scope Z_scope.

(* ================================================================== *)
(** ** Python string helpers *)
(* ================================================================== *)

Module PyStr.

(** [s[:n]] for a non-negative [n]. *)
Fixpoint take (n : nat) (s : string) : string :=
  match n, s with
  | S n', String c r => String c (take n' r)
  | _, _ => EmptyString
  end.

(** [s.endswith(suffix)]. *)
Definition endswith (s suffix : string) : bool :=
  let ls := String.length s in
  let lx := String.length suffix in
  if (lx <=? ls)%nat then String.eqb (substring (ls - lx) lx s) suffix
  else false.

(** [sub in s]. *)
Fixpoint contains (sub s : string) : bool :=
  if prefix sub s then true
  else match s with
       | EmptyString => false
       | String _ r => contains sub r
       end.

(** [s.replace(old, new)] for a one-character [old]. *)
Fixpoint replace_char (old : ascii) (new : string) (s : string) : string :=
  match s with
  | EmptyString => EmptyString
  | String c r =>
      if Ascii.eqb c old then (new ++ replace_char old new r)%string
      else String c (replace_char old new r)
  end.

(** [s.split(sep)[0]] for a one-character [sep]. *)
Fixpoint split_head (sep : ascii) (s : string) : string :=
  match s with
  | EmptyString => EmptyString
  | String c r => if Ascii.eqb c sep then EmptyString
                  else String c (split_head sep r)
  end.

(** [s.lstrip(c)] for a one-character strip set. *)
Fixpoint lstrip_char (c : ascii) (s : string) : string :=
  match s with
  | String d r => if Ascii.eqb d c then lstrip_char c r else s
  | EmptyString => EmptyString
  end.

(** [str.lower] on one code point below 256: A-Z and the Latin-1 capitals
    (0xC0-0xDE without the multiplication sign 0xD7) move up by 0x20. *)
Definition lower_char (c : ascii) : ascii :=
  let n := N_of_ascii c in
  if ((65 <=? n) && (n <=? 90))%N then ascii_of_N (n + 32)
  else if ((192 <=? n) && (n <=? 222) && negb (n =? 215))%N
       then ascii_of_N (n + 32)
       else c.

Fixpoint lower (s : string) : string :=
  match s with
  | EmptyString => EmptyString
  | String c r => String (lower_char c) (lower r)
  end.

End PyStr.

(* ================================================================== *)
(** ** The [json] library: documents, [json.dumps], [json.loads] *)
(* ================================================================== *)

(** A Python [float]: a finite one is carried as an exact decimal
    [mant * 10^expo], beside it stand the not-a-number and the two
    infinities, which [embedding / np.linalg.norm(embedding)] yields for
    an output of norm zero or beyond the range.  The pipeline stores and
    reloads floats and never computes with them here.  Two decimals of
    the same value are kept apart, and the negative zero is not
    represented. *)
Inductive pyfloat :=
| PyFloat (mant expo : Z)
| NaN
| Infinity (negative : bool).

(** JSON documents.  An object keeps its members in textual order. *)
Inductive json :=
| JNull
| JBool (b : bool)
| JInt (z : Z)
| JFloat (f : pyfloat)
| JStr (s : string)
| JList (l : list json)
| JDict (d : list (string * json)).

Module Json.

(** *** Encoder: [json.dumps] with its defaults ([ensure_ascii=True],
    [allow_nan=True], separators [", "] and [": "]).  A finite float is
    written as its mantissa and decimal exponent, [6e-1] for 0.6; CPython
    writes the shortest decimal that reads back as the same float, here
    the decimal is the float.  The other floats are written as the
    literals [NaN], [Infinity] and [-Infinity], which are no JSON. *)

Definition dquote : ascii := ascii_of_N 34.

Definition hex_digit (n : N) : ascii :=
  if (n <? 10)%N then ascii_of_N (48 + n) else ascii_of_N (87 + n).

(** One character inside a string literal: the short escapes, the printable
    ASCII range as it is, everything else as a [\u00XX] escape. *)
Definition escape_char (c : ascii) : string :=
  let n := N_of_ascii c in
  if (n =? 34)%N then String "\" (String dquote EmptyString)
  else if (n =? 92)%N then "\\"
  else if (n =? 10)%N then "\n"
  else if (n =? 13)%N then "\r"
  else if (n =? 9)%N then "\t"
  else if (n =? 8)%N then "\b"
  else if (n =? 12)%N then "\f"
  else if ((32 <=? n) && (n <=? 126))%N then String c EmptyString
  else String "\" (String "u" (String "0" (String "0"
         (String (hex_digit (n / 16)) (String (hex_digit (n mod 16)) EmptyString))))).

Fixpoint escape (s : string) : string :=
  match s with
  | EmptyString => EmptyString
  | String c r => (escape_char c ++ escape r)%string
  end.

Definition dumps_str (s : string) : string :=
  String dquote (escape s ++ String dquote EmptyString).

Definition dumps_int (z : Z) : string :=
  NilEmpty.string_of_int (Z.to_int z).

Definition dumps_float (f : pyfloat) : string :=
  match f with
  | PyFloat mant expo => (dumps_int mant ++ String "e" (dumps_int expo))%string
  | NaN => "NaN"
  | Infinity false => "Infinity"
  | Infinity true => "-Infinity"
  end.

Fixpoint dumps (v : json) : string :=
  match v with
  | JNull => "null"
  | JBool true => "true"
  | JBool false => "false"
  | JInt z => dumps_int z
  | JFloat f => dumps_float f
  | JStr s => dumps_str s
  | JList l =>
      String "[" (match l with
                  | [] => "]"
                  | x :: r =>
                      dumps x ++
                      (fix more (r : list json) : string :=
                         match r with
                         | [] => "]"
                         | y :: r' => ", " ++ dumps y ++ more r'
                         end) r
                  end)%string
  | JDict d =>
      String "{" (match d with
                  | [] => "}"
                  | (k, x) :: r =>
                      dumps_str k ++ ": " ++ dumps x ++
                      (fix more (r : list (string * json)) : string :=
                         match r with
                         | [] => "}"
                         | (k', y) :: r' =>
                             ", " ++ dumps_str k' ++ ": " ++ dumps y ++ more r'
                         end) r
                  end)%string
  end.


(** *** Decoder: [json.loads]. [None] stands for a raised
    [JSONDecodeError].  The literals [NaN], [Infinity] and [-Infinity]
    are read as the floats they name, as [json.loads] does.  Escapes of
    code points above 255 have no counterpart in [string] and are
    refused: texts that hold one lie outside what is modelled here. *)

Definition is_digit (c : ascii) : bool :=
  let n := N_of_ascii c in ((48 <=? n) && (n <=? 57))%N.

Definition is_ws (c : ascii) : bool :=
  let n := N_of_ascii c in
  ((n =? 32) || (n =? 9) || (n =? 10) || (n =? 13))%N.

Fixpoint skip_ws (s : string) : string :=
  match s with
  | String c r => if is_ws c then skip_ws r else s
  | EmptyString => EmptyString
  end.

Fixpoint span_digits (s : string) : string * string :=
  match s with
  | String c r =>
      if is_digit c
      then let (d, t) := span_digits r in (String c d, t)
      else (EmptyString, s)
  | EmptyString => (EmptyString, EmptyString)
  end.

Definition parse_uint (s : string) : option (Decimal.uint * string) :=
  let (d, t) := span_digits s in
  match d with
  | EmptyString => None
  | _ => option_map (fun u => (u, t)) (NilEmpty.uint_of_string d)
  end.

(** The integer part of a number token: [0], or digits that do not start
    with [0]; a minus sign may stand before it. *)
Definition parse_natural (s : string) : option (Decimal.uint * string) :=
  match s with
  | String c r =>
      if Ascii.eqb c "0" then Some (Decimal.D0 Decimal.Nil, r)
      else parse_uint s
  | EmptyString => None
  end.

Definition parse_integer (s : string) : option (Z * string) :=
  match s with
  | String c r =>
      if Ascii.eqb c "-"
      then option_map (fun p => (Z.of_int (Decimal.Neg (fst p)), snd p))
                      (parse_natural r)
      else option_map (fun p => (Z.of_int (Decimal.Pos (fst p)), snd p))
                      (parse_natural s)
  | EmptyString => None
  end.

(** The fraction part: a point and at least one digit. *)
Definition parse_frac (s : string) : option (string * string) :=
  match s with
  | String c r =>
      if Ascii.eqb c "." then
        let (d, t) := span_digits r in
        match d with
        | EmptyString => None
        | _ => Some (d, t)
        end
      else None
  | EmptyString => None
  end.

(** The exponent part: [e] or [E], an optional sign, at least one digit. *)
Definition parse_exp (s : string) : option (Z * string) :=
  match s with
  | String c r =>
      if Ascii.eqb c "e" || Ascii.eqb c "E" then
        match r with
        | String sign r' =>
            if Ascii.eqb sign "-"
            then option_map (fun p => (Z.of_int (Decimal.Neg (fst p)), snd p))
                            (parse_uint r')
            else if Ascii.eqb sign "+"
                 then option_map (fun p => (Z.of_int (Decimal.Pos (fst p)), snd p))
                                 (parse_uint r')
                 else option_map (fun p => (Z.of_int (Decimal.Pos (fst p)), snd p))
                                 (parse_uint r)
        | EmptyString => None
        end
      else None
  | EmptyString => None
  end.

Definition digits_value (d : string) : Z :=
  match NilEmpty.uint_of_string d with
  | Some u => Z.of_uint u
  | None => 0
  end.

(** A number token: integer part, then an optional fraction, then an
    optional exponent.  With neither it is an [int]; otherwise it is the
    float [(integer.fraction) * 10^exponent]. *)
Definition parse_number (s : string) : option (json * string) :=
  match parse_integer s with
  | None => None
  | Some (i, t) =>
      let negative := match s with
                      | String c _ => Ascii.eqb c "-"
                      | EmptyString => false
                      end in
      match parse_frac t, parse_exp t with
      | None, None => Some (JInt i, t)
      | None, Some (x, t') => Some (JFloat (PyFloat i x), t')
      | Some (d, t1), _ =>
          let scale := Z.of_nat (String.length d) in
          let magnitude := Z.abs i * 10 ^ scale + digits_value d in
          let m := if negative then - magnitude else magnitude in
          match parse_exp t1 with
          | Some (x, t') => Some (JFloat (PyFloat m (x - scale)), t')
          | None => Some (JFloat (PyFloat m (- scale)), t1)
          end
      end
  end.

Definition hex_val (c : ascii) : option N :=
  let n := N_of_ascii c in
  if ((48 <=? n) && (n <=? 57))%N then Some (n - 48)%N
  else if ((97 <=? n) && (n <=? 102))%N then Some (n - 87)%N
  else if ((65 <=? n) && (n <=? 70))%N then Some (n - 55)%N
  else None.

Definition hex4 (a b c d : ascii) : option N :=
  match hex_val a, hex_val b, hex_val c, hex_val d with
  | Some x, Some y, Some z, Some w =>
      Some (((x * 16 + y) * 16 + z) * 16 + w)%N
  | _, _, _, _ => None
  end.

(** The character a one-letter escape stands for. *)
Definition unescape (e : ascii) : option ascii :=
  let n := N_of_ascii e in
  if (n =? 34)%N then Some dquote
  else if (n =? 92)%N then Some (ascii_of_N 92)
  else if (n =? 47)%N then Some (ascii_of_N 47)
  else if (n =? 110)%N then Some (ascii_of_N 10)
  else if (n =? 114)%N then Some (ascii_of_N 13)
  else if (n =? 116)%N then Some (ascii_of_N 9)
  else if (n =? 98)%N then Some (ascii_of_N 8)
  else if (n =? 102)%N then Some (ascii_of_N 12)
  else None.

Definition push (c : ascii) (o : option (string * string))
  : option (string * string) :=
  option_map (fun p => (String c (fst p), snd p)) o.

(** The body of a string literal, after the opening quote, up to and
    including the closing quote.  A [\uXXXX] escape above 255 has no
    counterpart in [string] and is refused. *)
Fixpoint parse_chars (s : string) : option (string * string) :=
  match s with
  | EmptyString => None
  | String c r =>
      if Ascii.eqb c dquote then Some (EmptyString, r)
      else if Ascii.eqb c "\" then
        match r with
        | String e r1 =>
            match unescape e with
            | Some x => push x (parse_chars r1)
            | None =>
                if Ascii.eqb e "u" then
                  match r1 with
                  | String h1 (String h2 (String h3 (String h4 r2))) =>
                      match hex4 h1 h2 h3 h4 with
                      | Some n =>
                          if (n <? 256)%N
                          then push (ascii_of_N n) (parse_chars r2)
                          else None
                      | None => None
                      end
                  | _ => None
                  end
                else None
            end
        | EmptyString => None
        end
      else if (N_of_ascii c <? 32)%N then None
      else push c (parse_chars r)
  end.

Definition parse_string (s : string) : option (string * string) :=
  match s with
  | String c r => if Ascii.eqb c dquote then parse_chars r else None
  | EmptyString => None
  end.

(** [s] without its prefix [lit], when it starts with it. *)
Fixpoint strip_prefix (lit s : string) : option string :=
  match lit, s with
  | EmptyString, _ => Some s
  | String a l, String b r =>
      if Ascii.eqb a b then strip_prefix l r else None
  | String _ _, EmptyString => None
  end.

Definition expect (lit : string) (v : json) (s : string)
  : option (json * string) :=
  option_map (fun t => (v, t)) (strip_prefix lit s).

(** The constants the scanner tries where no number starts. *)
Definition parse_constant (s : string) : option (json * string) :=
  match s with
  | String c _ =>
      if Ascii.eqb c "N" then expect "NaN" (JFloat NaN) s
      else if Ascii.eqb c "I"
           then expect "Infinity" (JFloat (Infinity false)) s
           else if Ascii.eqb c "-"
                then expect "-Infinity" (JFloat (Infinity true)) s
                else None
  | EmptyString => None
  end.

Fixpoint parse_value (fuel : nat) (s : string) {struct fuel}
  : option (json * string) :=
  match fuel with
  | O => None
  | S fuel' =>
      match s with
      | EmptyString => None
      | String c r =>
          if Ascii.eqb c "n" then expect "null" JNull s
          else if Ascii.eqb c "t" then expect "true" (JBool true) s
          else if Ascii.eqb c "f" then expect "false" (JBool false) s
          else if Ascii.eqb c dquote then
            option_map (fun p => (JStr (fst p), snd p)) (parse_chars r)
          else if Ascii.eqb c "[" then
            match skip_ws r with
            | String c1 r1 =>
                if Ascii.eqb c1 "]" then Some (JList [], r1)
                else
                  match parse_value fuel' (String c1 r1) with
                  | Some (x, t) =>
                      option_map (fun p => (JList (x :: fst p), snd p))
                                 (parse_elems fuel' t)
                  | None => None
                  end
            | EmptyString => None
            end
          else if Ascii.eqb c "{" then
            match skip_ws r with
            | String c1 r1 =>
                if Ascii.eqb c1 "}" then Some (JDict [], r1)
                else
                  match parse_member fuel' (String c1 r1) with
                  | Some (kx, t) =>
                      option_map (fun p => (JDict (kx :: fst p), snd p))
                                 (parse_members fuel' t)
                  | None => None
                  end
            | EmptyString => None
            end
          else
            match parse_number s with
            | Some number => Some number
            | None => parse_constant s
            end
      end
  end

with parse_elems (fuel : nat) (s : string) {struct fuel}
  : option (list json * string) :=
  match fuel with
  | O => None
  | S fuel' =>
      match skip_ws s with
      | String c r =>
          if Ascii.eqb c "]" then Some ([], r)
          else if Ascii.eqb c "," then
            match parse_value fuel' (skip_ws r) with
            | Some (x, t) =>
                option_map (fun p => (x :: fst p, snd p))
                           (parse_elems fuel' t)
            | None => None
            end
          else None
      | EmptyString => None
      end
  end

with parse_member (fuel : nat) (s : string) {struct fuel}
  : option ((string * json) * string) :=
  match fuel with
  | O => None
  | S fuel' =>
      match parse_string s with
      | Some (k, t) =>
          match skip_ws t with
          | String c r =>
              if Ascii.eqb c ":" then
                option_map (fun p => ((k, fst p), snd p))
                           (parse_value fuel' (skip_ws r))
              else None
          | EmptyString => None
          end
      | None => None
      end
  end

with parse_members (fuel : nat) (s : string) {struct fuel}
  : option (list (string * json) * string) :=
  match fuel with
  | O => None
  | S fuel' =>
      match skip_ws s with
      | String c r =>
          if Ascii.eqb c "}" then Some ([], r)
          else if Ascii.eqb c "," then
            match parse_member fuel' (skip_ws r) with
            | Some (kx, t) =>
                option_map (fun p => (kx :: fst p, snd p))
                           (parse_members fuel' t)
            | None => None
            end
          else None
      | EmptyString => None
      end
  end.

(** [json.loads]: one value, surrounded by optional white space.  The
    text's length bounds the depth of every descent. *)
Definition loads (s : string) : option json :=
  match parse_value (S (String.length s)) (skip_ws s) with
  | Some (v, t) =>
      match skip_ws t with
      | EmptyString => Some v
      | String _ _ => None
      end
  | None => None
  end.

(** *** What the proofs about the decoder speak of *)

(** Induction over documents, with the hypothesis available for every
    element of an array and every member of an object. *)
Fixpoint json_nested_ind (P : json -> Prop)
    (Hnull : P JNull) (Hbool : forall b, P (JBool b))
    (Hint : forall z, P (JInt z)) (Hfloat : forall f, P (JFloat f))
    (Hstr : forall s, P (JStr s))
    (Hlist : forall l, Forall P l -> P (JList l))
    (Hdict : forall d, Forall (fun kx => P (snd kx)) d -> P (JDict d))
    (v : json) {struct v} : P v :=
  match v with
  | JNull => Hnull
  | JBool b => Hbool b
  | JInt z => Hint z
  | JFloat f => Hfloat f
  | JStr s => Hstr s
  | JList l =>
      Hlist l ((fix all (l : list json) : Forall P l :=
                  match l with
                  | [] => Forall_nil P
                  | x :: r =>
                      Forall_cons x
                        (json_nested_ind P Hnull Hbool Hint Hfloat Hstr
                                         Hlist Hdict x) (all r)
                  end) l)
  | JDict d =>
      Hdict d ((fix all (d : list (string * json))
                  : Forall (fun kx => P (snd kx)) d :=
                  match d with
                  | [] => Forall_nil _
                  | kx :: r =>
                      Forall_cons kx
                        (json_nested_ind P Hnull Hbool Hint Hfloat Hstr
                                         Hlist Hdict (snd kx)) (all r)
                  end) d)
  end.

(** The separators that follow the first element of an array and the
    first member of an object, as [dumps] writes them. *)
Fixpoint dumps_more (r : list json) : string :=
  match r with
  | [] => "]"
  | y :: r' => (", " ++ dumps y ++ dumps_more r')%string
  end.

Fixpoint dumps_more_members (r : list (string * json)) : string :=
  match r with
  | [] => "}"
  | (k, y) :: r' =>
      (", " ++ dumps_str k ++ ": " ++ dumps y ++ dumps_more_members r')%string
  end.

(** How much fuel the descent into a document takes. *)
Fixpoint jsize (v : json) : nat :=
  match v with
  | JList l => S (fold_right (fun x n => S (jsize x + n)) O l)
  | JDict d => S (fold_right (fun kx n => S (S (jsize (snd kx)) + n)) O d)
  | _ => 1
  end.

Definition elems_size (r : list json) : nat :=
  fold_right (fun x n => S (jsize x + n)) O r.

Definition members_size (r : list (string * json)) : nat :=
  fold_right (fun kx n => S (S (jsize (snd kx)) + n)) O r.

Definition nondigit_head (s : string) : bool :=
  match s with
  | EmptyString => true
  | String c _ => negb (is_digit c)
  end.

(** What may follow a number token without being swallowed by it. *)
Definition follow_ok (s : string) : bool :=
  match s with
  | EmptyString => true
  | String c _ =>
      negb (is_digit c || Ascii.eqb c "." || Ascii.eqb c "e" || Ascii.eqb c "E")
  end.

Definition parses (v : json) : Prop :=
  forall fuel rest,
    (jsize v <= fuel)%nat -> follow_ok rest = true ->
    parse_value fuel (dumps v ++ rest) = Some (v, rest).

End Json.


(* ================================================================== *)
(** ** Python values at the edges *)
(* ================================================================== *)

(** The result of a call that may raise an [Exception]. *)
Inductive outcome (A : Type) :=
| Returned (a : A)
| Raised.
Arguments Returned {A} a.
Arguments Raised {A}.

(** The value of [x + 1] where it is defined: an [int], or the float next
    to [f], which is carried unevaluated. *)
Inductive pynum :=
| PyInt (z : Z)
| PyFloatSucc (f : pyfloat).

Module Py.

(** [d.get(key, default)]; of several members with the same key the last
    one is the dictionary's.  Only a dictionary has [get]. *)
Fixpoint lookup (key : string) (d : list (string * json)) : option json :=
  match d with
  | [] => None
  | (k, v) :: r =>
      match lookup key r with
      | Some w => Some w
      | None => if String.eqb k key then Some v else None
      end
  end.

Definition get (data : json) (key : string) (default : json)
  : outcome json :=
  match data with
  | JDict d =>
      Returned (match lookup key d with Some v => v | None => default end)
  | _ => Raised
  end.

(** Whether [len(v)] is defined. *)
Definition has_len (v : json) : bool :=
  match v with
  | JList _ | JDict _ | JStr _ => true
  | _ => false
  end.

(** [v + 1]. *)
Definition add_one (v : json) : outcome pynum :=
  match v with
  | JInt z => Returned (PyInt (z + 1))
  | JBool b => Returned (PyInt (if b then 2 else 1))
  | JFloat f => Returned (PyFloatSucc f)
  | _ => Raised
  end.

(** [lst.extend(more)], as the elements of the extended list; only a list
    has [extend]. *)
Definition extend (lst : json) (more : list json) : outcome (list json) :=
  match lst with
  | JList l => Returned (l ++ more)
  | _ => Raised
  end.

(** [lst[start:]]. *)
Definition slice_from {A} (lst : list A) (start : Z) : list A :=
  let n := Z.of_nat (List.length lst) in
  let s := if start <? 0 then Z.max 0 (n + start) else start in
  skipn (Z.to_nat s) lst.

(** [set.add]: the set is kept as the list of its elements in the order
    they were added. *)
Definition set_add (x : string) (s : list string) : list string :=
  if existsb (String.eqb x) s then s else s ++ [x].


(** *** [==] between documents *)











End Py.

(* ================================================================== *)
(** ** Configuration *)
(* ================================================================== *)

Record repository := {
  url : string;
  branch : string;
  name : string;
  test_path : option string
}.

Definition REPOSITORIES : list repository :=
  [ {| url := "https://github.com/dharmx/walls"; branch := "main";
       name := "dharmx/walls"; test_path := Some "animated" |};
    {| url := "https://github.com/D3Ext/aesthetic-wallpapers"; branch := "main";
       name := "D3Ext/aesthetic-wallpapers"; test_path := Some "images/anime" |};
    {| url := "https://github.com/makccr/wallpapers"; branch := "master";
       name := "makccr/wallpapers"; test_path := Some "Abstract" |};
    {| url := "https://github.com/michaelScopic/Wallpapers"; branch := "main";
       name := "michaelScopic/Wallpapers"; test_path := Some "Minimal" |};
    {| url := "https://github.com/fr0st-iwnl/wallz"; branch := "main";
       name := "fr0st-iwnl/wallz"; test_path := Some "gruvbox" |};
    {| url := "https://github.com/linuxdotexe/nordic-wallpapers";
       branch := "master"; name := "linuxdotexe/nordic-wallpapers";
       test_path := Some "wallpapers" |};
    {| url := "https://github.com/Mvcvalli/mobile-wallpapers"; branch := "main";
       name := "Mvcvalli/mobile-wallpapers"; test_path := Some "." |};
    {| url := "https://github.com/DenverCoder1/minimalistic-wallpaper-collection";
       branch := "main";
       name := "DenverCoder1/minimalistic-wallpaper-collection";
       test_path := Some "images/minimalistic" |} ].

Definition OUTPUT_DIR : string := "curation_output".
Definition MANIFEST_PATH : string := OUTPUT_DIR ++ "/manifest.json".
Definition CHECKPOINT_PATH : string := OUTPUT_DIR ++ "/checkpoint.json".

(** The set literal, in the order it is written; Python fixes no order. *)
Definition SUPPORTED_EXTENSIONS : list string :=
  [".jpg"; ".jpeg"; ".png"; ".webp"].
Definition MIN_RESOLUTION : Z * Z := (800, 600).
Definition MAX_FILE_SIZE : Z := 20 * 1024 * 1024.

Definition PHASH_THRESHOLD : Z := 5.

(* ================================================================== *)
(** ** The file system *)
(* ================================================================== *)

(** What a path leads to: nothing, something that [open] refuses (a
    directory, a file without permission), or a text file. *)
Inductive node :=
| Missing
| Denied
| File (content : string).

Definition filesystem := string -> node.

Module Fs.

(** [Path.exists]. *)
Definition exists_ (fs : filesystem) (p : string) : bool :=
  match fs p with Missing => false | _ => true end.

Definition put (fs : filesystem) (p : string) (n : node) : filesystem :=
  fun q => if String.eqb q p then n else fs q.

(** [open(p, 'r').read()]. *)
Definition read (fs : filesystem) (p : string) : outcome string :=
  match fs p with
  | File content => Returned content
  | _ => Raised
  end.

(** [open(p, 'w')] creates or truncates the file, and raises where the
    path cannot be opened. *)
Definition open_w (fs : filesystem) (p : string) : outcome filesystem :=
  match fs p with
  | Denied => Raised
  | _ => Returned (put fs p (File EmptyString))
  end.


Definition write_all (fs : filesystem) (p : string) (text : string)
  : filesystem :=
  put fs p (File text).

(** [Path.unlink]. *)
Definition unlink (fs : filesystem) (p : string) : filesystem :=
  put fs p Missing.

End Fs.

(* ================================================================== *)
(** ** CheckpointStore: [save_checkpoint], [load_checkpoint] *)
(* ================================================================== *)

Definition checkpoint_data (wallpapers : list json) (repo_index : Z)
    (timestamp : string) : json :=
  JDict [("wallpapers", JList wallpapers);
         ("last_repo_index", JInt repo_index);
         ("timestamp", JStr timestamp)].

(** [save_checkpoint(wallpapers, repo_index)], with [utcnow().isoformat()]
    passed in as [now]: the document is written straight into the
    checkpoint file, opened with mode ['w']. *)
Definition save_checkpoint (fs : filesystem) (wallpapers : list json)
    (repo_index : Z) (now : string) : outcome filesystem :=
  match Fs.open_w fs CHECKPOINT_PATH with
  | Raised => Raised
  | Returned fs1 =>
      Returned (Fs.write_all fs1 CHECKPOINT_PATH
                  (Json.dumps (checkpoint_data wallpapers repo_index now)))
  end.


(** What [load_checkpoint] returns: [(wallpapers, last_repo_index + 1,
    processed_hashes)]. *)
Record checkpoint_state := {
  cp_wallpapers : json;
  cp_start_index : pynum;
  cp_hashes : list string
}.

Definition empty_state : checkpoint_state :=
  {| cp_wallpapers := JList []; cp_start_index := PyInt 0; cp_hashes := [] |}.

(** [load_checkpoint()].  Everything after the [exists] test runs inside
    [try ... except Exception], whose handler returns the empty state: a
    failing [open] or [json.load], [data.get] on a document that is not an
    object, and [len(wallpapers)] or [last_repo_index + 1] (both evaluated
    for the log line) on values that have none. *)
Definition load_checkpoint (fs : filesystem) : checkpoint_state :=
  if negb (Fs.exists_ fs CHECKPOINT_PATH) then empty_state
  else
    match Fs.read fs CHECKPOINT_PATH with
    | Raised => empty_state
    | Returned text =>
        match Json.loads text with
        | None => empty_state
        | Some data =>
            match Py.get data "wallpapers" (JList []),
                  Py.get data "last_repo_index" (JInt 0) with
            | Returned wallpapers, Returned last_repo_index =>
                let processed_hashes := [] in
                if Py.has_len wallpapers then
                  match Py.add_one last_repo_index with
                  | Returned next =>
                      {| cp_wallpapers := wallpapers;
                         cp_start_index := next;
                         cp_hashes := processed_hashes |}
                  | Raised => empty_state
                  end
                else empty_state
            | _, _ => empty_state
            end
        end
    end.

(* ================================================================== *)
(** ** PerceptualDeduplicator: fingerprints and the duplicate check *)
(* ================================================================== *)

Module ImageHash.

Definition bits_of_hex (c : ascii) : option (list bool) :=
  match Json.hex_val c with
  | Some n => Some [N.testbit n 3; N.testbit n 2; N.testbit n 1; N.testbit n 0]
  | None => None
  end.

Fixpoint hex_bits (hexstr : string) : outcome (list bool) :=
  match hexstr with
  | EmptyString => Returned []
  | String c r =>
      match bits_of_hex c, hex_bits r with
      | Some b, Returned bs => Returned (b ++ bs)
      | _, _ => Raised
      end
  end.

(** [imagehash.hex_to_hash]: the bits of the hexadecimal string, most
    significant first, four to a digit; [int(hexstr, 16)] raises on the
    empty string and on anything that is not a digit.  This is the bit
    array of the library for the 16-digit strings
    [str(imagehash.phash(...))] produces. *)
Definition hex_to_hash (hexstr : string) : outcome (list bool) :=
  match hexstr with
  | EmptyString => Raised
  | String _ _ => hex_bits hexstr
  end.

(** [numpy.count_nonzero(a.flatten() != b.flatten())]. *)
Fixpoint count_differing (a b : list bool) : Z :=
  match a, b with
  | x :: a', y :: b' => (if xorb x y then 1 else 0) + count_differing a' b'
  | _, _ => 0
  end.

(** [ImageHash.__sub__]: the Hamming distance; hashes of different sizes
    raise [TypeError]. *)
Definition sub (a b : list bool) : outcome Z :=
  if (List.length a =? List.length b)%nat
  then Returned (count_differing a b)
  else Raised.

(** [imagehash.hex_to_hash(x) - imagehash.hex_to_hash(y)]. *)
Definition distance (x y : string) : outcome Z :=
  match hex_to_hash x, hex_to_hash y with
  | Returned a, Returned b => sub a b
  | _, _ => Raised
  end.

End ImageHash.

(** The loop over [processed_hashes] in [process_repository]: the first
    fingerprint within [PHASH_THRESHOLD] bits sets [is_duplicate] and
    breaks. *)
Fixpoint is_duplicate (phash : string) (processed_hashes : list string)
  : outcome bool :=
  match processed_hashes with
  | [] => Returned false
  | existing_hash :: rest =>
      match ImageHash.distance phash existing_hash with
      | Raised => Raised
      | Returned d =>
          if d <=? PHASH_THRESHOLD then Returned true
          else is_duplicate phash rest
      end
  end.

(* ================================================================== *)
(** ** SourceAcquirer: [clone_repository] *)
(* ================================================================== *)

(** How one [subprocess.run] of git ends. *)
Inductive run_result :=
| Exit (returncode : Z) (stderr : string)
| TimeoutExpired
| OtherError.

(** The three git commands of one sparse attempt. *)
Record sparse_run := {
  init_run : run_result;
  sparse_checkout_run : run_result;
  checkout_run : run_result
}.

(** The remote as the git client meets it: what the [n]-th attempt (from 1)
    runs into, in either mode. *)
Record git := {
  full_clone : nat -> run_result;
  sparse_clone : nat -> sparse_run
}.

Inductive clone_event :=
| Attempt (n : nat)
| Sleep (seconds : Z).

(** What one attempt leads to. *)
Inductive attempt_result :=
| Cloned
| GiveUp
| Retry (delay : Z).

(** The sparse branch: a failed [init] or [checkout] raises a plain
    [Exception], which only the outer handler catches; a timeout of any
    step is caught by the inner one.  Both sleep 5 and go on. *)
Definition sparse_attempt (r : sparse_run) : attempt_result :=
  match init_run r with
  | TimeoutExpired => Retry 5
  | OtherError => Retry 5
  | Exit rc _ =>
      if negb (rc =? 0) then Retry 5
      else
        match sparse_checkout_run r with
        | TimeoutExpired => Retry 5
        | OtherError => Retry 5
        | Exit _ _ =>
            match checkout_run r with
            | TimeoutExpired => Retry 5
            | OtherError => Retry 5
            | Exit rc3 _ => if negb (rc3 =? 0) then Retry 5 else Cloned
            end
        end
  end.

(** The full branch: a non-zero exit is retried only when stderr names a
    network error. *)
Definition full_attempt (r : run_result) : attempt_result :=
  match r with
  | Exit rc stderr =>
      if rc =? 0 then Cloned
      else if PyStr.contains "Could not resolve host" stderr
              || PyStr.contains "Connection" stderr
           then Retry 5
           else GiveUp
  | TimeoutExpired => Retry 10
  | OtherError => Retry 5
  end.

(** The body of [while attempt < max_retries]; [remaining] is
    [max_retries - attempt]. *)
Fixpoint clone_loop (sparse : bool) (g : git) (max_retries attempt : nat)
    (remaining : nat) : bool * list clone_event :=
  match remaining with
  | O => (false, [])
  | S remaining' =>
      let attempt := S attempt in
      let result := if sparse then sparse_attempt (sparse_clone g attempt)
                    else full_attempt (full_clone g attempt) in
      match result with
      | Cloned => (true, [Attempt attempt])
      | GiveUp => (false, [Attempt attempt])
      | Retry delay =>
          if (attempt <? max_retries)%nat then
            let (ok, events) :=
              clone_loop sparse g max_retries attempt remaining' in
            (ok, Attempt attempt :: Sleep delay :: events)
          else (false, [Attempt attempt])
      end
  end.

(** [clone_repository(repo, temp_dir, test_mode, max_retries)]: whether a
    tree was cloned, and the attempts and sleeps on the way. *)
Definition clone_repository (repo : repository) (g : git) (test_mode : bool)
    (max_retries : nat) : bool * list clone_event :=
  let sparse := test_mode && match test_path repo with
                             | Some _ => true
                             | None => false
                             end in
  clone_loop sparse g max_retries 0 max_retries.

Definition attempts (events : list clone_event) : nat :=
  List.length (filter (fun e => match e with Attempt _ => true | _ => false end)
                      events).

(* ================================================================== *)
(** ** AssetScanner: [find_wallpapers] *)
(* ================================================================== *)

(** A file of a cloned tree, with what the libraries report on it. *)
Record image_file := {
  rel_path : string;                       (* relative to the clone, POSIX *)
  st_size : Z;                             (* [stat().st_size] *)
  image_size : option (Z * Z);             (* [Image.open]: width, height *)
  phash : string;                          (* [compute_perceptual_hash] *)
  embedding : option (list pyfloat);       (* [extractor.extract] *)
  colors : list string;                    (* [extract_colors] *)
  brightness : Z;                          (* [calculate_brightness] *)
  contrast : Z                             (* [calculate_contrast] *)
}.

(** The last component of a path. *)
Fixpoint file_name (p : string) : string :=
  match p with
  | EmptyString => EmptyString
  | String _ r => if PyStr.contains "/" p then file_name r else p
  end.

(** [repo_path.rglob("*" + ext)]: the files whose name matches the pattern,
    in the order of the walk.  [pathlib] matches with the case sensitivity
    of the platform's paths, which is exact on POSIX. *)
Definition rglob (tree : list image_file) (ext : string) : list image_file :=
  filter (fun f => PyStr.endswith (file_name (rel_path f)) ext) tree.

Definition valid_wallpaper (f : image_file) : bool :=
  if st_size f >? MAX_FILE_SIZE then false
  else match image_size f with
       | Some (w, h) => (w >=? fst MIN_RESOLUTION) && (h >=? snd MIN_RESOLUTION)
       | None => false
       end.

Definition find_wallpapers (tree : list image_file) : list image_file :=
  let wallpapers := flat_map (rglob tree) SUPPORTED_EXTENSIONS in
  filter valid_wallpaper wallpapers.

(* ================================================================== *)
(** ** Identifier, URL, category *)
(* ================================================================== *)

Definition CATEGORY_KEYWORDS : list (string * list string) :=
  [ ("nature", ["nature"; "landscape"; "forest"; "mountain"; "ocean";
                "sunset"; "sunrise"; "sky"]);
    ("minimal", ["minimal"; "minimalist"; "simple"; "clean"]);
    ("dark", ["dark"; "black"; "night"; "moody"]);
    ("abstract", ["abstract"; "geometric"; "pattern"; "art"]);
    ("anime", ["anime"; "manga"; "waifu"; "character"]);
    ("gruvbox", ["gruvbox"]);
    ("nord", ["nord"; "nordic"]);
    ("city", ["city"; "urban"; "building"; "street"]);
    ("space", ["space"; "planet"; "galaxy"; "star"; "nebula"]);
    ("gradient", ["gradient"; "color"]);
    ("gaming", ["game"; "gaming"; "cyberpunk"]) ].

Definition detect_category (file_path : string) (repo_name : string) : string :=
  let path_str := PyStr.lower file_path in
  match find (fun entry => existsb (fun keyword => PyStr.contains keyword path_str)
                                   (snd entry))
             CATEGORY_KEYWORDS with
  | Some (category, _) => category
  | None =>
      if PyStr.contains "minimal" (PyStr.lower repo_name) then "minimal"
      else if PyStr.contains "nordic" (PyStr.lower repo_name) then "nord"
      else if PyStr.contains "aesthetic" (PyStr.lower repo_name) then "aesthetic"
      else "other"
  end.

Definition generate_cdn_url (repo_name relative_path branch : string) : string :=
  let clean_path :=
    PyStr.lstrip_char "/" (PyStr.replace_char "\" "/" relative_path) in
  "https://cdn.jsdelivr.net/gh/" ++ repo_name ++ "@" ++ branch ++ "/"
  ++ clean_path.

(** [get_image_resolution]. *)
Definition get_image_resolution (f : image_file) : string :=
  match image_size f with
  | Some (w, h) => Json.dumps_int w ++ "x" ++ Json.dumps_int h
  | None => "unknown"
  end.

(* ================================================================== *)
(** ** PipelineOrchestrator: [process_repository], [main] *)
(* ================================================================== *)

(** A source as a run meets it: the remote, and the tree a successful
    clone leaves, sparse or full, in the order [rglob] walks it. *)
Record source := {
  remote : git;
  sparse_tree : list image_file;
  full_tree : list image_file
}.

Record world := {
  source_of : repository -> source;
  utcnow : Z -> string          (* the clock when checkpoint [idx] is saved *)
}.

(** The variables of [main] that the loop over the sources changes, and the
    checkpoints [save_checkpoint] has written, oldest first. *)
Record run_state := {
  disk : filesystem;
  all_wallpapers : json;
  processed_hashes : list string;
  saved : list (Z * list json)
}.

Section Pipeline.

(** [hashlib.md5(s.encode()).hexdigest()]. *)
Variable md5_hexdigest : string -> string.

Definition generate_wallpaper_id (repo_name relative_path : string) : string :=
  let hash_input := (repo_name ++ "/" ++ relative_path)%string in
  let hash_hex := PyStr.take 12 (md5_hexdigest hash_input) in
  let repo_short :=
    PyStr.take 8
      (PyStr.replace_char "_" EmptyString
         (PyStr.replace_char "-" EmptyString
            (PyStr.split_head "/" repo_name))) in
  repo_short ++ "_" ++ hash_hex.

(** The dictionary [process_repository] builds for one image. *)
Definition wallpaper_data (repo : repository) (img : image_file)
    (emb : list pyfloat) : json :=
  let relative_path := rel_path img in
  let category := detect_category relative_path (name repo) in
  let wallpaper_id := generate_wallpaper_id (name repo) relative_path in
  let cdn_url := generate_cdn_url (name repo) relative_path (branch repo) in
  JDict [("id", JStr wallpaper_id);
         ("url", JStr cdn_url);
         ("thumbnail", JStr cdn_url);
         ("source", JStr "github");
         ("repo", JStr (name repo));
         ("category", JStr category);
         ("colors", JList (map JStr (colors img)));
         ("brightness", JInt (brightness img));
         ("contrast", JInt (contrast img));
         ("embedding", JList (map JFloat emb));
         ("resolution", JStr (get_image_resolution img));
         ("attribution", JStr (name repo))].

(** One turn of [for img_path in image_paths], on the pair
    [(wallpapers, processed_hashes)].  Every [continue], and the handler
    of the enclosing [try], leaves both as they are. *)
Definition process_image (repo : repository)
    (st : list json * list string) (img : image_file)
  : list json * list string :=
  let (wallpapers, hashes) := st in
  if String.eqb (phash img) EmptyString then st
  else
    match is_duplicate (phash img) hashes with
    | Raised => st
    | Returned true => st
    | Returned false =>
        match embedding img with
        | None => st
        | Some emb =>
            (wallpapers ++ [wallpaper_data repo img emb],
             Py.set_add (phash img) hashes)
        end
    end.

Definition process_images (repo : repository) (image_paths : list image_file)
    (st : list json * list string) : list json * list string :=
  fold_left (process_image repo) image_paths st.

(** [process_repository(repo, extractor, processed_hashes, test_mode)]:
    the wallpapers of this source, and the set as the call leaves it. *)
Definition process_repository (repo : repository) (src : source)
    (hashes : list string) (test_mode : bool) : list json * list string :=
  let (cloned, _) := clone_repository repo (remote src) test_mode 3 in
  if negb cloned then ([], hashes)
  else
    let sparse := test_mode && match test_path repo with
                               | Some _ => true
                               | None => false
                               end in
    let image_paths :=
      find_wallpapers (if sparse then sparse_tree src else full_tree src) in
    let image_paths := if test_mode then firstn 10 image_paths
                       else image_paths in
    process_images repo image_paths ([], hashes).

(** The body of [for idx, repo in enumerate(...)], whose [try] hands every
    exception to [continue]: what was changed before it stays changed. *)
Definition main_step (w : world) (test_mode : bool) (st : run_state)
    (idx : Z) (repo : repository) : run_state :=
  let (wallpapers, hashes) :=
    process_repository repo (source_of w repo) (processed_hashes st)
                       test_mode in
  match Py.extend (all_wallpapers st) wallpapers with
  | Raised =>
      {| disk := disk st; all_wallpapers := all_wallpapers st;
         processed_hashes := hashes; saved := saved st |}
  | Returned extended =>
      match save_checkpoint (disk st) extended idx (utcnow w idx) with
      | Raised =>
          {| disk := disk st; all_wallpapers := JList extended;
             processed_hashes := hashes; saved := saved st |}
      | Returned fs =>
          {| disk := fs; all_wallpapers := JList extended;
             processed_hashes := hashes;
             saved := saved st ++ [(idx, extended)] |}
      end
  end.

Fixpoint main_loop (w : world) (test_mode : bool) (st : run_state)
    (idx : Z) (repos : list repository) : run_state :=
  match repos with
  | [] => st
  | repo :: rest =>
      main_loop w test_mode (main_step w test_mode st idx repo) (idx + 1) rest
  end.

(** [main()] with [--test] and [--resume] as [test_mode] and [resume], up
    to the end of the loop over the sources.  A start index that is not
    an [int] cannot slice [REPOSITORIES]. *)
Definition main (w : world) (test_mode resume : bool) (fs : filesystem)
  : outcome run_state :=
  let start := if resume then load_checkpoint fs else empty_state in
  match cp_start_index start with
  | PyFloatSucc _ => Raised
  | PyInt start_index =>
      Returned
        (main_loop w test_mode
           {| disk := fs; all_wallpapers := cp_wallpapers start;
              processed_hashes := cp_hashes start; saved := [] |}
           start_index (Py.slice_from REPOSITORIES start_index))
  end.

End Pipeline.

(* ================================================================== *)
(** ** ManifestBuilder: [generate_manifest], [save_manifest], and the end
       of [main] *)
(* ================================================================== *)

Module Manifest.

(** *** [json.dump(obj, f, indent=2)]: every element and member on a line
    of its own, two spaces deeper than the bracket that holds it; the
    item separator is a bare comma, the key separator [": "]; empty
    arrays and objects stay [[]] and [{}]. *)

Fixpoint spaces (n : nat) : string :=
  match n with
  | O => EmptyString
  | S n' => String " " (spaces n')
  end.

(** ['\n' + ' ' * (2 * level)]. *)
Definition newline_indent (level : nat) : string :=
  String (ascii_of_N 10) (spaces (2 * level)).

Fixpoint dumps_indent (level : nat) (v : json) : string :=
  match v with
  | JList l =>
      match l with
      | [] => "[]"
      | x :: r =>
          String "[" (newline_indent (S level) ++ dumps_indent (S level) x ++
          (fix more (r : list json) : string :=
             match r with
             | [] => newline_indent level ++ "]"
             | y :: r' =>
                 String "," (newline_indent (S level)
                             ++ dumps_indent (S level) y ++ more r')
             end) r)
      end%string
  | JDict d =>
      match d with
      | [] => "{}"
      | (k, x) :: r =>
          String "{" (newline_indent (S level) ++ Json.dumps_str k ++ ": "
                      ++ dumps_indent (S level) x ++
          (fix more (r : list (string * json)) : string :=
             match r with
             | [] => newline_indent level ++ "}"
             | (k', y) :: r' =>
                 String "," (newline_indent (S level) ++ Json.dumps_str k'
                             ++ ": " ++ dumps_indent (S level) y ++ more r')
             end) r)
      end%string
  | _ => Json.dumps v
  end.

(** *** The Python operations the builder applies to documents *)

(** The keys of an object as a [dict] holds them: once each, at the place
    of their first occurrence. *)
Fixpoint keys_from (seen : list string) (d : list (string * json))
  : list string :=
  match d with
  | [] => seen
  | (k, _) :: r =>
      keys_from (if existsb (String.eqb k) seen then seen else seen ++ [k]) r
  end.

Definition keys (d : list (string * json)) : list string := keys_from [] d.

(** [len(v)]. *)
Definition len (v : json) : outcome Z :=
  match v with
  | JList l => Returned (Z.of_nat (List.length l))
  | JDict d => Returned (Z.of_nat (List.length (keys d)))
  | JStr s => Returned (Z.of_nat (String.length s))
  | _ => Raised
  end.

(** [v[key]] for a string [key]: only an object can be subscripted with
    it, and the key has to be there. *)
Definition item (v : json) (key : string) : outcome json :=
  match v with
  | JDict d =>
      match Py.lookup key d with
      | Some x => Returned x
      | None => Raised
      end
  | _ => Raised
  end.

(** [for w in v]: the elements of a list, the keys of an object, the
    characters of a string. *)
Definition iterate (v : json) : outcome (list json) :=
  match v with
  | JList l => Returned l
  | JDict d => Returned (map JStr (keys d))
  | JStr s =>
      Returned (map (fun c => JStr (String c EmptyString))
                    (list_ascii_of_string s))
  | _ => Raised
  end.

(** What a [dict] takes as a key. *)
Definition hashable (v : json) : bool :=
  match v with
  | JList _ | JDict _ => false
  | _ => true
  end.

(** *** [generate_manifest(wallpapers)], with
    [datetime.utcnow().isoformat()] passed in as [now]. *)
Definition generate_manifest (now : string) (wallpapers : json)
  : outcome json :=
  match len wallpapers with
  | Raised => Raised
  | Returned total =>
      Returned (JDict [("version", JInt 1);
                       ("last_updated", JStr (now ++ "Z"));
                       ("model_version", JStr "mobilenet_v3_small");
                       ("embedding_dim", JInt 576);
                       ("total_wallpapers", JInt total);
                       ("wallpapers", wallpapers)])
  end.

(** [MANIFEST_PATH.with_suffix('.json.gz')]. *)
Definition COMPRESSED_PATH : string := OUTPUT_DIR ++ "/manifest.json.gz".

(** The loop [categories[w['category']] += 1] of the category breakdown:
    the keys counted, in order; the first subscript or key that fails
    raises. *)
Fixpoint counted_categories (wallpapers : list json)
  : outcome (list json) :=
  match wallpapers with
  | [] => Returned []
  | w :: rest =>
      match item w "category" with
      | Raised => Raised
      | Returned category =>
          if hashable category then
            match counted_categories rest with
            | Raised => Raised
            | Returned more => Returned (category :: more)
            end
          else Raised
      end
  end.

(** How a call that writes files ends: it returns, or an exception
    leaves it; either way with the file system as it is by then. *)
Inductive ending :=
| Completed (fs : filesystem)
| Crashed (fs : filesystem).

(** What the platform decides. *)
Record host := {
  gzip_compress : string -> string;  (* the bytes [gzip] writes for a text *)
  manifest_time : string;            (* the clock in [generate_manifest] *)
  unlink_refused : bool              (* whether [unlink] raises on a path
                                        that [open] refuses *)
}.

(** [save_manifest(manifest)]: the indented document goes straight into
    [manifest.json], its compressed copy into [manifest.json.gz]; then the
    statistics are printed, which read [manifest['total_wallpapers']],
    divide by the compressed size and count [w['category']] over
    [manifest['wallpapers']].  What is printed is not kept. *)
Definition save_manifest (h : host) (fs : filesystem) (manifest : json)
  : ending :=
  match Fs.open_w fs MANIFEST_PATH with
  | Raised => Crashed fs
  | Returned fs1 =>
      let text := dumps_indent 0 manifest in
      let fs2 := Fs.write_all fs1 MANIFEST_PATH text in
      match Fs.open_w fs2 COMPRESSED_PATH with
      | Raised => Crashed fs2
      | Returned fs3 =>
          let fs4 := Fs.write_all fs3 COMPRESSED_PATH (gzip_compress h text) in
          match item manifest "total_wallpapers" with
          | Raised => Crashed fs4
          | Returned _ =>
              if (String.length (gzip_compress h text) =? 0)%nat
              then Crashed fs4
              else
                match item manifest "wallpapers" with
                | Raised => Crashed fs4
                | Returned wallpapers =>
                    match iterate wallpapers with
                    | Raised => Crashed fs4
                    | Returned ws =>
                        match counted_categories ws with
                        | Raised => Crashed fs4
                        | Returned _ => Completed fs4
                        end
                    end
                end
          end
      end
  end.

(** The end of [main], after the loop over the sources: the manifest is
    built from [all_wallpapers] and saved, then the checkpoint, if there
    is one, is removed.  Nothing here is inside a [try]. *)
Definition finish (h : host) (st : run_state) : ending :=
  match generate_manifest (manifest_time h) (all_wallpapers st) with
  | Raised => Crashed (disk st)
  | Returned manifest =>
      match save_manifest h (disk st) manifest with
      | Crashed fs => Crashed fs
      | Completed fs =>
          match fs CHECKPOINT_PATH with
          | Missing => Completed fs
          | File _ => Completed (Fs.unlink fs CHECKPOINT_PATH)
          | Denied => if unlink_refused h then Crashed fs
                      else Completed (Fs.unlink fs CHECKPOINT_PATH)
          end
      end
  end.

(** [main()] from the first line to the last. *)
Definition main_to_end (h : host) (md5 : string -> string) (w : world)
    (test_mode resume : bool) (fs : filesystem) : ending :=
  match main md5 w test_mode resume fs with
  | Raised => Crashed fs
  | Returned st => finish h st
  end.

(** *** What the proofs about the indented encoder speak of *)




End Manifest.

(* ================================================================== *)
(** ** Notions the statements use *)
(* ================================================================== *)

Module Spec.


Fixpoint all_hex (s : string) : bool :=
  match s with
  | EmptyString => true
  | String c r =>
      match Json.hex_val c with
      | Some _ => all_hex r
      | None => false
      end
  end.

(** The strings [str(imagehash.phash(...))] produces: 16 hexadecimal
    digits, 64 bits. *)
Definition is_fingerprint (s : string) : bool :=
  (String.length s =? 16)%nat && all_hex s.

(** Whether the loop of [process_repository] appends a record for [img]
    when the seen set is [hashes]: the fingerprint was computed, the
    duplicate check returned "no", and the embedding was extracted. *)
Definition accepts (hashes : list string) (img : image_file) : bool :=
  negb (String.eqb (phash img) EmptyString)
  && match is_duplicate (phash img) hashes with
     | Returned false => true
     | _ => false
     end
  && match embedding img with
     | Some _ => true
     | None => false
     end.

(** The images of [imgs], in order, for which a record is appended when the
    loop starts with the seen set [hashes]. *)
Fixpoint accepted (hashes : list string) (imgs : list image_file)
  : list image_file :=
  match imgs with
  | [] => []
  | img :: rest =>
      if accepts hashes img
      then img :: accepted (hashes ++ [phash img]) rest
      else accepted hashes rest
  end.

(** The record a turn of the loop appends for [img], if its embedding is
    extracted. *)
Definition record_of (md5 : string -> string) (repo : repository)
    (img : image_file) : list json :=
  match embedding img with
  | Some emb => [wallpaper_data md5 repo img emb]
  | None => []
  end.


(** The records of one checkpoint are the start of the records of the
    other. *)
Definition extends_ (later earlier : list json) : Prop :=
  exists more, later = earlier ++ more.

(** C4 as the specification words it: the later record list holds every
    record of the earlier one and at least one more. *)
Definition strict_superset (later earlier : list json) : Prop :=
  (forall r, In r earlier -> In r later)
  /\ exists r, In r later /\ ~ In r earlier.

Definition grows (log : list (Z * list json)) : Prop :=
  forall i j c1 c2,
    (i < j)%nat -> nth_error log i = Some c1 -> nth_error log j = Some c2 ->
    extends_ (snd c2) (snd c1).

Definition strictly_grows (log : list (Z * list json)) : Prop :=
  forall i j c1 c2,
    (i < j)%nat -> nth_error log i = Some c1 -> nth_error log j = Some c2 ->
    strict_superset (snd c2) (snd c1).

Definition bounded_by (log : list (Z * list json)) (l : list json) : Prop :=
  forall c, In c log -> extends_ l (snd c).

Definition checkpoints_written (o : outcome run_state)
  : list (Z * list json) :=
  match o with
  | Returned st => saved st
  | Raised => []
  end.

(** The invariant of the loop of [main]. *)
Definition log_ok (st : run_state) : Prop :=
  grows (saved st)
  /\ forall l, all_wallpapers st = JList l -> bounded_by (saved st) l.

(** C8 as the specification words it: a file whose extension is on the
    allow-list in some letter casing is found (when it passes the size and
    resolution filters). *)
Definition case_insensitive_scan (tree : list image_file) : Prop :=
  forall f ext,
    In f tree -> In ext SUPPORTED_EXTENSIONS ->
    PyStr.endswith (PyStr.lower (file_name (rel_path f))) ext = true ->
    valid_wallpaper f = true ->
    In f (find_wallpapers tree).



End Spec.

(* ================================================================== *)
(** ** Inputs of the examples *)
(* ================================================================== *)

Module Sample.
Import Spec.

(** A file system with nothing in it. *)
Definition no_files : filesystem := fun _ => Missing.

Definition sample_record : json :=
  JDict [("id", JStr "dharmx_0123456789ab");
         ("repo", JStr "dharmx/walls");
         ("brightness", JInt 42);
         ("embedding", JList [JFloat (PyFloat 125 (-3)); JFloat (PyFloat (-5) (-1))])].

(** A checkpoint cut off in the middle of its record list. *)
Definition torn_checkpoint : filesystem :=
  Fs.put no_files CHECKPOINT_PATH
         (File (PyStr.take 40 (Json.dumps (checkpoint_data [sample_record] 0
                                             "2024-05-01T12:00:00")))).

(** The checkpoint of a run that has finished its first source. *)
Definition previous_checkpoint : filesystem :=
  Fs.put no_files CHECKPOINT_PATH
         (File (Json.dumps (checkpoint_data [sample_record] 0
                              "2024-05-01T12:00:00"))).

(** A stand-in for the digest function in closed examples: every input
    gets the digest of the empty input. *)
Definition md5_stub : string -> string :=
  fun _ => "d41d8cd98f00b204e9800998ecf8427e".

Definition first_source : repository :=
  {| url := "https://github.com/dharmx/walls"; branch := "main";
     name := "dharmx/walls"; test_path := Some "animated" |}.

Definition second_source : repository :=
  {| url := "https://github.com/D3Ext/aesthetic-wallpapers"; branch := "main";
     name := "D3Ext/aesthetic-wallpapers"; test_path := Some "images/anime" |}.

(** An image the embedding model fails on. *)
Definition unembeddable : image_file :=
  {| rel_path := "nature/lake.png"; st_size := 2000000;
     image_size := Some (1920, 1080); phash := "c3a1f0e2b4d59687";
     embedding := None; colors := ["#102030"; "#405060"];
     brightness := 40; contrast := 55 |}.

(** A remote that answers every clone with "repository not found". *)
Definition gone : git :=
  {| full_clone := fun _ => Exit 128 "fatal: repository not found";
     sparse_clone := fun _ =>
       {| init_run := Exit 128 "fatal: repository not found";
          sparse_checkout_run := Exit 0 EmptyString;
          checkout_run := Exit 0 EmptyString |} |}.

Definition gone_source : source :=
  {| remote := gone; sparse_tree := []; full_tree := [] |}.

(** A world in which no source can be cloned. *)
Definition dead_world : world :=
  {| source_of := fun _ => gone_source;
     utcnow := fun _ => "2024-05-01T12:00:00" |}.

Definition lake : image_file :=
  {| rel_path := "nature/lake.png"; st_size := 2000000;
     image_size := Some (1920, 1080); phash := "c3a1f0e2b4d59687";
     embedding := Some [PyFloat 6 (-1); PyFloat 8 (-1)];
     colors := ["#102030"; "#405060"]; brightness := 40; contrast := 55 |}.

(** The same picture, scaled down and recompressed: 3 bits away. *)
Definition lake_again : image_file :=
  {| rel_path := "landscapes/lake-1080p.jpg"; st_size := 900000;
     image_size := Some (1920, 1080); phash := "c3a1f0e2b4d59680";
     embedding := Some [PyFloat 6 (-1); PyFloat 8 (-1)];
     colors := ["#102030"; "#405060"]; brightness := 41; contrast := 54 |}.

Definition reachable (tree : list image_file) : source :=
  {| remote :=
       {| full_clone := fun _ => Exit 0 EmptyString;
          sparse_clone := fun _ =>
            {| init_run := Exit 0 EmptyString;
               sparse_checkout_run := Exit 0 EmptyString;
               checkout_run := Exit 0 EmptyString |} |};
     sparse_tree := tree; full_tree := tree |}.

(** The first source holds [lake], the second [lake_again], the others
    cannot be cloned. *)
Definition twin_world : world :=
  {| source_of := fun r =>
       if String.eqb (name r) "dharmx/walls" then reachable [lake]
       else if String.eqb (name r) "D3Ext/aesthetic-wallpapers"
            then reachable [lake_again]
            else gone_source;
     utcnow := fun _ => "2024-05-01T12:00:00" |}.

(** [main] before its loop, not resuming. *)
Definition fresh : run_state :=
  {| disk := no_files; all_wallpapers := JList [];
     processed_hashes := []; saved := [] |}.

(** [lake] under the same name in the same source, seen by a later run:
    other bytes, other fingerprint, other embedding. *)
Definition lake_retouched : image_file :=
  {| rel_path := "nature/lake.png"; st_size := 2100000;
     image_size := Some (2560, 1440); phash := "0123456789abcdef";
     embedding := Some [PyFloat 1 0; PyFloat 0 0];
     colors := ["#112233"]; brightness := 45; contrast := 50 |}.

(** A remote that refuses the credentials, on every attempt and in both
    modes. *)
Definition auth_failure : git :=
  {| full_clone := fun _ =>
       Exit 128 "fatal: Authentication failed for 'https://github.com/dharmx/walls/'";
     sparse_clone := fun _ =>
       {| init_run :=
            Exit 128 "fatal: Authentication failed for 'https://github.com/dharmx/walls/'";
          sparse_checkout_run := Exit 0 EmptyString;
          checkout_run := Exit 0 EmptyString |} |}.

(** A photograph with an upper-case extension. *)
Definition sunset_upper : image_file :=
  {| rel_path := "Photos/Sunset.JPG"; st_size := 3500000;
     image_size := Some (3840, 2160); phash := "f0e1d2c3b4a59687";
     embedding := Some [PyFloat 1 0]; colors := ["#ff8800"];
     brightness := 60; contrast := 70 |}.

Definition sunset_lower : image_file :=
  {| rel_path := "Photos/sunset.jpg"; st_size := 3500000;
     image_size := Some (3840, 2160); phash := "f0e1d2c3b4a59687";
     embedding := Some [PyFloat 1 0]; colors := ["#ff8800"];
     brightness := 60; contrast := 70 |}.

(** The first source holds [lake], the second [sunset_lower], the others
    cannot be cloned. *)
Definition two_pictures_world : world :=
  {| source_of := fun r =>
       if String.eqb (name r) "dharmx/walls" then reachable [lake]
       else if String.eqb (name r) "D3Ext/aesthetic-wallpapers"
            then reachable [sunset_lower]
            else gone_source;
     utcnow := fun _ => "2024-05-01T12:00:00" |}.



End Sample.

(* ================================================================== *)
(** ** Measures of a run *)
(* ================================================================== *)

Module Measure.

(** What the [n]-th attempt of [clone_repository] leads to, in the mode
    the call runs in. *)
Definition attempt_outcome (sparse : bool) (g : git) (n : nat)
  : attempt_result :=
  if sparse then sparse_attempt (sparse_clone g n)
  else full_attempt (full_clone g n).

(** Whether the call clones sparsely. *)
Definition sparse_mode (repo : repository) (test_mode : bool) : bool :=
  test_mode && match test_path repo with
               | Some _ => true
               | None => false
               end.

(** The numbers of the attempts of a trace, in order. *)
Definition attempt_numbers (events : list clone_event) : list nat :=
  flat_map (fun e => match e with Attempt n => [n] | Sleep _ => [] end)
           events.

(** The [time.sleep] calls of a trace, and the seconds they add up to. *)
Definition sleeps (events : list clone_event) : list Z :=
  flat_map (fun e => match e with Attempt _ => [] | Sleep d => [d] end)
           events.

Definition total_sleep (events : list clone_event) : Z :=
  fold_right Z.add 0 (sleeps events).

(** A trace in which attempts and sleeps take turns, beginning and ending
    with an attempt (or empty). *)
Fixpoint alternates (events : list clone_event) : bool :=
  match events with
  | [] => true
  | [Attempt _] => true
  | Attempt _ :: Sleep _ :: rest =>
      match rest with
      | [] => false
      | _ :: _ => alternates rest
      end
  | _ => false
  end.

(** Two fingerprints more than [PHASH_THRESHOLD] bits apart. *)
Definition far (a b : string) : Prop :=
  exists d, ImageHash.distance a b = Returned d /\ PHASH_THRESHOLD < d.

(** A seen set in which any two fingerprints are far from each other. *)
Definition far_apart (hashes : list string) : Prop :=
  forall i j a b,
    i <> j -> nth_error hashes i = Some a -> nth_error hashes j = Some b ->
    far a b.

(** What the sources of [repos] yield one after the other, starting with
    the seen set [hashes]: the records, and the set at the end. *)
Fixpoint harvest (md5 : string -> string) (w : world) (test_mode : bool)
    (hashes : list string) (repos : list repository)
  : list json * list string :=
  match repos with
  | [] => ([], hashes)
  | repo :: rest =>
      let (wallpapers, hashes1) :=
        process_repository md5 repo (source_of w repo) hashes test_mode in
      let (more, hashes2) := harvest md5 w test_mode hashes1 rest in
      (wallpapers ++ more, hashes2)
  end.

(** The record [rec] stands for an image of the tree a successful clone
    of [repo] left. *)
Definition from_source (md5 : string -> string) (w : world)
    (test_mode : bool) (repo : repository) (rec : json) : Prop :=
  fst (clone_repository repo (remote (source_of w repo)) test_mode 3) = true
  /\ exists img emb,
       In img (find_wallpapers
                 (if sparse_mode repo test_mode
                  then sparse_tree (source_of w repo)
                  else full_tree (source_of w repo)))
       /\ embedding img = Some emb
       /\ rec = wallpaper_data md5 repo img emb.

End Measure.

(* ================================================================== *)
(** ** Further inputs of the examples *)
(* ================================================================== *)

Module Inputs.
Import Sample.

(** A remote whose first clone times out and whose later ones succeed. *)
Definition flaky : git :=
  {| full_clone := fun n => if (n =? 1)%nat then TimeoutExpired
                            else Exit 0 EmptyString;
     sparse_clone := fun n =>
       {| init_run := if (n =? 1)%nat then TimeoutExpired
                      else Exit 0 EmptyString;
          sparse_checkout_run := Exit 0 EmptyString;
          checkout_run := Exit 0 EmptyString |} |}.

Definition checkpoint_file (text : string) : filesystem :=
  Fs.put no_files CHECKPOINT_PATH (File text).

(** Checkpoint files that are JSON but not what [save_checkpoint] writes:
    an empty object, a list, a number under [wallpapers], a string under
    [last_repo_index]. *)
Definition empty_object_checkpoint : filesystem := checkpoint_file "{}".

Definition list_checkpoint : filesystem := checkpoint_file "[1, 2]".

Definition numeric_wallpapers_checkpoint : filesystem :=
  checkpoint_file (Json.dumps (JDict [("wallpapers", JInt 5)])).

Definition textual_index_checkpoint : filesystem :=
  checkpoint_file (Json.dumps (JDict [("last_repo_index", JStr "3")])).


(** As [twin_world], but the first source cannot be cloned. *)
Definition first_gone_world : world :=
  {| source_of := fun r =>
       if String.eqb (name r) "D3Ext/aesthetic-wallpapers"
       then reachable [lake_again]
       else gone_source;
     utcnow := fun _ => "2024-05-01T12:00:00" |}.

(** A platform for the examples: compression is a stand-in that puts the
    two magic bytes of gzip in front of the text. *)
Definition sample_host : Manifest.host :=
  {| Manifest.gzip_compress := fun text =>
       String (ascii_of_N 31) (String (ascii_of_N 139) text);
     Manifest.manifest_time := "2024-05-01T12:30:00";
     Manifest.unlink_refused := true |}.

(** A checkpoint whose index is the float 3.0. *)
Definition fractional_index_checkpoint : filesystem :=
  checkpoint_file
    (Json.dumps (JDict [("wallpapers", JList [sample_record]);
                        ("last_repo_index", JFloat (PyFloat 30 (-1)))])).

End Inputs.

(* ================================================================== *)
(** * Facts *)
(* ================================================================== *)

Module PyStrFacts.
Import PyStr.

Lemma append_assoc (a b c : string) :
  ((a ++ b) ++ c = a ++ (b ++ c))%string.
Proof. induction a as [|x a IH]; simpl; [reflexivity | now rewrite IH]. Qed.

Lemma append_nil_r (a : string) : (a ++ EmptyString = a)%string.
Proof. induction a as [|x a IH]; simpl; [reflexivity | now rewrite IH]. Qed.

Lemma length_append (a b : string) :
  String.length (a ++ b) = (String.length a + String.length b)%nat.
Proof. induction a as [|x a IH]; simpl; [reflexivity | now rewrite IH]. Qed.

Lemma take_append (a b : string) : take (String.length a) (a ++ b) = a.
Proof. induction a as [|x a IH]; simpl; [now destruct b | now rewrite IH]. Qed.



End PyStrFacts.

(** *** [loads] inverts [dumps] *)

Module JsonFacts.
Import Json.

Lemma dumps_list_cons x r :
  dumps (JList (x :: r)) = String "[" (dumps x ++ dumps_more r).
Proof. reflexivity. Qed.

Lemma dumps_dict_cons k x r :
  dumps (JDict ((k, x) :: r))
  = String "{" (dumps_str k ++ ": " ++ dumps x ++ dumps_more_members r).
Proof. reflexivity. Qed.

Ltac app_nf :=
  repeat (progress (rewrite ?PyStrFacts.append_assoc; cbn [append])).

Lemma more_cons_app y r rest :
  (dumps_more (y :: r) ++ rest
   = String "," (String " " (dumps y ++ (dumps_more r ++ rest))))%string.
Proof. cbn [dumps_more append]. now rewrite PyStrFacts.append_assoc. Qed.

Lemma list_cons_app x r rest :
  (dumps (JList (x :: r)) ++ rest
   = String "[" (dumps x ++ (dumps_more r ++ rest)))%string.
Proof.
  rewrite dumps_list_cons. cbn [append]. now rewrite PyStrFacts.append_assoc.
Qed.

Lemma more_members_cons_app k y r rest :
  (dumps_more_members ((k, y) :: r) ++ rest
   = String "," (String " "
       (dumps_str k ++
        String ":" (String " " (dumps y ++ (dumps_more_members r ++ rest))))))%string.
Proof. cbn [dumps_more_members]. app_nf. reflexivity. Qed.

Lemma dict_cons_app k x r rest :
  (dumps (JDict ((k, x) :: r)) ++ rest
   = String "{"
       (dumps_str k ++
        String ":" (String " " (dumps x ++ (dumps_more_members r ++ rest)))))%string.
Proof. rewrite dumps_dict_cons. app_nf. reflexivity. Qed.

Lemma jsize_pos v : (1 <= jsize v)%nat.
Proof. destruct v; simpl; lia. Qed.

(** **** Numbers *)

Lemma follow_ok_nondigit s : follow_ok s = true -> nondigit_head s = true.
Proof.
  destruct s as [|c s]; simpl; [reflexivity|].
  destruct (is_digit c); simpl; [discriminate | reflexivity].
Qed.

Lemma span_digits_uint d rest :
  nondigit_head rest = true ->
  span_digits (NilEmpty.string_of_uint d ++ rest)
  = (NilEmpty.string_of_uint d, rest).
Proof.
  intros H. induction d; simpl; try (rewrite IHd; reflexivity).
  destruct rest as [|c r]; simpl in *; [reflexivity|].
  destruct (is_digit c); [discriminate | reflexivity].
Qed.

Lemma string_of_uint_head d :
  d <> Decimal.Nil ->
  exists c r, NilEmpty.string_of_uint d = String c r /\ is_digit c = true.
Proof.
  destruct d; intros H; try (now elim H); simpl; eauto.
Qed.

Lemma parse_uint_dumps d rest :
  d <> Decimal.Nil -> nondigit_head rest = true ->
  parse_uint (NilEmpty.string_of_uint d ++ rest) = Some (d, rest).
Proof.
  intros Hd H. unfold parse_uint. rewrite span_digits_uint by assumption.
  destruct (string_of_uint_head d Hd) as (c & r & E & _).
  rewrite E, <- E, NilEmpty.usu. reflexivity.
Qed.

Lemma digit_not_minus c : is_digit c = true -> Ascii.eqb c "-" = false.
Proof.
  destruct c as [[] [] [] [] [] [] [] []]; simpl; intros H;
    first [reflexivity | discriminate].
Qed.

Lemma digit_not_plus c : is_digit c = true -> Ascii.eqb c "+" = false.
Proof.
  destruct c as [[] [] [] [] [] [] [] []]; simpl; intros H;
    first [reflexivity | discriminate].
Qed.

(** The decimal digits of a positive number do not start with [0]. *)
Lemma to_uint_head p :
  exists c r, NilEmpty.string_of_uint (Pos.to_uint p) = String c r
              /\ is_digit c = true /\ Ascii.eqb c "0" = false.
Proof.
  assert (Pos.to_uint p = Decimal.unorm (Pos.to_uint p)) as E.
  { rewrite <- DecimalPos.Unsigned.to_of, DecimalPos.Unsigned.of_to.
    reflexivity. }
  pose proof (DecimalPos.Unsigned.to_uint_nonzero p) as Hz.
  pose proof (DecimalPos.Unsigned.to_uint_nonnil p) as Hn.
  destruct (Pos.to_uint p) as [|d|d|d|d|d|d|d|d|d|d] eqn:Ed;
    try (now elim Hn); try (simpl; do 2 eexists; repeat split; reflexivity).
  exfalso. rewrite DecimalFacts.unorm_D0 in E. unfold Decimal.unorm in E.
  destruct (Decimal.nzhead d) eqn:Eh; try discriminate E.
  - exact (Hz E).
  - exact (DecimalFacts.nzhead_nonzero _ _ Eh).
Qed.

Lemma parse_natural_pos p rest :
  nondigit_head rest = true ->
  parse_natural (NilEmpty.string_of_uint (Pos.to_uint p) ++ rest)
  = Some (Pos.to_uint p, rest).
Proof.
  intros H. destruct (to_uint_head p) as (c & r & E & _ & Hc).
  unfold parse_natural. rewrite E. cbn [append]. rewrite Hc.
  change (String c (r ++ rest)) with (String c r ++ rest)%string.
  rewrite <- E.
  apply parse_uint_dumps;
    [apply DecimalPos.Unsigned.to_uint_nonnil | assumption].
Qed.

Lemma parse_integer_dumps z rest :
  nondigit_head rest = true ->
  parse_integer (dumps_int z ++ rest) = Some (z, rest).
Proof.
  intros H. unfold dumps_int.
  rewrite <- (DecimalZ.of_to z) at 2.
  destruct z as [|p|p]; simpl Z.to_int; cbn [NilEmpty.string_of_int].
  - reflexivity.
  - destruct (to_uint_head p) as (c & r & E & Hd & _).
    unfold parse_integer. rewrite E. cbn [append].
    rewrite (digit_not_minus c Hd).
    change (String c (r ++ rest)) with (String c r ++ rest)%string.
    rewrite <- E, parse_natural_pos by assumption. reflexivity.
  - unfold parse_integer. cbn [append]. simpl Ascii.eqb. cbv iota.
    rewrite parse_natural_pos by assumption. reflexivity.
Qed.

Lemma parse_exp_dumps x rest :
  nondigit_head rest = true ->
  parse_exp (String "e" (dumps_int x ++ rest)) = Some (x, rest).
Proof.
  intros H. unfold parse_exp, dumps_int. simpl Ascii.eqb. cbn [orb].
  rewrite <- (DecimalZ.of_to x) at 2.
  destruct x as [|p|p]; simpl Z.to_int; cbn [NilEmpty.string_of_int].
  - cbn [NilEmpty.string_of_uint append]. simpl Ascii.eqb. cbv iota.
    change (String "0" rest)
      with (NilEmpty.string_of_uint (Decimal.D0 Decimal.Nil) ++ rest)%string.
    rewrite parse_uint_dumps; [reflexivity | discriminate | assumption].
  - destruct (to_uint_head p) as (c & r & E & Hd & _).
    rewrite E. cbn [append].
    rewrite (digit_not_minus c Hd), (digit_not_plus c Hd).
    change (String c (r ++ rest)) with (String c r ++ rest)%string.
    rewrite <- E, parse_uint_dumps;
      [reflexivity | apply DecimalPos.Unsigned.to_uint_nonnil | assumption].
  - cbn [append]. simpl Ascii.eqb. cbv iota.
    rewrite parse_uint_dumps;
      [reflexivity | apply DecimalPos.Unsigned.to_uint_nonnil | assumption].
Qed.

Lemma dumps_int_head z :
  exists c r, dumps_int z = String c r
              /\ (is_digit c = true \/ c = "-"%char).
Proof.
  unfold dumps_int. destruct z as [|p|p]; simpl Z.to_int;
    cbn [NilEmpty.string_of_int].
  - simpl. eauto.
  - destruct (to_uint_head p) as (c & r & E & Hc & _). eauto.
  - eauto.
Qed.

Lemma follow_ok_head rest :
  follow_ok rest = true ->
  nondigit_head rest = true /\ parse_frac rest = None /\ parse_exp rest = None.
Proof.
  destruct rest as [|c r]; [repeat split|]. simpl.
  unfold parse_frac, parse_exp.
  destruct (is_digit c), (Ascii.eqb c "."), (Ascii.eqb c "e"),
    (Ascii.eqb c "E"); simpl; intros H; try discriminate H; repeat split.
Qed.

Lemma parse_number_int z rest :
  follow_ok rest = true ->
  parse_number (dumps_int z ++ rest) = Some (JInt z, rest).
Proof.
  intros H. apply follow_ok_head in H as (Hd & Hf & He).
  unfold parse_number. rewrite parse_integer_dumps by assumption.
  rewrite Hf, He. reflexivity.
Qed.

Lemma parse_number_float m e rest :
  follow_ok rest = true ->
  parse_number (dumps_float (PyFloat m e) ++ rest)
  = Some (JFloat (PyFloat m e), rest).
Proof.
  intros H. apply follow_ok_head in H as (Hd & _ & _).
  unfold parse_number, dumps_float.
  rewrite PyStrFacts.append_assoc, parse_integer_dumps by reflexivity.
  cbn [append]. rewrite parse_exp_dumps by assumption.
  reflexivity.
Qed.

(** A token that starts with a digit or a minus sign is a number, or,
    where no number starts, one of the constants. *)
Lemma parse_value_number fuel c r :
  is_digit c = true \/ c = "-"%char ->
  parse_value (S fuel) (String c r)
  = match parse_number (String c r) with
    | Some number => Some number
    | None => parse_constant (String c r)
    end.
Proof.
  intros [H | ->]; [|reflexivity].
  destruct c as [[] [] [] [] [] [] [] []]; simpl in H; try discriminate;
    reflexivity.
Qed.

(** The constants read back. *)
Lemma parse_value_constant fuel f rest :
  f = NaN \/ f = Infinity false \/ f = Infinity true ->
  parse_value (S fuel) (dumps_float f ++ rest) = Some (JFloat f, rest).
Proof. intros [-> | [-> | ->]]; reflexivity. Qed.

(** **** String literals *)

Lemma parse_chars_escape_char c t :
  parse_chars (escape_char c ++ t) = push c (parse_chars t).
Proof.
  destruct c as [[] [] [] [] [] [] [] []]; reflexivity.
Qed.

Lemma parse_chars_escape s rest :
  parse_chars (escape s ++ String dquote rest) = Some (s, rest).
Proof.
  induction s as [|c s IH]; [reflexivity|].
  cbn [escape]. rewrite PyStrFacts.append_assoc, parse_chars_escape_char, IH.
  reflexivity.
Qed.

Lemma parse_string_dumps s rest :
  parse_string (dumps_str s ++ rest) = Some (s, rest).
Proof.
  unfold dumps_str, parse_string. cbn [append].
  rewrite PyStrFacts.append_assoc. cbn [append].
  change (Ascii.eqb dquote dquote) with true. cbv iota.
  apply parse_chars_escape.
Qed.

(** **** Values *)

Lemma digit_head_facts c :
  is_digit c = true \/ c = "-"%char ->
  is_ws c = false /\ Ascii.eqb c "]" = false /\ Ascii.eqb c "}" = false.
Proof.
  intros [H | ->]; [|repeat split].
  destruct c as [[] [] [] [] [] [] [] []]; simpl in H; try discriminate;
    repeat split.
Qed.

(** No encoded value starts with white space or a closing bracket. *)
Lemma dumps_head v :
  exists c r, dumps v = String c r /\ is_ws c = false
              /\ Ascii.eqb c "]" = false /\ Ascii.eqb c "}" = false.
Proof.
  destruct v as [|[]|z|[m e| |[]]|s|l|d]; simpl;
    try (do 2 eexists; repeat split; reflexivity).
  - destruct (dumps_int_head z) as (c & r & E & Hc).
    exists c, r. split; [assumption | now apply digit_head_facts].
  - unfold dumps_float; simpl.
    destruct (dumps_int_head m) as (c & r & E & Hc). rewrite E.
    do 2 eexists. split; [reflexivity | now apply digit_head_facts].
Qed.

Lemma skip_ws_dumps v rest : skip_ws (dumps v ++ rest) = (dumps v ++ rest)%string.
Proof.
  destruct (dumps_head v) as (c & r & E & Hw & _). rewrite E. simpl.
  now rewrite Hw.
Qed.

Lemma skip_ws_dumps_str k rest :
  skip_ws (dumps_str k ++ rest) = (dumps_str k ++ rest)%string.
Proof. reflexivity. Qed.

Lemma parse_value_open_list fuel r :
  parse_value (S fuel) (String "[" r)
  = match skip_ws r with
    | String c1 r1 =>
        if Ascii.eqb c1 "]" then Some (JList [], r1)
        else
          match parse_value fuel (String c1 r1) with
          | Some (x, t) =>
              option_map (fun p => (JList (x :: fst p), snd p))
                         (parse_elems fuel t)
          | None => None
          end
    | EmptyString => None
    end.
Proof. reflexivity. Qed.

Lemma parse_value_open_dict fuel r :
  parse_value (S fuel) (String "{" r)
  = match skip_ws r with
    | String c1 r1 =>
        if Ascii.eqb c1 "}" then Some (JDict [], r1)
        else
          match parse_member fuel (String c1 r1) with
          | Some (kx, t) =>
              option_map (fun p => (JDict (kx :: fst p), snd p))
                         (parse_members fuel t)
          | None => None
          end
    | EmptyString => None
    end.
Proof. reflexivity. Qed.

Lemma parse_elems_close fuel r :
  parse_elems (S fuel) (String "]" r) = Some ([], r).
Proof. reflexivity. Qed.

Lemma parse_elems_comma fuel r :
  parse_elems (S fuel) (String "," r)
  = match parse_value fuel (skip_ws r) with
    | Some (x, t) =>
        option_map (fun p => (x :: fst p, snd p)) (parse_elems fuel t)
    | None => None
    end.
Proof. reflexivity. Qed.

Lemma parse_members_close fuel r :
  parse_members (S fuel) (String "}" r) = Some ([], r).
Proof. reflexivity. Qed.

Lemma parse_members_comma fuel r :
  parse_members (S fuel) (String "," r)
  = match parse_member fuel (skip_ws r) with
    | Some (kx, t) =>
        option_map (fun p => (kx :: fst p, snd p)) (parse_members fuel t)
    | None => None
    end.
Proof. reflexivity. Qed.

Lemma parse_member_eq fuel s :
  parse_member (S fuel) s
  = match parse_string s with
    | Some (k, t) =>
        match skip_ws t with
        | String c r =>
            if Ascii.eqb c ":" then
              option_map (fun p => ((k, fst p), snd p))
                         (parse_value fuel (skip_ws r))
            else None
        | EmptyString => None
        end
    | None => None
    end.
Proof. reflexivity. Qed.

Lemma follow_ok_more r rest : follow_ok (dumps_more r ++ rest) = true.
Proof. destruct r; reflexivity. Qed.

Lemma follow_ok_more_members r rest :
  follow_ok (dumps_more_members r ++ rest) = true.
Proof. destruct r as [|[k y] r]; reflexivity. Qed.

Lemma parse_elems_dumps r :
  Forall parses r ->
  forall fuel rest,
    (S (elems_size r) <= fuel)%nat ->
    parse_elems fuel (dumps_more r ++ rest) = Some (r, rest).
Proof.
  induction 1 as [|y r Hy _ IH]; intros fuel rest Hf;
    destruct fuel as [|fuel]; try (simpl in Hf; lia).
  - reflexivity.
  - rewrite more_cons_app, parse_elems_comma.
    change (skip_ws (String " " ?s)) with (skip_ws s).
    rewrite skip_ws_dumps.
    cbn [elems_size fold_right] in Hf. fold (elems_size r) in Hf.
    rewrite Hy by (try apply follow_ok_more; lia).
    rewrite IH by lia. reflexivity.
Qed.

Lemma parse_member_dumps k y fuel rest :
  parses y -> (S (jsize y) <= fuel)%nat -> follow_ok rest = true ->
  parse_member fuel (dumps_str k ++ String ":" (String " " (dumps y ++ rest)))
  = Some ((k, y), rest).
Proof.
  intros Hy Hf Hr. destruct fuel as [|fuel]; [lia|].
  rewrite parse_member_eq, parse_string_dumps.
  cbn [skip_ws]. change (is_ws ":") with false. cbv iota.
  change (Ascii.eqb ":" ":") with true. cbv iota.
  change (skip_ws (String " " ?s)) with (skip_ws s).
  rewrite skip_ws_dumps, Hy by (assumption || lia). reflexivity.
Qed.

Lemma parse_members_dumps r :
  Forall (fun kx => parses (snd kx)) r ->
  forall fuel rest,
    (S (members_size r) <= fuel)%nat ->
    parse_members fuel (dumps_more_members r ++ rest) = Some (r, rest).
Proof.
  induction 1 as [|[k y] r Hy _ IH]; intros fuel rest Hf;
    destruct fuel as [|fuel]; try (simpl in Hf; lia).
  - reflexivity.
  - rewrite more_members_cons_app, parse_members_comma.
    change (skip_ws (String " " ?s)) with (skip_ws s).
    rewrite skip_ws_dumps_str.
    cbn [members_size fold_right snd] in Hf. fold (members_size r) in Hf.
    simpl in Hy.
    rewrite parse_member_dumps
      by (try apply follow_ok_more_members; assumption || lia).
    rewrite IH by lia. reflexivity.
Qed.

Theorem parse_value_dumps v : parses v.
Proof.
  induction v as [| b | z | f | s | l IH | d IH] using json_nested_ind;
    intros fuel rest Hf Hr; (destruct fuel as [|fuel]; [simpl in Hf; lia|]).
  - reflexivity.
  - destruct b; reflexivity.
  - cbn [dumps].
    destruct (dumps_int_head z) as (c & r & E & Hc).
    rewrite E. cbn [append]. rewrite parse_value_number by assumption.
    change (String c (r ++ rest)) with (String c r ++ rest)%string.
    rewrite <- E. now rewrite parse_number_int.
  - cbn [dumps]. destruct f as [m e| |negative].
    + assert (exists c r, dumps_float (PyFloat m e) = String c r
                          /\ (is_digit c = true \/ c = "-"%char))
        as (c & r & E & Hc).
      { unfold dumps_float.
        destruct (dumps_int_head m) as (c & r & E & Hc).
        rewrite E. cbn [append]. eauto. }
      rewrite E. cbn [append]. rewrite parse_value_number by assumption.
      change (String c (r ++ rest)) with (String c r ++ rest)%string.
      rewrite <- E. now rewrite parse_number_float.
    + apply parse_value_constant. now left.
    + apply parse_value_constant. destruct negative; tauto.
  - cbn [dumps]. unfold dumps_str. cbn [append parse_value].
    change (Ascii.eqb dquote "n") with false.
    change (Ascii.eqb dquote "t") with false.
    change (Ascii.eqb dquote "f") with false.
    change (Ascii.eqb dquote dquote) with true. cbv iota.
    rewrite PyStrFacts.append_assoc. cbn [append].
    rewrite parse_chars_escape. reflexivity.
  - destruct IH as [|x r Hx Hr']; [reflexivity|].
    rewrite list_cons_app, parse_value_open_list, skip_ws_dumps.
    destruct (dumps_head x) as (c & t & E & _ & Hc & _).
    rewrite E. cbn [append]. rewrite Hc.
    change (String c (t ++ ?s)) with (String c t ++ s)%string.
    rewrite <- E.
    cbn [jsize fold_right] in Hf. fold (elems_size r) in Hf.
    rewrite Hx by (try apply follow_ok_more; lia).
    rewrite parse_elems_dumps
      by (assumption || (pose proof (jsize_pos x); lia)).
    reflexivity.
  - destruct IH as [|[k x] r Hx Hr']; [reflexivity|].
    rewrite dict_cons_app, parse_value_open_dict, skip_ws_dumps_str.
    unfold dumps_str at 1. cbn [append].
    change (Ascii.eqb dquote "}") with false. cbv iota.
    change (String dquote ((escape k ++ String dquote EmptyString) ++ ?s))
      with (dumps_str k ++ s)%string.
    cbn [jsize fold_right snd] in Hf. fold (members_size r) in Hf.
    simpl in Hx.
    rewrite parse_member_dumps
      by (try apply follow_ok_more_members; assumption || lia).
    rewrite parse_members_dumps by (assumption || lia).
    reflexivity.
Qed.

(** **** The text is long enough to pay for its own descent *)

Lemma length_dumps_more r :
  Forall (fun x => (jsize x <= String.length (dumps x))%nat) r ->
  (S (elems_size r) <= String.length (dumps_more r))%nat.
Proof.
  induction 1 as [|y r Hy _ IH]; [simpl; lia|].
  cbn [dumps_more elems_size fold_right]. fold (elems_size r).
  rewrite !PyStrFacts.length_append. simpl String.length. lia.
Qed.

Lemma length_dumps_more_members r :
  Forall (fun kx => (jsize (snd kx) <= String.length (dumps (snd kx)))%nat) r ->
  (S (members_size r) <= String.length (dumps_more_members r))%nat.
Proof.
  induction 1 as [|[k y] r Hy _ IH]; [simpl; lia|].
  cbn [dumps_more_members members_size fold_right snd]. fold (members_size r).
  simpl in Hy. rewrite !PyStrFacts.length_append. simpl String.length. lia.
Qed.

Lemma jsize_le_length v : (jsize v <= String.length (dumps v))%nat.
Proof.
  induction v as [| b | z | f | s | l IH | d IH] using json_nested_ind.
  - simpl; lia.
  - destruct b; simpl; lia.
  - destruct (dumps_head (JInt z)) as (c & r & E & _). rewrite E. simpl; lia.
  - destruct (dumps_head (JFloat f)) as (c & r & E & _). rewrite E. simpl; lia.
  - simpl; lia.
  - destruct IH as [|x r Hx Hr]; [simpl; lia|].
    rewrite dumps_list_cons. cbn [jsize fold_right String.length].
    fold (elems_size r). rewrite PyStrFacts.length_append.
    pose proof (length_dumps_more r Hr). lia.
  - destruct IH as [|[k x] r Hx Hr]; [simpl; lia|].
    rewrite dumps_dict_cons. cbn [jsize fold_right String.length snd].
    fold (members_size r). simpl in Hx.
    rewrite !PyStrFacts.length_append. simpl String.length.
    pose proof (length_dumps_more_members r Hr). lia.
Qed.

(** [json.loads(json.dumps(v))] is [v] again, value for value, for every
    document (and [==] to it unless a NaN stands in it). *)
Theorem loads_dumps v : loads (dumps v) = Some v.
Proof.
  unfold loads.
  rewrite <- (PyStrFacts.append_nil_r (dumps v)) at 2.
  rewrite skip_ws_dumps.
  rewrite parse_value_dumps;
    [reflexivity | pose proof (jsize_le_length v); lia | reflexivity].
Qed.

End JsonFacts.

Module FsFacts.
Import Fs.

Lemma put_same fs p n : put fs p n p = n.
Proof. unfold put. now rewrite String.eqb_refl. Qed.

Lemma put_other fs p n q : q <> p -> put fs p n q = fs q.
Proof.
  intros H. unfold put. destruct (String.eqb_spec q p); [contradiction|].
  reflexivity.
Qed.

End FsFacts.

(* ================================================================== *)
(** ** [==] on documents: a document is equal to its copy unless it holds
       a NaN *)
(* ================================================================== *)

Module PyFacts.
Import Py.











End PyFacts.

(* ================================================================== *)
(** ** CheckpointStore *)
(* ================================================================== *)

Module CheckpointStore.
Import Spec Sample.

(** What [load_checkpoint] makes of the text of a readable checkpoint. *)
Lemma load_checkpoint_file fs text :
  fs CHECKPOINT_PATH = File text ->
  load_checkpoint fs
  = match Json.loads text with
    | None => empty_state
    | Some data =>
        match Py.get data "wallpapers" (JList []),
              Py.get data "last_repo_index" (JInt 0) with
        | Returned wallpapers, Returned last_repo_index =>
            if Py.has_len wallpapers then
              match Py.add_one last_repo_index with
              | Returned next =>
                  {| cp_wallpapers := wallpapers; cp_start_index := next;
                     cp_hashes := [] |}
              | Raised => empty_state
              end
            else empty_state
        | _, _ => empty_state
        end
    end.
Proof.
  intros H. unfold load_checkpoint, Fs.exists_, Fs.read. rewrite H. reflexivity.
Qed.

Lemma save_checkpoint_file fs wallpapers repo_index now fs' :
  save_checkpoint fs wallpapers repo_index now = Returned fs' ->
  fs' CHECKPOINT_PATH
  = File (Json.dumps (checkpoint_data wallpapers repo_index now)).
Proof.
  unfold save_checkpoint, Fs.open_w.
  destruct (fs CHECKPOINT_PATH); intros [= <-];
    unfold Fs.write_all; apply FsFacts.put_same.
Qed.




(** C10. An absent checkpoint file, one that cannot be opened, and one whose
    text [json.load] refuses all make [load_checkpoint] return the empty
    state [([], 0, set())]; nothing is raised, and a run asked to resume
    from such a file does what a fresh run does. *)
Theorem load_checkpoint_degrades fs :
  (fs CHECKPOINT_PATH = Missing
   \/ fs CHECKPOINT_PATH = Denied
   \/ exists text, fs CHECKPOINT_PATH = File text /\ Json.loads text = None) ->
  load_checkpoint fs = empty_state
  /\ forall md5 w test_mode,
       main md5 w test_mode true fs = main md5 w test_mode false fs.
Proof.
  intros H.
  assert (load_checkpoint fs = empty_state) as E.
  { destruct H as [H | [H | (text & H & E)]].
    - unfold load_checkpoint, Fs.exists_. now rewrite H.
    - unfold load_checkpoint, Fs.exists_, Fs.read. now rewrite H.
    - rewrite (load_checkpoint_file fs text H), E. reflexivity. }
  split; [exact E|].
  intros md5 w test_mode. unfold main. now rewrite E.
Qed.

Lemma load_checkpoint_degrades_witness :
  load_checkpoint no_files = empty_state
  /\ load_checkpoint (Fs.put no_files CHECKPOINT_PATH Denied) = empty_state
  /\ load_checkpoint torn_checkpoint = empty_state.
Proof.
  split; [|split].
  - apply (load_checkpoint_degrades no_files). left. reflexivity.
  - apply (load_checkpoint_degrades (Fs.put no_files CHECKPOINT_PATH Denied)).
    right. left. reflexivity.
  - apply (load_checkpoint_degrades torn_checkpoint).
    right. right. eexists. split; reflexivity.
Defined.




End CheckpointStore.

(* ================================================================== *)
(** ** PerceptualDeduplicator *)
(* ================================================================== *)

Module Deduplicator.
Import Spec Sample.

Lemma count_differing_sym a b :
  ImageHash.count_differing a b = ImageHash.count_differing b a.
Proof.
  revert b; induction a as [|x a IH]; intros [|y b]; simpl; try reflexivity.
  now rewrite IH, xorb_comm.
Qed.

Lemma count_differing_self a : ImageHash.count_differing a a = 0.
Proof.
  induction a as [|x a IH]; simpl; [reflexivity|].
  now rewrite xorb_nilpotent, IH.
Qed.

Lemma sub_sym a b : ImageHash.sub a b = ImageHash.sub b a.
Proof.
  unfold ImageHash.sub. rewrite Nat.eqb_sym, count_differing_sym. reflexivity.
Qed.

Lemma distance_sym x y : ImageHash.distance x y = ImageHash.distance y x.
Proof.
  unfold ImageHash.distance.
  destruct (ImageHash.hex_to_hash x), (ImageHash.hex_to_hash y);
    try reflexivity.
  apply sub_sym.
Qed.

Lemma distance_self x d : ImageHash.distance x x = Returned d -> d = 0.
Proof.
  unfold ImageHash.distance, ImageHash.sub.
  destruct (ImageHash.hex_to_hash x) as [a|]; [|discriminate].
  rewrite Nat.eqb_refl, count_differing_self. congruence.
Qed.

Lemma hex_bits_all_hex s :
  all_hex s = true ->
  exists bits, ImageHash.hex_bits s = Returned bits
               /\ List.length bits = (4 * String.length s)%nat.
Proof.
  induction s as [|c s IH]; simpl; intros H.
  - exists []. split; reflexivity.
  - unfold ImageHash.bits_of_hex.
    destruct (Json.hex_val c) as [n|]; [|discriminate].
    destruct (IH H) as (bits & -> & Hl).
    eexists. split; [reflexivity|]. simpl. lia.
Qed.

Lemma hex_to_hash_fingerprint s :
  is_fingerprint s = true ->
  exists bits, ImageHash.hex_to_hash s = Returned bits
               /\ List.length bits = 64%nat.
Proof.
  unfold is_fingerprint. rewrite andb_true_iff, Nat.eqb_eq.
  intros [L H]. destruct (hex_bits_all_hex s H) as (bits & E & Hl).
  exists bits. split; [|lia].
  destruct s; [discriminate L | exact E].
Qed.

Lemma distance_fingerprints x y :
  is_fingerprint x = true -> is_fingerprint y = true ->
  exists d, ImageHash.distance x y = Returned d.
Proof.
  intros Hx Hy.
  destruct (hex_to_hash_fingerprint x Hx) as (a & Ea & La).
  destruct (hex_to_hash_fingerprint y Hy) as (b & Eb & Lb).
  unfold ImageHash.distance, ImageHash.sub. rewrite Ea, Eb, La, Lb.
  rewrite Nat.eqb_refl. eauto.
Qed.

(** The loop, where no comparison raises. *)
Lemma is_duplicate_spec p seen :
  (forall e, In e seen -> exists d, ImageHash.distance p e = Returned d) ->
  exists b, is_duplicate p seen = Returned b
            /\ (b = true <->
                exists e d, In e seen /\ ImageHash.distance p e = Returned d
                            /\ d <= PHASH_THRESHOLD).
Proof.
  induction seen as [|e seen IH]; intros H.
  - exists false. split; [reflexivity|]. split; [discriminate|].
    intros (e & d & [] & _).
  - destruct (H e (or_introl eq_refl)) as (d & Ed).
    destruct IH as (b & Eb & Hb); [intros e' He'; apply H; now right|].
    simpl. rewrite Ed. destruct (Z.leb_spec d PHASH_THRESHOLD) as [Hd | Hd].
    + exists true. split; [reflexivity|]. split; [|reflexivity].
      intros _. exists e, d. repeat split; [now left | assumption | assumption].
    + exists b. split; [assumption|]. rewrite Hb. split.
      * intros (e' & d' & He' & Ed' & Hd'). exists e', d'.
        repeat split; [now right | assumption | assumption].
      * intros (e' & d' & [<- | He'] & Ed' & Hd').
        -- rewrite Ed in Ed'. injection Ed' as <-. lia.
        -- exists e', d'. repeat split; assumption.
Qed.

(** The order in which the set hands out its elements does not change the
    answer. *)
Lemma is_duplicate_any_order p seen seen' :
  Permutation seen seen' ->
  (forall e, In e seen -> exists d, ImageHash.distance p e = Returned d) ->
  is_duplicate p seen = is_duplicate p seen'.
Proof.
  intros Hp H.
  destruct (is_duplicate_spec p seen H) as (b & -> & Hb).
  destruct (is_duplicate_spec p seen') as (b' & -> & Hb').
  { intros e He. apply H. eapply Permutation_in; [|exact He].
    now apply Permutation_sym. }
  f_equal. apply eq_true_iff_eq. rewrite Hb, Hb'.
  split; intros (e & d & He & Hd); exists e, d; split; try assumption.
  - eapply Permutation_in; eassumption.
  - eapply Permutation_in; [apply Permutation_sym|]; eassumption.
Qed.

(** C6. The Hamming distance of two fingerprints does not depend on their
    order, and the duplicate check answers "duplicate" exactly when some
    fingerprint of the seen set is at most 5 bits away from the new one. *)
Theorem fingerprint_symmetry_and_threshold :
  PHASH_THRESHOLD = 5
  /\ (forall a b, ImageHash.distance a b = ImageHash.distance b a)
  /\ (forall p seen,
        is_fingerprint p = true -> forallb is_fingerprint seen = true ->
        exists b, is_duplicate p seen = Returned b
                  /\ (b = true <->
                      exists e d, In e seen
                                  /\ ImageHash.distance p e = Returned d
                                  /\ d <= 5)).
Proof.
  split; [reflexivity|]. split; [exact distance_sym|].
  intros p seen Hp Hseen. apply is_duplicate_spec.
  intros e He. apply distance_fingerprints; [assumption|].
  rewrite forallb_forall in Hseen. now apply Hseen.
Qed.

Lemma fingerprint_symmetry_and_threshold_witness :
  ImageHash.distance "c3a1f0e2b4d59687" "c3a1f0e2b4d59680"
  = ImageHash.distance "c3a1f0e2b4d59680" "c3a1f0e2b4d59687"
  /\ exists b,
       is_duplicate "c3a1f0e2b4d59687"
                    ["0000000000000000"; "c3a1f0e2b4d59680"] = Returned b
       /\ (b = true <->
           exists e d, In e ["0000000000000000"; "c3a1f0e2b4d59680"]
                       /\ ImageHash.distance "c3a1f0e2b4d59687" e = Returned d
                       /\ d <= 5).
Proof.
  destruct fingerprint_symmetry_and_threshold as (_ & Hsym & Hdup).
  split.
  - apply Hsym.
  - apply Hdup; reflexivity.
Defined.

End Deduplicator.

(* ================================================================== *)
(** ** PipelineOrchestrator *)
(* ================================================================== *)

Module Orchestrator.
Import Spec Sample.

Section WithMd5.

Variable md5 : string -> string.

Lemma not_duplicate_not_member p hashes :
  is_duplicate p hashes = Returned false ->
  existsb (String.eqb p) hashes = false.
Proof.
  induction hashes as [|e hashes IH]; simpl; [reflexivity|].
  destruct (ImageHash.distance p e) as [d|] eqn:Ed; [|discriminate].
  destruct (Z.leb_spec d PHASH_THRESHOLD) as [Hd|Hd]; [discriminate|].
  intros H. rewrite (IH H), orb_false_r.
  destruct (String.eqb_spec p e) as [->|]; [|reflexivity].
  apply Deduplicator.distance_self in Ed. unfold PHASH_THRESHOLD in Hd. lia.
Qed.

Lemma process_image_step repo wallpapers hashes img :
  process_image md5 repo (wallpapers, hashes) img
  = if accepts hashes img
    then (wallpapers ++ record_of md5 repo img, hashes ++ [phash img])
    else (wallpapers, hashes).
Proof.
  unfold process_image, accepts, record_of.
  destruct (String.eqb (phash img) EmptyString); [reflexivity|].
  destruct (is_duplicate (phash img) hashes) as [[|]|] eqn:E;
    try reflexivity.
  destruct (embedding img); [|reflexivity]. simpl.
  unfold Py.set_add. now rewrite (not_duplicate_not_member _ _ E).
Qed.

Lemma process_images_run repo imgs : forall wallpapers hashes,
  process_images md5 repo imgs (wallpapers, hashes)
  = (wallpapers ++ flat_map (record_of md5 repo) (accepted hashes imgs),
     hashes ++ map phash (accepted hashes imgs)).
Proof.
  unfold process_images.
  induction imgs as [|img imgs IH]; intros wallpapers hashes;
    cbn [fold_left accepted].
  - cbn [flat_map map]. now rewrite !List.app_nil_r.
  - rewrite process_image_step. destruct (accepts hashes img).
    + rewrite IH. cbn [flat_map map]. now rewrite <- !List.app_assoc.
    + apply IH.
Qed.

Lemma accepts_iff hashes img :
  accepts hashes img = true
  <-> phash img <> EmptyString
      /\ is_duplicate (phash img) hashes = Returned false
      /\ embedding img <> None.
Proof.
  unfold accepts. rewrite !andb_true_iff, negb_true_iff.
  destruct (String.eqb_spec (phash img) EmptyString) as [E|E];
    destruct (is_duplicate (phash img) hashes) as [[|]|];
    destruct (embedding img); split; intros (A & B & C) || intros ((A & B) & C);
    try discriminate; try congruence; repeat split; congruence.
Qed.


End WithMd5.


(** *** The loop over the sources *)

Lemma grows_snoc log c :
  grows log -> bounded_by log (snd c) -> grows (log ++ [c]).
Proof.
  intros Hg Hb i j c1 c2 Hij H1 H2.
  assert (j < List.length (log ++ [c]))%nat as Hj
    by (apply nth_error_Some; congruence).
  rewrite List.length_app in Hj. simpl in Hj.
  rewrite nth_error_app1 in H1 by lia.
  destruct (Nat.eq_dec j (List.length log)) as [-> | Hne].
  - rewrite nth_error_app2, Nat.sub_diag in H2 by lia.
    injection H2 as <-. apply Hb. eapply nth_error_In; eassumption.
  - rewrite nth_error_app1 in H2 by lia. exact (Hg i j c1 c2 Hij H1 H2).
Qed.

Lemma extends_refl l : extends_ l l.
Proof. exists []. now rewrite List.app_nil_r. Qed.

Lemma extends_app l e more : extends_ l e -> extends_ (l ++ more) e.
Proof. intros (m & ->). exists (m ++ more). now rewrite List.app_assoc. Qed.

Section Loop.

Variable md5 : string -> string.
Variable w : world.
Variable test_mode : bool.

Lemma main_step_log_ok st idx repo :
  log_ok st -> log_ok (main_step md5 w test_mode st idx repo).
Proof.
  intros [Hg Hb]. unfold main_step.
  destruct (process_repository md5 repo (source_of w repo)
              (processed_hashes st) test_mode) as [ws hashes].
  destruct (all_wallpapers st) as [| | | | |l|] eqn:E; simpl;
    try (split; [exact Hg | intros l' [=]]).
  destruct (save_checkpoint (disk st) (l ++ ws) idx (utcnow w idx)); simpl.
  - split.
    + apply grows_snoc; [exact Hg|]. simpl.
      intros c Hc. apply extends_app. now apply (Hb l).
    + intros l' [= <-] c Hc. apply in_app_or in Hc as [Hc | [<- | []]].
      * apply extends_app. now apply (Hb l).
      * apply extends_refl.
  - split; [exact Hg|].
    intros l' [= <-] c Hc. apply extends_app. now apply (Hb l).
Qed.

Lemma main_loop_log_ok repos : forall st idx,
  log_ok st -> log_ok (main_loop md5 w test_mode st idx repos).
Proof.
  induction repos as [|repo repos IH]; intros st idx H; simpl;
    [exact H | apply IH, main_step_log_ok, H].
Qed.

(** C4, amended.  Of two checkpoints written during a run, the record list
    of the later one starts with the record list of the earlier one: it
    holds every earlier record, in the same order and place, and may hold
    no more than those (a source that adds no record is checkpointed all
    the same). *)
Theorem later_checkpoint_extends_earlier resume fs i j c1 c2 :
  (i < j)%nat ->
  nth_error (checkpoints_written (main md5 w test_mode resume fs)) i = Some c1 ->
  nth_error (checkpoints_written (main md5 w test_mode resume fs)) j = Some c2 ->
  exists more, snd c2 = snd c1 ++ more.
Proof.
  unfold main.
  destruct (cp_start_index (if resume then load_checkpoint fs else empty_state))
    as [start|f]; simpl.
  - apply main_loop_log_ok. split.
    + intros i' j' c1' c2' _ H. destruct i'; discriminate H.
    + intros l _ c [].
  - intros _ H. destruct i; discriminate H.
Qed.

End Loop.

(** C4, counterexample.  When no source can be cloned, a fresh run writes a
    checkpoint after each of the eight sources and each holds no record: the
    second checkpoint is not a strict superset of the first. *)
Lemma checkpoints_need_not_grow :
  map snd (checkpoints_written (main md5_stub dead_world false false
                                     no_files))
  = [[]; []; []; []; []; []; []; []]
  /\ map fst (checkpoints_written (main md5_stub dead_world false false
                                        no_files))
     = [0; 1; 2; 3; 4; 5; 6; 7]
  /\ ~ strictly_grows (checkpoints_written
                         (main md5_stub dead_world false false
                               no_files)).
Proof.
  split; [vm_compute; reflexivity|]. split; [vm_compute; reflexivity|].
  intros H.
  destruct (H 0%nat 1%nat (0, []) (1, [])) as (_ & r & Hr & _);
    [lia | vm_compute; reflexivity | vm_compute; reflexivity | exact Hr].
Qed.

Lemma later_checkpoint_extends_earlier_witness :
  map snd (checkpoints_written
             (main md5_stub two_pictures_world false false no_files))
  = [record_of md5_stub first_source lake;
     record_of md5_stub first_source lake
     ++ record_of md5_stub second_source sunset_lower;
     record_of md5_stub first_source lake
     ++ record_of md5_stub second_source sunset_lower;
     record_of md5_stub first_source lake
     ++ record_of md5_stub second_source sunset_lower;
     record_of md5_stub first_source lake
     ++ record_of md5_stub second_source sunset_lower;
     record_of md5_stub first_source lake
     ++ record_of md5_stub second_source sunset_lower;
     record_of md5_stub first_source lake
     ++ record_of md5_stub second_source sunset_lower;
     record_of md5_stub first_source lake
     ++ record_of md5_stub second_source sunset_lower]
  /\ exists more,
       record_of md5_stub first_source lake
       ++ record_of md5_stub second_source sunset_lower
       = record_of md5_stub first_source lake ++ more.
Proof.
  split; [vm_compute; reflexivity|].
  apply (later_checkpoint_extends_earlier md5_stub two_pictures_world false
           false no_files 0 1
           (0, record_of md5_stub first_source lake)
           (1, record_of md5_stub first_source lake
               ++ record_of md5_stub second_source sunset_lower));
    [lia | vm_compute; reflexivity | vm_compute; reflexivity].
Defined.

(** *** Resuming *)

Lemma load_checkpoint_no_hashes fs : cp_hashes (load_checkpoint fs) = [].
Proof.
  unfold load_checkpoint.
  repeat match goal with
         | |- context [match ?x with _ => _ end] => destruct x
         end; reflexivity.
Qed.

(** C5. [load_checkpoint] never returns a fingerprint: the set it hands
    back is empty whatever the checkpoint holds.  So a run resumed after its
    first source admits [lake_again] from the second source although it is
    3 bits from [lake], whose record the checkpoint restored; the same run
    left alone rejects it. *)
Theorem resume_forgets_fingerprints md5 :
  (forall fs, cp_hashes (load_checkpoint fs) = [])
  /\ ImageHash.distance (phash lake) (phash lake_again) = Returned 3
  /\ (exists st,
        main md5 twin_world false false no_files = Returned st
        /\ all_wallpapers st = JList (record_of md5 first_source lake))
  /\ (let interrupted :=
        main_loop md5 twin_world false fresh 0 [first_source] in
      load_checkpoint (disk interrupted)
      = {| cp_wallpapers := JList (record_of md5 first_source lake);
           cp_start_index := PyInt 1; cp_hashes := [] |}
      /\ exists st,
          main md5 twin_world false true (disk interrupted) = Returned st
          /\ all_wallpapers st
             = JList (record_of md5 first_source lake
                      ++ record_of md5 second_source lake_again)).
Proof.
  split; [exact load_checkpoint_no_hashes|]. split; [reflexivity|].
  split.
  { eexists. split; [reflexivity|]. vm_compute. reflexivity. }
  cbv zeta.
  assert (load_checkpoint
            (disk (main_loop md5 twin_world false fresh 0 [first_source]))
          = {| cp_wallpapers := JList (record_of md5 first_source lake);
               cp_start_index := PyInt 1; cp_hashes := [] |}) as E.
  { rewrite (CheckpointStore.load_checkpoint_file _
               (Json.dumps (checkpoint_data (record_of md5 first_source lake)
                                            0 "2024-05-01T12:00:00"))).
    - rewrite JsonFacts.loads_dumps. reflexivity.
    - apply (CheckpointStore.save_checkpoint_file no_files
               (record_of md5 first_source lake) 0 "2024-05-01T12:00:00").
      vm_compute. reflexivity. }
  split; [exact E|].
  unfold main. rewrite E. cbn [cp_start_index cp_wallpapers cp_hashes].
  eexists. split; [reflexivity|]. vm_compute. reflexivity.
Qed.

(** *** Identifiers *)

Lemma wallpaper_data_id md5 repo img emb :
  Py.get (wallpaper_data md5 repo img emb) "id" JNull
  = Returned (JStr (generate_wallpaper_id md5 (name repo) (rel_path img))).
Proof. reflexivity. Qed.

Lemma appended_record md5 repo wallpapers hashes img rec hashes' :
  process_image md5 repo (wallpapers, hashes) img
  = (wallpapers ++ [rec], hashes') ->
  exists emb, rec = wallpaper_data md5 repo img emb.
Proof.
  rewrite process_image_step. destruct (accepts hashes img); intros [= H _].
  - apply app_inv_head in H. unfold record_of in H.
    destruct (embedding img) as [emb|]; [|discriminate H].
    exists emb. congruence.
  - rewrite <- (List.app_nil_r wallpapers) in H at 1.
    apply app_inv_head in H. discriminate H.
Qed.

(** C9. The identifier is a function of the source name and the relative
    path alone: whenever two turns of the loop, in whatever runs, with
    whatever seen sets, accumulated records, branches, image contents and
    embeddings, append a record for the same source name and relative path,
    both records carry the identifier [generate_wallpaper_id] gives for
    that pair. *)
Theorem identifier_is_idempotent md5 repo1 repo2 img1 img2
    wallpapers1 hashes1 wallpapers2 hashes2 rec1 rec2 hashes1' hashes2' :
  name repo1 = name repo2 ->
  rel_path img1 = rel_path img2 ->
  process_image md5 repo1 (wallpapers1, hashes1) img1
  = (wallpapers1 ++ [rec1], hashes1') ->
  process_image md5 repo2 (wallpapers2, hashes2) img2
  = (wallpapers2 ++ [rec2], hashes2') ->
  generate_wallpaper_id md5 (name repo2) (rel_path img2)
  = generate_wallpaper_id md5 (name repo1) (rel_path img1)
  /\ Py.get rec1 "id" JNull
     = Returned (JStr (generate_wallpaper_id md5 (name repo1) (rel_path img1)))
  /\ Py.get rec2 "id" JNull = Py.get rec1 "id" JNull.
Proof.
  intros Hn Hp H1 H2.
  apply appended_record in H1 as (emb1 & ->).
  apply appended_record in H2 as (emb2 & ->).
  rewrite !wallpaper_data_id, Hn, Hp. repeat split; reflexivity.
Qed.

Lemma identifier_is_idempotent_witness :
  generate_wallpaper_id md5_stub (name first_source) (rel_path lake_retouched)
  = generate_wallpaper_id md5_stub (name first_source) (rel_path lake)
  /\ Py.get (wallpaper_data md5_stub first_source lake
            [PyFloat 6 (-1); PyFloat 8 (-1)]) "id" JNull
  = Returned (JStr "dharmx_d41d8cd98f00")
  /\ Py.get (wallpaper_data md5_stub first_source lake_retouched
               [PyFloat 1 0; PyFloat 0 0]) "id" JNull
     = Py.get (wallpaper_data md5_stub first_source lake
                 [PyFloat 6 (-1); PyFloat 8 (-1)]) "id" JNull.
Proof.
  apply (identifier_is_idempotent md5_stub first_source first_source
           lake lake_retouched
           [] [] [sample_record] ["c3a1f0e2b4d59687"]
           _ _ ["c3a1f0e2b4d59687"] ["c3a1f0e2b4d59687"; "0123456789abcdef"]);
    reflexivity.
Defined.

End Orchestrator.

(* ================================================================== *)
(** ** SourceAcquirer *)
(* ================================================================== *)

Module Acquirer.
Import Spec Sample.

Lemma attempts_cons_attempt n events :
  attempts (Attempt n :: events) = S (attempts events).
Proof. reflexivity. Qed.

Lemma attempts_cons_sleep d events :
  attempts (Sleep d :: events) = attempts events.
Proof. reflexivity. Qed.

(** The budget: never more attempts than [remaining]. *)
Lemma clone_loop_budget sparse g max_retries remaining : forall attempt,
  (attempts (snd (clone_loop sparse g max_retries attempt remaining))
   <= remaining)%nat.
Proof.
  induction remaining as [|remaining IH]; intros attempt; simpl;
    [unfold attempts; simpl; lia|].
  destruct (if sparse then sparse_attempt (sparse_clone g (S attempt))
            else full_attempt (full_clone g (S attempt)));
    try (unfold attempts; simpl; lia).
  destruct (S attempt <? max_retries)%nat; [|unfold attempts; simpl; lia].
  specialize (IH (S attempt)).
  destruct (clone_loop sparse g max_retries (S attempt) remaining) as [ok ev].
  cbn [snd] in *. rewrite attempts_cons_attempt, attempts_cons_sleep. lia.
Qed.

Lemma clone_repository_budget repo g test_mode max_retries :
  (attempts (snd (clone_repository repo g test_mode max_retries))
   <= max_retries)%nat.
Proof. apply clone_loop_budget. Qed.

(** Full mode: a failure whose stderr names no network error ends the
    acquisition at once. *)
Lemma full_clone_gives_up repo g rc stderr max_retries :
  full_clone g 1 = Exit rc stderr -> rc <> 0 ->
  PyStr.contains "Could not resolve host" stderr = false ->
  PyStr.contains "Connection" stderr = false ->
  clone_repository repo g false (S max_retries) = (false, [Attempt 1%nat]).
Proof.
  intros E Hrc H1 H2. unfold clone_repository. simpl.
  unfold full_attempt. rewrite E, H1, H2.
  destruct (Z.eqb_spec rc 0); [contradiction | reflexivity].
Qed.

(** Sparse mode: a failing [init] is retried whatever its stderr says, until
    the budget is spent. *)
Lemma sparse_loop_retries_every_failure g max_retries remaining :
  forall attempt,
    (forall n, exists rc stderr,
        init_run (sparse_clone g n) = Exit rc stderr /\ rc <> 0) ->
    (attempt + remaining = max_retries)%nat ->
    attempts (snd (clone_loop true g max_retries attempt remaining))
    = remaining
    /\ fst (clone_loop true g max_retries attempt remaining) = false.
Proof.
  induction remaining as [|remaining IH]; intros attempt Hfail Hsum;
    [split; reflexivity|].
  simpl. unfold sparse_attempt.
  destruct (Hfail (S attempt)) as (rc & stderr & -> & Hrc).
  destruct (Z.eqb_spec rc 0); [contradiction|]. simpl.
  destruct (Nat.ltb_spec (S attempt) max_retries) as [Hlt | Hge].
  - destruct (IH (S attempt) Hfail ltac:(lia)) as [Ha Hf].
    destruct (clone_loop true g max_retries (S attempt) remaining) as [ok ev].
    cbn [fst snd] in *. rewrite attempts_cons_attempt, attempts_cons_sleep.
    split; [now rewrite Ha | assumption].
  - assert (remaining = 0)%nat as -> by lia. split; reflexivity.
Qed.

(** C7, at the failing input: test mode, the first configured source, and a
    remote that answers every attempt with an authentication failure.  The
    sparse branch makes all three attempts, sleeping 5 seconds between them;
    the full branch, on the same remote, stops after the first. *)
Theorem sparse_clone_retries_permanent_failure :
  clone_repository first_source auth_failure true 3
  = (false, [Attempt 1%nat; Sleep 5; Attempt 2%nat; Sleep 5; Attempt 3%nat])
  /\ clone_repository first_source auth_failure false 3
     = (false, [Attempt 1%nat]).
Proof. split; reflexivity. Qed.

End Acquirer.

(* ================================================================== *)
(** ** AssetScanner *)
(* ================================================================== *)

Module Scanner.
Import Spec Sample.

(** C8, counterexample.  [Photos/Sunset.JPG], 3840x2160 and 3.5 MB, has
    the extension [.jpg] up to letter case and is not found; the same file
    named [Photos/sunset.jpg] is. *)
Lemma upper_case_extension_not_found :
  PyStr.endswith (PyStr.lower (file_name (rel_path sunset_upper))) ".jpg" = true
  /\ valid_wallpaper sunset_upper = true
  /\ find_wallpapers [sunset_upper; sunset_lower] = [sunset_lower]
  /\ ~ case_insensitive_scan [sunset_upper; sunset_lower].
Proof.
  split; [reflexivity|]. split; [reflexivity|]. split; [reflexivity|].
  intros H.
  specialize (H sunset_upper ".jpg" (or_introl eq_refl) (or_introl eq_refl)
                eq_refl eq_refl).
  vm_compute in H. destruct H as [H | []]. discriminate H.
Qed.

(** C8, amended.  The scan finds exactly the files of the tree whose name
    ends with an allow-listed extension as it is spelled in the list (lower
    case; the match is exact in letter case) and that pass the size and
    resolution filters. *)
Theorem find_wallpapers_exact_extension tree f :
  In f (find_wallpapers tree)
  <-> In f tree
      /\ (exists ext, In ext SUPPORTED_EXTENSIONS
                      /\ PyStr.endswith (file_name (rel_path f)) ext = true)
      /\ valid_wallpaper f = true.
Proof.
  unfold find_wallpapers. rewrite filter_In, in_flat_map. unfold rglob.
  split.
  - intros [(ext & Hext & Hf) Hv]. apply filter_In in Hf as [Hin Hm].
    repeat split; eauto.
  - intros (Hin & (ext & Hext & Hm) & Hv). split; [|assumption].
    exists ext. split; [assumption|]. apply filter_In. now split.
Qed.

End Scanner.

(* ================================================================== *)
(** ** Text: substrings, prefixes and suffixes *)
(* ================================================================== *)

Module Text.
Import PyStr.

Lemma prefix_iff (a s : string) :
  prefix a s = true <-> exists r, s = (a ++ r)%string.
Proof.
  revert s; induction a as [|x a IH]; intros s.
  - split; [intros _; exists s; reflexivity | intros _; now destruct s].
  - destruct s as [|y s]; simpl.
    + split; [discriminate | intros [r H]; discriminate].
    + destruct (ascii_dec x y) as [->|ne].
      * rewrite IH. split; intros [r H]; exists r.
        -- now rewrite H.
        -- now inversion H.
      * split; [discriminate | intros [r H]; inversion H; now elim ne].
Qed.

(** [sub in s] holds exactly when [s] is [sub] with something before and
    something after it. *)
Lemma contains_iff (a s : string) :
  contains a s = true <-> exists p r, s = (p ++ a ++ r)%string.
Proof.
  induction s as [|y s IH].
  - cbn [contains]. destruct (prefix a EmptyString) eqn:E.
    + split; [intros _|reflexivity].
      apply prefix_iff in E. destruct E as [r E]. now exists EmptyString, r.
    + split; [discriminate|]. intros (p & r & H).
      destruct p as [|? ?]; [|discriminate]. simpl in H.
      assert (prefix a EmptyString = true) by (apply prefix_iff; now exists r).
      congruence.
  - cbn [contains]. destruct (prefix a (String y s)) eqn:E.
    + split; [intros _|reflexivity].
      apply prefix_iff in E. destruct E as [r E]. now exists EmptyString, r.
    + rewrite IH. split.
      * intros (p & r & H). exists (String y p), r. now rewrite H.
      * intros (p & r & H). destruct p as [|z p].
        -- simpl in H.
           assert (prefix a (String y s) = true)
             by (apply prefix_iff; now exists r).
           congruence.
        -- inversion H; subst. now exists p, r.
Qed.

Lemma contains_trans (a b s : string) :
  contains a b = true -> contains b s = true -> contains a s = true.
Proof.
  rewrite !contains_iff. intros (p & r & ->) (p' & r' & ->).
  exists (p' ++ p)%string, (r ++ r')%string.
  now rewrite !PyStrFacts.append_assoc.
Qed.

Lemma contains_char_cons (c d : ascii) (s : string) :
  contains (String c EmptyString) (String d s)
  = Ascii.eqb d c || contains (String c EmptyString) s.
Proof.
  cbn [contains prefix].
  destruct (ascii_dec c d) as [->|ne].
  - rewrite Ascii.eqb_refl. now destruct s.
  - destruct (Ascii.eqb_spec d c) as [->|_]; [now elim ne | reflexivity].
Qed.

Lemma contains_char_nil (c : ascii) :
  contains (String c EmptyString) EmptyString = false.
Proof. reflexivity. Qed.

Lemma contains_char_append (c : ascii) (a b : string) :
  contains (String c EmptyString) (a ++ b)
  = contains (String c EmptyString) a || contains (String c EmptyString) b.
Proof.
  induction a as [|x a IH].
  - reflexivity.
  - change (String x a ++ b)%string with (String x (a ++ b)).
    rewrite !contains_char_cons, IH. now rewrite orb_assoc.
Qed.

Lemma length_take (n : nat) (s : string) :
  (String.length (take n s) <= n)%nat.
Proof.
  revert s; induction n as [|n IH]; intros [|c s]; simpl; try lia.
  specialize (IH s). lia.
Qed.

Lemma take_keeps_out (c : ascii) (n : nat) (s : string) :
  contains (String c EmptyString) s = false ->
  contains (String c EmptyString) (take n s) = false.
Proof.
  revert s; induction n as [|n IH]; intros [|d s]; try reflexivity.
  rewrite contains_char_cons. intros H. apply orb_false_elim in H as [H1 H2].
  cbn [take]. rewrite contains_char_cons, H1. now apply IH.
Qed.

(** Deleting a character leaves none of it, and brings in no other. *)
Lemma delete_char_gone (c : ascii) (s : string) :
  contains (String c EmptyString) (replace_char c EmptyString s) = false.
Proof.
  induction s as [|d s IH]; [reflexivity|].
  cbn [replace_char]. destruct (Ascii.eqb d c) eqn:E.
  - exact IH.
  - now rewrite contains_char_cons, E.
Qed.

Lemma delete_char_keeps_out (c x : ascii) (s : string) :
  contains (String c EmptyString) s = false ->
  contains (String c EmptyString) (replace_char x EmptyString s) = false.
Proof.
  induction s as [|d s IH]; [reflexivity|].
  rewrite contains_char_cons. intros H. apply orb_false_elim in H as [H1 H2].
  cbn [replace_char]. destruct (Ascii.eqb d x).
  - now apply IH.
  - now rewrite contains_char_cons, H1, IH.
Qed.

Lemma split_head_clean (c : ascii) (s : string) :
  contains (String c EmptyString) (split_head c s) = false.
Proof.
  induction s as [|d s IH]; [reflexivity|].
  cbn [split_head]. destruct (Ascii.eqb d c) eqn:E; [reflexivity|].
  now rewrite contains_char_cons, E.
Qed.

(** The text before the first [sep] of [a ++ sep ++ b] is [a] when [a]
    holds no [sep]. *)
Lemma split_head_append (c : ascii) (a b : string) :
  contains (String c EmptyString) a = false ->
  split_head c (a ++ String c b) = a.
Proof.
  induction a as [|d a IH]; intros H.
  - simpl. now rewrite Ascii.eqb_refl.
  - rewrite contains_char_cons in H. apply orb_false_elim in H as [H1 H2].
    simpl. now rewrite H1, IH.
Qed.

Lemma split_head_whole (c : ascii) (a : string) :
  contains (String c EmptyString) a = false -> split_head c a = a.
Proof.
  induction a as [|d a IH]; intros H; [reflexivity|].
  rewrite contains_char_cons in H. apply orb_false_elim in H as [H1 H2].
  simpl. now rewrite H1, IH.
Qed.

Lemma swap_char_gone (c d : ascii) (s : string) :
  Ascii.eqb d c = false ->
  contains (String c EmptyString) (replace_char c (String d EmptyString) s)
  = false.
Proof.
  intros Hd. induction s as [|x s IH]; [reflexivity|].
  cbn [replace_char]. destruct (Ascii.eqb x c) eqn:E.
  - change (String d EmptyString ++ ?r)%string with (String d r).
    cbn [append]. now rewrite contains_char_cons, Hd.
  - now rewrite contains_char_cons, E.
Qed.

Lemma swap_char_id (c : ascii) (n : string) (s : string) :
  contains (String c EmptyString) s = false -> replace_char c n s = s.
Proof.
  induction s as [|x s IH]; intros H; [reflexivity|].
  rewrite contains_char_cons in H. apply orb_false_elim in H as [H1 H2].
  cbn [replace_char]. now rewrite H1, IH.
Qed.

Lemma lstrip_keeps_out (c x : ascii) (s : string) :
  contains (String c EmptyString) s = false ->
  contains (String c EmptyString) (lstrip_char x s) = false.
Proof.
  induction s as [|d s IH]; [reflexivity|].
  intros H. cbn [lstrip_char]. destruct (Ascii.eqb d x); [|exact H].
  rewrite contains_char_cons in H. apply orb_false_elim in H as [_ H2].
  now apply IH.
Qed.

Lemma lstrip_no_lead (c : ascii) (s : string) :
  prefix (String c EmptyString) (lstrip_char c s) = false.
Proof.
  induction s as [|d s IH]; [reflexivity|].
  cbn [lstrip_char]. destruct (Ascii.eqb d c) eqn:E; [exact IH|].
  cbn [prefix]. destruct (ascii_dec c d) as [->|_]; [|reflexivity].
  now rewrite Ascii.eqb_refl in E.
Qed.

Lemma lstrip_id (c : ascii) (s : string) :
  prefix (String c EmptyString) s = false -> lstrip_char c s = s.
Proof.
  destruct s as [|d s]; [reflexivity|].
  cbn [prefix lstrip_char]. destruct (ascii_dec c d) as [->|ne].
  - now destruct s.
  - intros _. destruct (Ascii.eqb_spec d c) as [->|_]; [now elim ne|reflexivity].
Qed.

End Text.

(* ================================================================== *)
(** ** Category, identifier and URL *)
(* ================================================================== *)

Module Category.
Import PyStr.

(** X1.  [detect_category] returns one of thirteen lower-case labels: the
    eleven categories of [CATEGORY_KEYWORDS], ["aesthetic"] or ["other"],
    whatever the path and the source name. *)
Theorem detect_category_range (file_path repo_name : string) :
  In (detect_category file_path repo_name)
     ["nature"; "minimal"; "dark"; "abstract"; "anime"; "gruvbox"; "nord";
      "city"; "space"; "gradient"; "gaming"; "aesthetic"; "other"].
Proof.
  unfold detect_category.
  destruct (find _ CATEGORY_KEYWORDS) as [[category keywords]|] eqn:E.
  - apply find_some in E. destruct E as [Hin _].
    unfold CATEGORY_KEYWORDS in Hin. simpl in Hin.
    repeat (destruct Hin as [Hin|Hin];
            [inversion Hin; subst; simpl; tauto|]).
    contradiction.
  - destruct (contains "minimal" _); [simpl; tauto|].
    destruct (contains "nordic" _); [simpl; tauto|].
    destruct (contains "aesthetic" _); simpl; tauto.
Qed.

(** X2.  The first category with a match wins, in the order
    [CATEGORY_KEYWORDS] lists the categories and wherever in the path the
    keywords stand: when no keyword of the categories before an entry
    occurs in the lower-cased path and one of the entry's own does, the
    entry's category is returned. *)
Theorem first_category_with_match_wins (file_path repo_name : string)
    (before after : list (string * list string))
    (entry : string * list string) (keyword : string) :
  CATEGORY_KEYWORDS = before ++ entry :: after ->
  (forall e k, In e before -> In k (snd e) ->
               contains k (lower file_path) = false) ->
  In keyword (snd entry) ->
  contains keyword (lower file_path) = true ->
  detect_category file_path repo_name = fst entry.
Proof.
  intros Hsplit Hnone Hk Hc. unfold detect_category. rewrite Hsplit.
  clear Hsplit. induction before as [|e before IH].
  - cbn [app find].
    assert (E : existsb (fun k => contains k (lower file_path)) (snd entry)
                = true) by (apply existsb_exists; now exists keyword).
    rewrite E. now destruct entry.
  - cbn [app find].
    assert (E : existsb (fun k => contains k (lower file_path)) (snd e)
                = false).
    { destruct (existsb _ (snd e)) eqn:E; [|reflexivity].
      apply existsb_exists in E. destruct E as (k & Hin & Hk').
      rewrite (Hnone e k) in Hk'; [discriminate | now left | exact Hin]. }
    rewrite E. apply IH. intros e' k He'. apply Hnone. now right.
Qed.

Lemma first_category_with_match_wins_witness :
  detect_category "Dark/Night-Forest.png" "dharmx/walls" = "nature"
  /\ detect_category "city/Moody_Street.jpg" "dharmx/walls" = "dark".
Proof.
  split.
  - apply (first_category_with_match_wins "Dark/Night-Forest.png"
             "dharmx/walls" [] (tl CATEGORY_KEYWORDS)
             (hd (EmptyString, []) CATEGORY_KEYWORDS) "forest").
    + reflexivity.
    + intros e k [].
    + simpl; tauto.
    + reflexivity.
  - apply (first_category_with_match_wins "city/Moody_Street.jpg"
             "dharmx/walls" (firstn 2 CATEGORY_KEYWORDS)
             (skipn 3 CATEGORY_KEYWORDS)
             (nth 2 CATEGORY_KEYWORDS (EmptyString, [])) "moody").
    + reflexivity.
    + intros e k He Hk. simpl in He.
      destruct He as [<-|[<-|[]]]; simpl in Hk;
        repeat (destruct Hk as [<-|Hk]; [reflexivity|]); contradiction.
    + simpl; tauto.
    + reflexivity.
Defined.

(** X3.  A keyword in the path overrides the source: when some keyword of
    [CATEGORY_KEYWORDS] occurs in the lower-cased path, the category is one
    of the eleven keyword categories and is the same for every source
    name; the defaults by source name are not consulted. *)
Theorem path_keyword_overrides_source (file_path keyword : string)
    (entry : string * list string) :
  In entry CATEGORY_KEYWORDS ->
  In keyword (snd entry) ->
  contains keyword (lower file_path) = true ->
  forall repo_name,
    In (detect_category file_path repo_name) (map fst CATEGORY_KEYWORDS)
    /\ forall other, detect_category file_path other
                     = detect_category file_path repo_name.
Proof.
  intros He Hk Hc repo_name. unfold detect_category.
  destruct (find _ CATEGORY_KEYWORDS) as [[category keywords]|] eqn:E.
  - split; [|reflexivity].
    apply find_some in E. destruct E as [Hin _].
    change category with (fst (category, keywords)). now apply in_map.
  - exfalso. apply (find_none _ _ E) in He.
    assert (existsb (fun k => contains k (lower file_path)) (snd entry) = true)
      by (apply existsb_exists; now exists keyword).
    congruence.
Qed.

Lemma path_keyword_overrides_source_witness :
  In (detect_category "Wallpapers/Forest-01.jpg"
        "DenverCoder1/minimalistic-wallpaper-collection")
     (map fst CATEGORY_KEYWORDS)
  /\ forall other, detect_category "Wallpapers/Forest-01.jpg" other
                   = detect_category "Wallpapers/Forest-01.jpg"
                       "DenverCoder1/minimalistic-wallpaper-collection".
Proof.
  apply (path_keyword_overrides_source "Wallpapers/Forest-01.jpg" "forest"
           ("nature", ["nature"; "landscape"; "forest"; "mountain"; "ocean";
                       "sunset"; "sunrise"; "sky"])).
  - simpl; tauto.
  - simpl; tauto.
  - reflexivity.
Defined.

End Category.

Module Naming.
Import PyStr.

(** X4.  The path part of a CDN URL is clean: [generate_cdn_url] puts,
    after the fixed prefix, the source name, [@] and the branch, a path
    that holds no backslash and does not start with a slash; and cleaning
    is idempotent, the clean path gives the same URL again. *)
Theorem cdn_url_path_is_clean (repo_name relative_path branch : string) :
  exists clean_path,
    generate_cdn_url repo_name relative_path branch
    = ("https://cdn.jsdelivr.net/gh/" ++ repo_name ++ "@" ++ branch ++ "/"
       ++ clean_path)%string
    /\ contains "\" clean_path = false
    /\ prefix "/" clean_path = false
    /\ generate_cdn_url repo_name clean_path branch
       = generate_cdn_url repo_name relative_path branch.
Proof.
  exists (lstrip_char "/" (replace_char "\" "/" relative_path)).
  assert (H1 : contains "\" (lstrip_char "/" (replace_char "\" "/" relative_path))
               = false).
  { apply Text.lstrip_keeps_out. now apply Text.swap_char_gone. }
  repeat split.
  - exact H1.
  - apply Text.lstrip_no_lead.
  - unfold generate_cdn_url.
    rewrite (Text.swap_char_id "\" "/" _ H1).
    rewrite (Text.lstrip_id "/" _ (Text.lstrip_no_lead "/" _)).
    reflexivity.
Qed.

(** X5.  The shape of an identifier: [generate_wallpaper_id] returns
    [short_digest] where [digest] is the first 12 characters of the MD5 hex
    digest of [repo_name/relative_path], and [short] has at most 8
    characters and holds none of [/], [-] and [_]; so the text before the
    first underscore of the identifier is exactly [short]. *)
Theorem wallpaper_id_shape (md5_hexdigest : string -> string)
    (repo_name relative_path : string) :
  exists short,
    generate_wallpaper_id md5_hexdigest repo_name relative_path
    = (short ++ "_"
       ++ take 12 (md5_hexdigest (repo_name ++ "/" ++ relative_path)))%string
    /\ (String.length short <= 8)%nat
    /\ contains "/" short = false
    /\ contains "-" short = false
    /\ contains "_" short = false
    /\ split_head "_"
         (generate_wallpaper_id md5_hexdigest repo_name relative_path)
       = short.
Proof.
  unfold generate_wallpaper_id.
  set (short := take 8 _).
  assert (Hu : contains "_" short = false).
  { apply Text.take_keeps_out, Text.delete_char_gone. }
  exists short. repeat split.
  - apply Text.length_take.
  - apply Text.take_keeps_out. do 2 apply Text.delete_char_keeps_out.
    apply Text.split_head_clean.
  - apply Text.take_keeps_out. apply Text.delete_char_keeps_out.
    apply Text.delete_char_gone.
  - exact Hu.
  - now apply Text.split_head_append.
Qed.

End Naming.

(* ================================================================== *)
(** ** SourceAcquirer: the pace and the end of the retry loop *)
(* ================================================================== *)

Module Retrying.
Import Measure.

Lemma attempts_numbers (events : list clone_event) :
  attempts events = List.length (attempt_numbers events).
Proof.
  unfold attempts, attempt_numbers.
  induction events as [|[n|d] events IH]; simpl; congruence.
Qed.

Lemma retry_delay (sparse : bool) (g : git) (n : nat) (d : Z) :
  attempt_outcome sparse g n = Retry d ->
  5 <= d <= (if sparse then 5 else 10).
Proof.
  unfold attempt_outcome. destruct sparse.
  - unfold sparse_attempt.
    repeat match goal with
           | |- context [match ?x with _ => _ end] => destruct x
           end; intros H; inversion H; lia.
  - unfold full_attempt.
    repeat match goal with
           | |- context [match ?x with _ => _ end] => destruct x
           end; intros H; inversion H; lia.
Qed.

Lemma clone_loop_unfold (sparse : bool) (g : git) (max_retries a rem : nat) :
  clone_loop sparse g max_retries a (S rem)
  = match attempt_outcome sparse g (S a) with
    | Cloned => (true, [Attempt (S a)])
    | GiveUp => (false, [Attempt (S a)])
    | Retry delay =>
        if (S a <? max_retries)%nat
        then (fst (clone_loop sparse g max_retries (S a) rem),
              Attempt (S a) :: Sleep delay
              :: snd (clone_loop sparse g max_retries (S a) rem))
        else (false, [Attempt (S a)])
    end.
Proof.
  cbn [clone_loop]. unfold attempt_outcome.
  destruct (if sparse then _ else _); try reflexivity.
  destruct (S a <? max_retries)%nat; [|reflexivity].
  now destruct (clone_loop sparse g max_retries (S a) rem).
Qed.

Lemma clone_loop_paced (sparse : bool) (g : git) (max_retries : nat) :
  forall rem a, (a + rem = max_retries)%nat -> (0 < rem)%nat ->
    let events := snd (clone_loop sparse g max_retries a rem) in
    exists k, (1 <= k <= rem)%nat
      /\ attempt_numbers events = seq (S a) k
      /\ List.length (sleeps events) = (k - 1)%nat
      /\ 5 * Z.of_nat (k - 1) <= total_sleep events
         <= (if sparse then 5 else 10) * Z.of_nat (k - 1)
      /\ Forall (fun d => 5 <= d <= (if sparse then 5 else 10))
                (sleeps events)
      /\ alternates events = true.
Proof.
  assert (Hone : forall n,
             exists k, (1 <= k <= S n)%nat
               /\ attempt_numbers [Attempt (S (max_retries - S n))]
                  = seq (S (max_retries - S n)) k
               /\ List.length (sleeps [Attempt (S (max_retries - S n))])
                  = (k - 1)%nat
               /\ 5 * Z.of_nat (k - 1)
                  <= total_sleep [Attempt (S (max_retries - S n))]
                  <= (if sparse then 5 else 10) * Z.of_nat (k - 1)
               /\ Forall (fun d => 5 <= d <= (if sparse then 5 else 10))
                         (sleeps [Attempt (S (max_retries - S n))])
               /\ alternates [Attempt (S (max_retries - S n))] = true).
  { intros n. exists 1%nat. cbn.
    repeat split; try lia; try constructor; destruct sparse; lia. }
  induction rem as [|rem IH]; intros a Ha Hpos; [lia|].
  assert (Ea : a = (max_retries - S rem)%nat) by lia.
  cbn zeta. rewrite clone_loop_unfold.
  destruct (attempt_outcome sparse g (S a)) as [| |delay] eqn:E.
  - cbn [snd]. rewrite Ea. apply Hone.
  - cbn [snd]. rewrite Ea. apply Hone.
  - apply retry_delay in E.
    destruct (Nat.ltb_spec (S a) max_retries) as [Hlt|Hge];
      [|cbn [snd]; rewrite Ea; apply Hone].
    destruct (IH (S a)) as (k & Hk & Hn & Hs & Ht & Hd & Hl); [lia|lia|].
    cbn zeta in *. exists (S k). cbn [snd].
    set (events := snd (clone_loop sparse g max_retries (S a) rem)) in *.
    change (attempt_numbers (Attempt (S a) :: Sleep delay :: events))
      with (S a :: attempt_numbers events).
    change (sleeps (Attempt (S a) :: Sleep delay :: events))
      with (delay :: sleeps events).
    unfold total_sleep in *.
    change (sleeps (Attempt (S a) :: Sleep delay :: events))
      with (delay :: sleeps events).
    cbn [fold_right List.length].
    split; [lia|]. split; [now rewrite Hn|]. split; [lia|].
    split; [destruct sparse; lia|]. split; [now constructor|].
    cbn [alternates]. destruct events as [|e events']; [|exact Hl].
    cbn in Hn. destruct k; [lia | discriminate].
Qed.

(** X6.  The pace of [clone_repository]: attempts and sleeps take turns,
    beginning and ending with an attempt; the attempts are numbered 1, 2,
    ... without a gap and there are at most [max_retries] of them (none
    for [max_retries = 0]); every sleep lasts between 5 and 10 seconds,
    exactly 5 in sparse mode, so the function never sleeps longer than
    [10 * (attempts - 1)] seconds in all. *)
Theorem clone_trace_is_paced (repo : repository) (g : git)
    (test_mode : bool) (max_retries : nat) :
  let events := snd (clone_repository repo g test_mode max_retries) in
  alternates events = true
  /\ attempt_numbers events = seq 1 (attempts events)
  /\ (attempts events <= max_retries)%nat
  /\ List.length (sleeps events) = (attempts events - 1)%nat
  /\ Forall (fun d => 5 <= d <= (if sparse_mode repo test_mode
                                  then 5 else 10))
            (sleeps events)
  /\ 5 * Z.of_nat (attempts events - 1) <= total_sleep events
     <= (if sparse_mode repo test_mode then 5 else 10)
        * Z.of_nat (attempts events - 1).
Proof.
  cbn zeta. unfold clone_repository. fold (sparse_mode repo test_mode).
  destruct max_retries as [|m].
  - cbn. repeat split; try lia; try constructor;
      try (destruct (sparse_mode repo test_mode); lia).
  - destruct (clone_loop_paced (sparse_mode repo test_mode) g (S m) (S m) 0)
      as (k & Hk & Hn & Hs & Ht & Hd & Hl); [lia|lia|].
    cbn zeta in *.
    assert (Ha : attempts
                   (snd (clone_loop (sparse_mode repo test_mode) g (S m) 0 (S m)))
                 = k).
    { rewrite attempts_numbers, Hn. apply length_seq. }
    rewrite Ha. repeat split; try assumption; lia.
Qed.

Lemma clone_loop_stops (sparse : bool) (g : git) (max_retries : nat) :
  forall rem a k, (a + rem = max_retries)%nat -> (a < k <= max_retries)%nat ->
    (forall j, (a < j < k)%nat ->
               exists d, attempt_outcome sparse g j = Retry d) ->
    (attempt_outcome sparse g k = Cloned
     \/ attempt_outcome sparse g k = GiveUp \/ k = max_retries) ->
    fst (clone_loop sparse g max_retries a rem)
    = match attempt_outcome sparse g k with Cloned => true | _ => false end
    /\ attempt_numbers (snd (clone_loop sparse g max_retries a rem))
       = seq (S a) (k - a).
Proof.
  induction rem as [|rem IH]; intros a k Ha Hk Hretry Hend; [lia|].
  rewrite clone_loop_unfold.
  destruct (Nat.eq_dec k (S a)) as [->|Hne].
  - replace (S a - a)%nat with 1%nat by lia.
    destruct (attempt_outcome sparse g (S a)) as [| |delay] eqn:E;
      [now split | now split |].
    destruct Hend as [Hend|[Hend|Hend]]; try discriminate.
    rewrite Hend, Nat.ltb_irrefl. now split.
  - destruct (Hretry (S a)) as [d Hd]; [lia|]. rewrite Hd.
    destruct (Nat.ltb_spec (S a) max_retries) as [_|Hge]; [|lia].
    destruct (IH (S a) k) as [H1 H2]; try assumption; try lia.
    { intros j Hj. apply Hretry. lia. }
    cbn [fst snd]. split; [exact H1|].
    change (attempt_numbers (Attempt (S a) :: Sleep d :: ?ev))
      with (S a :: attempt_numbers ev).
    rewrite H2. replace (k - a)%nat with (S (k - S a)) by lia. reflexivity.
Qed.

(** X7.  Where [clone_repository] stops: at the first attempt that does
    not call for a retry, or at attempt [max_retries].  If the attempts
    before the [k]-th all end in a retry and the [k]-th clones, gives up
    or is the last one allowed, exactly the attempts 1..[k] are made, and
    a tree is returned if and only if the [k]-th attempt cloned. *)
Theorem clone_stops_at_first_final (repo : repository) (g : git)
    (test_mode : bool) (max_retries k : nat) :
  (1 <= k <= max_retries)%nat ->
  (forall j, (1 <= j < k)%nat ->
     exists d, attempt_outcome (sparse_mode repo test_mode) g j = Retry d) ->
  (attempt_outcome (sparse_mode repo test_mode) g k = Cloned
   \/ attempt_outcome (sparse_mode repo test_mode) g k = GiveUp
   \/ k = max_retries) ->
  fst (clone_repository repo g test_mode max_retries)
  = match attempt_outcome (sparse_mode repo test_mode) g k with
    | Cloned => true
    | _ => false
    end
  /\ attempt_numbers (snd (clone_repository repo g test_mode max_retries))
     = seq 1 k.
Proof.
  intros Hk Hretry Hend. unfold clone_repository.
  fold (sparse_mode repo test_mode).
  destruct (clone_loop_stops (sparse_mode repo test_mode) g max_retries
              max_retries 0 k) as [H1 H2]; try assumption; try lia.
  split; [exact H1|]. rewrite H2. now rewrite Nat.sub_0_r.
Qed.

Lemma clone_stops_at_first_final_witness :
  fst (clone_repository Sample.first_source Inputs.flaky false 3) = true
  /\ attempt_numbers
       (snd (clone_repository Sample.first_source Inputs.flaky false 3))
     = [1; 2]%nat.
Proof.
  apply (clone_stops_at_first_final Sample.first_source Inputs.flaky false 3 2).
  - lia.
  - intros j Hj. assert (j = 1%nat) as -> by lia. exists 10. reflexivity.
  - left. reflexivity.
Defined.

End Retrying.

(* ================================================================== *)
(** ** AssetScanner: no file twice *)
(* ================================================================== *)

Module Scanning.
Import PyStr.

Lemma substring_all (s : string) : substring 0 (String.length s) s = s.
Proof. induction s as [|c s IH]; simpl; [reflexivity | now rewrite IH]. Qed.

Lemma substring_split (s : string) : forall n, (n <= String.length s)%nat ->
  s = (substring 0 n s ++ substring n (String.length s - n) s)%string.
Proof.
  induction s as [|c s IH]; intros [|n] H; simpl in *; try reflexivity;
    try lia.
  - now rewrite substring_all.
  - rewrite <- IH; [reflexivity | lia].
Qed.

Lemma endswith_suffix (s x : string) :
  endswith s x = true -> exists p, s = (p ++ x)%string.
Proof.
  unfold endswith.
  destruct (Nat.leb_spec (String.length x) (String.length s)) as [Hle|];
    [|discriminate].
  intros E. apply String.eqb_eq in E.
  exists (substring 0 (String.length s - String.length x) s).
  pose proof (substring_split s (String.length s - String.length x)) as H.
  replace (String.length s - (String.length s - String.length x))%nat
    with (String.length x) in H by lia.
  rewrite E in H. apply H. lia.
Qed.

Lemma list_of_append (a b : string) :
  list_ascii_of_string (a ++ b)
  = (list_ascii_of_string a ++ list_ascii_of_string b)%list.
Proof. induction a as [|c a IH]; simpl; [reflexivity | now rewrite IH]. Qed.

(** The end of a name, read backwards. *)
Lemma suffix_reversed (s x : string) :
  endswith s x = true ->
  exists r, rev (list_ascii_of_string s)
            = (rev (list_ascii_of_string x) ++ r)%list.
Proof.
  intros H. apply endswith_suffix in H. destruct H as [p ->].
  exists (rev (list_ascii_of_string p)).
  now rewrite list_of_append, rev_app_distr.
Qed.

(** No name ends with two of the supported extensions. *)
Lemma extensions_exclusive (n e1 e2 : string) :
  In e1 SUPPORTED_EXTENSIONS -> In e2 SUPPORTED_EXTENSIONS ->
  endswith n e1 = true -> endswith n e2 = true -> e1 = e2.
Proof.
  intros H1 H2 E1 E2.
  apply suffix_reversed in E1. destruct E1 as [r1 E1].
  apply suffix_reversed in E2. destruct E2 as [r2 E2].
  rewrite E1 in E2. clear E1.
  unfold SUPPORTED_EXTENSIONS in H1, H2. simpl in H1, H2.
  repeat (destruct H1 as [<-|H1]); try contradiction;
    repeat (destruct H2 as [<-|H2]); try contradiction;
    try reflexivity; simpl in E2; discriminate.
Qed.

(** A filter keeps the paths of a tree distinct. *)
Lemma filter_keeps_paths_distinct (keep : image_file -> bool)
    (tree : list image_file) :
  NoDup (map rel_path tree) -> NoDup (map rel_path (filter keep tree)).
Proof.
  intros H. induction tree as [|f tree IH]; [constructor|].
  cbn [map] in H. apply NoDup_cons_iff in H. destruct H as [Hn Hd].
  cbn [filter]. destruct (keep f); [|now apply IH].
  cbn [map]. constructor; [|now apply IH].
  intros Hin. apply Hn. apply in_map_iff in Hin.
  destruct Hin as (g & Hg & Hin). apply filter_In in Hin.
  apply in_map_iff. exists g. tauto.
Qed.

Lemma rglob_rounds_no_repeat (tree : list image_file) :
  NoDup (map rel_path tree) ->
  forall exts, NoDup exts -> incl exts SUPPORTED_EXTENSIONS ->
    NoDup (map rel_path (flat_map (rglob tree) exts)).
Proof.
  intros Ht exts. induction exts as [|e exts IH]; intros Hn Hi.
  - constructor.
  - inversion Hn as [|? ? Hne Hn']; subst.
    cbn [flat_map]. rewrite map_app. apply NoDup_app.
    + now apply filter_keeps_paths_distinct.
    + apply IH; [assumption|]. intros x Hx. apply Hi. now right.
    + intros path H1 H2.
      apply in_map_iff in H1. destruct H1 as (f1 & <- & H1).
      apply filter_In in H1. destruct H1 as [_ H1].
      apply in_map_iff in H2. destruct H2 as (f2 & E & H2).
      apply in_flat_map in H2. destruct H2 as (e2 & He2 & H2).
      apply filter_In in H2. destruct H2 as [_ H2]. rewrite E in H2.
      apply Hne.
      rewrite (extensions_exclusive (file_name (rel_path f1)) e e2);
        try assumption.
      * apply Hi. now left.
      * apply Hi. now right.
Qed.

(** X8.  [find_wallpapers] returns no file twice: in a tree whose files
    have distinct paths, the candidates have distinct paths too.  The
    scan walks the tree once per extension and concatenates the rounds;
    no file is met in two rounds because no name ends with two of the
    four extensions. *)
Theorem find_wallpapers_no_repeat (tree : list image_file) :
  NoDup (map rel_path tree) ->
  NoDup (map rel_path (find_wallpapers tree)).
Proof.
  intros H. unfold find_wallpapers. apply filter_keeps_paths_distinct.
  apply rglob_rounds_no_repeat; [assumption | | apply incl_refl].
  unfold SUPPORTED_EXTENSIONS.
  repeat (constructor; [simpl; intuition discriminate|]). constructor.
Qed.

Lemma find_wallpapers_no_repeat_witness :
  NoDup (map rel_path [Sample.lake; Sample.lake_again; Sample.sunset_upper])
  /\ NoDup (map rel_path
              (find_wallpapers
                 [Sample.lake; Sample.lake_again; Sample.sunset_upper])).
Proof.
  assert (H : NoDup (map rel_path
                       [Sample.lake; Sample.lake_again; Sample.sunset_upper])).
  { simpl. repeat (constructor; [simpl; intuition discriminate|]).
    constructor. }
  split; [exact H|].
  apply (find_wallpapers_no_repeat
           [Sample.lake; Sample.lake_again; Sample.sunset_upper] H).
Defined.

End Scanning.

(* ================================================================== *)
(** ** PerceptualDeduplicator in the loop over the images *)
(* ================================================================== *)

Module Deduplication.
Import Spec Measure.

Lemma far_sym (a b : string) : far a b -> far b a.
Proof.
  intros (d & E & H). exists d. split; [|exact H].
  now rewrite Deduplicator.distance_sym.
Qed.

Lemma not_duplicate_far (p : string) (hashes : list string) :
  is_duplicate p hashes = Returned false ->
  forall e, In e hashes -> far p e.
Proof.
  induction hashes as [|x hashes IH]; intros H e He; [destruct He|].
  cbn [is_duplicate] in H.
  destruct (ImageHash.distance p x) as [d|] eqn:Ed; [|discriminate].
  destruct (Z.leb_spec d PHASH_THRESHOLD) as [Hd|Hd]; [discriminate|].
  destruct He as [<-|He].
  - exists d. now split.
  - now apply IH.
Qed.

Lemma far_apart_snoc (hashes : list string) (p : string) :
  far_apart hashes -> (forall e, In e hashes -> far p e) ->
  far_apart (hashes ++ [p]).
Proof.
  intros Hh Hp i j a b Hij Hi Hj.
  assert (Hlen : forall k x, nth_error (hashes ++ [p]) k = Some x ->
                   ((k < List.length hashes)%nat /\ nth_error hashes k = Some x)
                   \/ (k = List.length hashes /\ x = p)).
  { intros k x Hk.
    destruct (Nat.lt_ge_cases k (List.length hashes)) as [Hlt|Hge].
    - left. split; [assumption|]. now rewrite nth_error_app1 in Hk.
    - right. rewrite nth_error_app2 in Hk by assumption.
      destruct (k - List.length hashes)%nat as [|[|n]] eqn:En;
        simpl in Hk; try discriminate.
      split; [lia | congruence]. }
  destruct (Hlen i a Hi) as [[Hil Hia]|[-> ->]];
    destruct (Hlen j b Hj) as [[Hjl Hjb]|[-> ->]].
  - exact (Hh i j a b Hij Hia Hjb).
  - apply far_sym, Hp. eapply nth_error_In; eassumption.
  - apply Hp. eapply nth_error_In; eassumption.
  - now elim Hij.
Qed.

Section WithMd5.

Variable md5 : string -> string.

Lemma process_image_far (repo : repository) (st : list json * list string)
    (img : image_file) :
  far_apart (snd st) -> far_apart (snd (process_image md5 repo st img)).
Proof.
  destruct st as [wallpapers hashes]. intros H.
  rewrite Orchestrator.process_image_step.
  destruct (accepts hashes img) eqn:E; [|exact H].
  apply Orchestrator.accepts_iff in E. destruct E as (_ & E & _).
  cbn [snd]. apply far_apart_snoc; [exact H|].
  now apply not_duplicate_far.
Qed.

Lemma process_images_far (repo : repository) (imgs : list image_file) :
  forall st, far_apart (snd st) ->
             far_apart (snd (process_images md5 repo imgs st)).
Proof.
  unfold process_images. induction imgs as [|img imgs IH]; intros st H.
  - exact H.
  - cbn [fold_left]. apply IH. now apply process_image_far.
Qed.

Lemma process_repository_far (repo : repository) (src : source)
    (hashes : list string) (test_mode : bool) :
  far_apart hashes ->
  far_apart (snd (process_repository md5 repo src hashes test_mode)).
Proof.
  intros H. unfold process_repository.
  destruct (clone_repository repo (remote src) test_mode 3) as [cloned ev].
  destruct cloned; cbn [negb]; [|exact H].
  now apply process_images_far.
Qed.

(** The records and the seen set of the loop of [main] after the sources
    [repos], whatever happens to the checkpoints. *)
Lemma main_step_harvest (w : world) (test_mode : bool) (st : run_state)
    (idx : Z) (repo : repository) (l : list json) :
  all_wallpapers st = JList l ->
  all_wallpapers (main_step md5 w test_mode st idx repo)
  = JList (l ++ fst (process_repository md5 repo (source_of w repo)
                       (processed_hashes st) test_mode))
  /\ processed_hashes (main_step md5 w test_mode st idx repo)
     = snd (process_repository md5 repo (source_of w repo)
              (processed_hashes st) test_mode).
Proof.
  intros Hl. unfold main_step.
  destruct (process_repository md5 repo (source_of w repo)
              (processed_hashes st) test_mode) as [wallpapers hashes].
  rewrite Hl. cbn [Py.extend fst snd].
  destruct (save_checkpoint (disk st) (l ++ wallpapers) idx (utcnow w idx));
    now split.
Qed.

Lemma main_loop_harvest (w : world) (test_mode : bool)
    (repos : list repository) :
  forall st idx l,
    all_wallpapers st = JList l ->
    all_wallpapers (main_loop md5 w test_mode st idx repos)
    = JList (l ++ fst (harvest md5 w test_mode (processed_hashes st) repos))
    /\ processed_hashes (main_loop md5 w test_mode st idx repos)
       = snd (harvest md5 w test_mode (processed_hashes st) repos).
Proof.
  induction repos as [|repo repos IH]; intros st idx l Hl.
  - cbn. now rewrite List.app_nil_r.
  - cbn [main_loop harvest].
    destruct (main_step_harvest w test_mode st idx repo l Hl) as [H1 H2].
    destruct (IH _ (idx + 1) _ H1) as [H3 H4].
    rewrite H3, H4, H2.
    destruct (process_repository md5 repo (source_of w repo)
                (processed_hashes st) test_mode) as [wallpapers hashes1].
    cbn [fst snd].
    destruct (harvest md5 w test_mode hashes1 repos) as [more hashes2].
    cbn [fst snd]. now rewrite List.app_assoc.
Qed.

(** The seen set does not depend on the record list, which may be
    something [extend] refuses. *)
Lemma main_loop_hashes (w : world) (test_mode : bool)
    (repos : list repository) :
  forall st idx,
    processed_hashes (main_loop md5 w test_mode st idx repos)
    = snd (harvest md5 w test_mode (processed_hashes st) repos).
Proof.
  induction repos as [|repo repos IH]; intros st idx; [reflexivity|].
  cbn [main_loop harvest]. rewrite IH.
  assert (E : processed_hashes (main_step md5 w test_mode st idx repo)
              = snd (process_repository md5 repo (source_of w repo)
                       (processed_hashes st) test_mode)).
  { unfold main_step.
    destruct (process_repository md5 repo (source_of w repo)
                (processed_hashes st) test_mode) as [wallpapers hashes].
    destruct (Py.extend (all_wallpapers st) wallpapers); [|reflexivity].
    now destruct (save_checkpoint _ _ _ _). }
  rewrite E.
  destruct (process_repository md5 repo (source_of w repo)
              (processed_hashes st) test_mode) as [wallpapers hashes1].
  cbn [snd].
  now destruct (harvest md5 w test_mode hashes1 repos).
Qed.

Lemma harvest_far (w : world) (test_mode : bool) (repos : list repository) :
  forall hashes, far_apart hashes ->
                 far_apart (snd (harvest md5 w test_mode hashes repos)).
Proof.
  induction repos as [|repo repos IH]; intros hashes H; [exact H|].
  cbn [harvest].
  pose proof (process_repository_far repo (source_of w repo) hashes
                test_mode H) as H1.
  destruct (process_repository md5 repo (source_of w repo) hashes test_mode)
    as [wallpapers hashes1].
  cbn [snd] in H1. specialize (IH hashes1 H1).
  now destruct (harvest md5 w test_mode hashes1 repos).
Qed.

End WithMd5.

Lemma far_apart_nil : far_apart [].
Proof. intros [|i] j a b _ H; discriminate. Qed.

(** X9.  Across all sources of a run, no two fingerprints of the seen set
    are within [PHASH_THRESHOLD] bits of each other: every fingerprint was
    compared with all that were in the set when it was added, those of
    earlier sources included.  This holds at the end of the loop of a
    fresh run, which always comes to its end, and of a resumed one, which
    starts from an empty set. *)
Theorem seen_set_stays_far_apart (md5 : string -> string) (w : world)
    (test_mode : bool) (fs : filesystem) :
  (exists st, main md5 w test_mode false fs = Returned st)
  /\ forall resume,
       match main md5 w test_mode resume fs with
       | Returned st => far_apart (processed_hashes st)
       | Raised => resume = true
       end.
Proof.
  split; [eexists; reflexivity|].
  intros resume. unfold main.
  assert (Hh : cp_hashes (if resume then load_checkpoint fs else empty_state)
               = []).
  { destruct resume; [apply Orchestrator.load_checkpoint_no_hashes
                     | reflexivity]. }
  destruct (cp_start_index _) as [start_index|f] eqn:E.
  - rewrite main_loop_hashes. cbn [processed_hashes]. rewrite Hh.
    apply harvest_far, far_apart_nil.
  - destruct resume; [reflexivity | discriminate].
Qed.

End Deduplication.

(* ================================================================== *)
(** ** PipelineOrchestrator: what a source and a run yield *)
(* ================================================================== *)

Module Harvesting.
Import Spec Measure.

Lemma accepted_embedding (imgs : list image_file) :
  forall hashes img, In img (accepted hashes imgs) -> embedding img <> None.
Proof.
  induction imgs as [|x imgs IH]; intros hashes img H; [destruct H|].
  cbn [accepted] in H. destruct (accepts hashes x) eqn:E.
  - destruct H as [<-|H]; [|now apply IH in H].
    now apply Orchestrator.accepts_iff in E.
  - now apply IH in H.
Qed.

Lemma accepted_length (imgs : list image_file) :
  forall hashes, (List.length (accepted hashes imgs) <= List.length imgs)%nat.
Proof.
  induction imgs as [|x imgs IH]; intros hashes; [apply Nat.le_refl|].
  cbn [accepted]. destruct (accepts hashes x); cbn [List.length].
  - specialize (IH (hashes ++ [phash x])). lia.
  - specialize (IH hashes). lia.
Qed.

Lemma records_length (md5 : string -> string) (repo : repository)
    (imgs : list image_file) :
  (forall img, In img imgs -> embedding img <> None) ->
  List.length (flat_map (record_of md5 repo) imgs) = List.length imgs.
Proof.
  induction imgs as [|x imgs IH]; intros H; [reflexivity|].
  cbn [flat_map]. rewrite List.length_app, IH.
  - unfold record_of. destruct (embedding x) eqn:E; [reflexivity|].
    now elim (H x (or_introl eq_refl)).
  - intros img Hin. apply H. now right.
Qed.

Section WithMd5.

Variable md5 : string -> string.

(** One source: the set grows at its end, by one fingerprint per record. *)
Lemma process_repository_grows (repo : repository) (src : source)
    (hashes : list string) (test_mode : bool) :
  exists added,
    snd (process_repository md5 repo src hashes test_mode) = hashes ++ added
    /\ List.length added
       = List.length (fst (process_repository md5 repo src hashes test_mode)).
Proof.
  unfold process_repository.
  destruct (clone_repository repo (remote src) test_mode 3) as [cloned ev].
  destruct cloned; cbn [negb].
  - rewrite Orchestrator.process_images_run. cbn [fst snd app].
    eexists. split; [reflexivity|].
    rewrite length_map, records_length; [reflexivity|].
    intros img. apply accepted_embedding.
  - exists []. now rewrite List.app_nil_r.
Qed.

Lemma harvest_grows (w : world) (test_mode : bool) (repos : list repository) :
  forall hashes,
    exists added,
      snd (harvest md5 w test_mode hashes repos) = hashes ++ added
      /\ List.length added
         = List.length (fst (harvest md5 w test_mode hashes repos)).
Proof.
  induction repos as [|repo repos IH]; intros hashes.
  - exists []. cbn. now rewrite List.app_nil_r.
  - cbn [harvest].
    destruct (process_repository_grows repo (source_of w repo) hashes
                test_mode) as (a1 & E1 & L1).
    destruct (process_repository md5 repo (source_of w repo) hashes test_mode)
      as [wallpapers hashes1].
    cbn [fst snd] in E1, L1. subst hashes1.
    destruct (IH (hashes ++ a1)) as (a2 & E2 & L2).
    destruct (harvest md5 w test_mode (hashes ++ a1) repos)
      as [more hashes2].
    cbn [fst snd] in *. exists (a1 ++ a2).
    rewrite E2, List.app_assoc, !List.length_app. split; [reflexivity | lia].
Qed.

Lemma process_repository_test_cap (repo : repository) (src : source)
    (hashes : list string) :
  (List.length (fst (process_repository md5 repo src hashes true)) <= 10)%nat.
Proof.
  unfold process_repository.
  destruct (clone_repository repo (remote src) true 3) as [cloned ev].
  destruct cloned; cbn [negb]; [|cbn; lia].
  rewrite Orchestrator.process_images_run. cbn [fst app].
  rewrite records_length by (intros img; apply accepted_embedding).
  etransitivity; [apply accepted_length|]. apply firstn_le_length.
Qed.

Lemma harvest_test_cap (w : world) (repos : list repository) :
  forall hashes,
    (List.length (fst (harvest md5 w true hashes repos))
     <= 10 * List.length repos)%nat.
Proof.
  induction repos as [|repo repos IH]; intros hashes; [cbn; lia|].
  cbn [harvest].
  pose proof (process_repository_test_cap repo (source_of w repo) hashes)
    as H1.
  destruct (process_repository md5 repo (source_of w repo) hashes true)
    as [wallpapers hashes1].
  specialize (IH hashes1).
  destruct (harvest md5 w true hashes1 repos) as [more hashes2].
  cbn [fst List.length] in *. rewrite List.length_app. lia.
Qed.

Lemma main_fresh (w : world) (test_mode : bool) (fs : filesystem) :
  main md5 w test_mode false fs
  = Returned (main_loop md5 w test_mode
                {| disk := fs; all_wallpapers := JList [];
                   processed_hashes := []; saved := [] |}
                0 REPOSITORIES).
Proof. reflexivity. Qed.

End WithMd5.

(** X10.  At the end of a fresh run the seen set holds exactly one
    fingerprint for every record of the output: the run returns a list of
    records, and it is as long as the seen set. *)
Theorem one_fingerprint_per_record (md5 : string -> string) (w : world)
    (test_mode : bool) (fs : filesystem) :
  exists st records,
    main md5 w test_mode false fs = Returned st
    /\ all_wallpapers st = JList records
    /\ List.length records = List.length (processed_hashes st).
Proof.
  rewrite main_fresh.
  destruct (Deduplication.main_loop_harvest md5 w test_mode REPOSITORIES
              {| disk := fs; all_wallpapers := JList [];
                 processed_hashes := []; saved := [] |} 0 [] eq_refl)
    as [H1 H2].
  destruct (harvest_grows md5 w test_mode REPOSITORIES []) as (added & E & L).
  eexists. eexists. split; [reflexivity|]. split; [exact H1|].
  rewrite H2. cbn [processed_hashes app]. rewrite E. cbn [app]. now rewrite L.
Qed.

(** X11.  Test mode caps the work: [process_repository] with
    [test_mode=True] returns at most 10 records, whatever the tree holds
    and whatever the seen set is, so a fresh [--test] run over the eight
    configured sources yields at most 80 records. *)
Theorem test_mode_caps_the_records (md5 : string -> string) (w : world) :
  (forall repo src hashes,
      (List.length (fst (process_repository md5 repo src hashes true))
       <= 10)%nat)
  /\ forall fs, exists st records,
       main md5 w true false fs = Returned st
       /\ all_wallpapers st = JList records
       /\ (List.length records <= 80)%nat.
Proof.
  split; [apply process_repository_test_cap|].
  intros fs. rewrite main_fresh.
  destruct (Deduplication.main_loop_harvest md5 w true REPOSITORIES
              {| disk := fs; all_wallpapers := JList [];
                 processed_hashes := []; saved := [] |} 0 [] eq_refl)
    as [H1 _].
  eexists. eexists. split; [reflexivity|]. split; [exact H1|].
  cbn [app processed_hashes].
  exact (harvest_test_cap md5 w REPOSITORIES []).
Qed.

(** X12.  An image that cannot be fingerprinted or embedded leaves no
    trace: when [compute_perceptual_hash] returns the empty string for it
    or the extractor returns [None], the records and the seen set after
    the loop over the images are those of the same loop without the
    image, whatever stands before and after it. *)
Theorem failed_image_leaves_no_trace (md5 : string -> string)
    (repo : repository) (img : image_file)
    (before after : list image_file) (st : list json * list string) :
  phash img = EmptyString \/ embedding img = None ->
  process_images md5 repo (before ++ img :: after) st
  = process_images md5 repo (before ++ after) st.
Proof.
  intros H. unfold process_images. rewrite !fold_left_app. cbn [fold_left].
  f_equal.
  destruct (fold_left (process_image md5 repo) before st)
    as [wallpapers hashes].
  rewrite Orchestrator.process_image_step.
  destruct (accepts hashes img) eqn:E; [|reflexivity].
  apply Orchestrator.accepts_iff in E. destruct E as (E1 & _ & E3).
  destruct H; contradiction.
Qed.

Lemma failed_image_leaves_no_trace_witness :
  (phash Sample.unembeddable = EmptyString
   \/ embedding Sample.unembeddable = None)
  /\ process_images Sample.md5_stub Sample.first_source
       ([Sample.sunset_lower] ++ Sample.unembeddable :: [Sample.lake_again])
       ([], [])
     = process_images Sample.md5_stub Sample.first_source
         ([Sample.sunset_lower] ++ [Sample.lake_again]) ([], []).
Proof.
  split; [right; reflexivity|].
  apply (failed_image_leaves_no_trace Sample.md5_stub Sample.first_source
           Sample.unembeddable [Sample.sunset_lower] [Sample.lake_again]
           ([], [])).
  right. reflexivity.
Defined.

End Harvesting.

(* ================================================================== *)
(** ** CheckpointStore: defaults, ill-typed documents, overwriting *)
(* ================================================================== *)

Module Checkpoints.
Import Sample Inputs.

(** X13.  A checkpoint that is a JSON object without the keys
    [wallpapers] and [last_repo_index] is taken with the defaults of
    [data.get]: no records and last index 0, so the resume index is 1.  A
    run resumed from it skips the first configured source although no
    record of it is held. *)
Theorem checkpoint_without_keys_resumes_at_1 (fs : filesystem)
    (text : string) (d : list (string * json)) :
  fs CHECKPOINT_PATH = File text ->
  Json.loads text = Some (JDict d) ->
  Py.lookup "wallpapers" d = None ->
  Py.lookup "last_repo_index" d = None ->
  load_checkpoint fs
  = {| cp_wallpapers := JList []; cp_start_index := PyInt 1;
       cp_hashes := [] |}
  /\ forall md5 w test_mode,
       main md5 w test_mode true fs
       = Returned (main_loop md5 w test_mode
                     {| disk := fs; all_wallpapers := JList [];
                        processed_hashes := []; saved := [] |}
                     1 (tl REPOSITORIES)).
Proof.
  intros Hf Ht Hw Hi.
  assert (E : load_checkpoint fs
              = {| cp_wallpapers := JList []; cp_start_index := PyInt 1;
                   cp_hashes := [] |}).
  { rewrite (CheckpointStore.load_checkpoint_file fs text Hf), Ht.
    cbn [Py.get]. rewrite Hw, Hi. reflexivity. }
  split; [exact E|].
  intros md5 w test_mode. unfold main. rewrite E. reflexivity.
Qed.

Lemma checkpoint_without_keys_resumes_at_1_witness :
  load_checkpoint empty_object_checkpoint
  = {| cp_wallpapers := JList []; cp_start_index := PyInt 1;
       cp_hashes := [] |}
  /\ forall md5 w test_mode,
       main md5 w test_mode true empty_object_checkpoint
       = Returned (main_loop md5 w test_mode
                     {| disk := empty_object_checkpoint;
                        all_wallpapers := JList [];
                        processed_hashes := []; saved := [] |}
                     1 (tl REPOSITORIES)).
Proof.
  apply (checkpoint_without_keys_resumes_at_1 empty_object_checkpoint "{}" []);
    reflexivity.
Defined.

(** X14.  A checkpoint that is valid JSON of the wrong shape is dropped
    like a corrupt one: when the document is not an object, or holds
    under [wallpapers] a value without a length (a number, a boolean,
    null), or under [last_repo_index] a value that [+ 1] refuses (a
    string, a list, an object, null), [load_checkpoint] returns the empty
    state [([], 0, set())]. *)
Theorem ill_typed_checkpoint_is_dropped (fs : filesystem) (text : string)
    (data : json) :
  fs CHECKPOINT_PATH = File text ->
  Json.loads text = Some data ->
  (forall d, data <> JDict d)
  \/ (exists d v, data = JDict d /\ Py.lookup "wallpapers" d = Some v
                  /\ Py.has_len v = false)
  \/ (exists d v, data = JDict d /\ Py.lookup "last_repo_index" d = Some v
                  /\ Py.add_one v = Raised) ->
  load_checkpoint fs = empty_state.
Proof.
  intros Hf Ht H.
  rewrite (CheckpointStore.load_checkpoint_file fs text Hf), Ht.
  destruct H as [H | [(d & v & -> & Hv & Hl) | (d & v & -> & Hv & Ha)]].
  - destruct data; try reflexivity. now elim (H d).
  - cbn [Py.get]. rewrite Hv, Hl. reflexivity.
  - cbn [Py.get]. rewrite Hv, Ha.
    now destruct (Py.has_len _).
Qed.

Lemma ill_typed_checkpoint_is_dropped_witness :
  load_checkpoint list_checkpoint = empty_state
  /\ load_checkpoint numeric_wallpapers_checkpoint = empty_state
  /\ load_checkpoint textual_index_checkpoint = empty_state.
Proof.
  split; [|split].
  - apply (ill_typed_checkpoint_is_dropped list_checkpoint "[1, 2]"
             (JList [JInt 1; JInt 2])); try reflexivity.
    left. intros d. discriminate.
  - apply (ill_typed_checkpoint_is_dropped numeric_wallpapers_checkpoint
             (Json.dumps (JDict [("wallpapers", JInt 5)]))
             (JDict [("wallpapers", JInt 5)])); try reflexivity.
    right. left. exists [("wallpapers", JInt 5)], (JInt 5).
    repeat split; reflexivity.
  - apply (ill_typed_checkpoint_is_dropped textual_index_checkpoint
             (Json.dumps (JDict [("last_repo_index", JStr "3")]))
             (JDict [("last_repo_index", JStr "3")])); try reflexivity.
    right. right. exists [("last_repo_index", JStr "3")], (JStr "3").
    repeat split; reflexivity.
Defined.

Lemma save_checkpoint_succeeds (fs : filesystem) (wallpapers : list json)
    (repo_index : Z) (now : string) :
  fs CHECKPOINT_PATH <> Denied ->
  save_checkpoint fs wallpapers repo_index now
  = Returned (Fs.write_all (Fs.put fs CHECKPOINT_PATH (File EmptyString))
                CHECKPOINT_PATH
                (Json.dumps (checkpoint_data wallpapers repo_index now))).
Proof.
  intros H. unfold save_checkpoint, Fs.open_w.
  destruct (fs CHECKPOINT_PATH); try reflexivity. now elim H.
Qed.

Lemma save_checkpoint_elsewhere (fs fs' : filesystem)
    (wallpapers : list json) (repo_index : Z) (now : string) (p : string) :
  save_checkpoint fs wallpapers repo_index now = Returned fs' ->
  p <> CHECKPOINT_PATH -> fs' p = fs p.
Proof.
  unfold save_checkpoint, Fs.open_w. intros H Hp.
  destruct (fs CHECKPOINT_PATH); inversion H; subst;
    unfold Fs.write_all; now rewrite !FsFacts.put_other.
Qed.

Lemma load_saved (fs : filesystem) (wallpapers : list json) (repo_index : Z)
    (now : string) :
  fs CHECKPOINT_PATH
  = File (Json.dumps (checkpoint_data wallpapers repo_index now)) ->
  load_checkpoint fs
  = {| cp_wallpapers := JList wallpapers;
       cp_start_index := PyInt (repo_index + 1); cp_hashes := [] |}.
Proof.
  intros H. rewrite (CheckpointStore.load_checkpoint_file fs _ H).
  rewrite JsonFacts.loads_dumps. reflexivity.
Qed.

(** X15.  The last checkpoint wins: once one [save_checkpoint] has
    returned, a second one cannot fail on the checkpoint file, and after
    it [load_checkpoint] yields the records and the index of the second
    save alone; nothing of the first is left, and neither save writes to
    another path. *)
Theorem last_checkpoint_wins (fs fs1 : filesystem)
    (records1 records2 : list json) (i1 i2 : Z) (now1 now2 : string) :
  save_checkpoint fs records1 i1 now1 = Returned fs1 ->
  exists fs2,
    save_checkpoint fs1 records2 i2 now2 = Returned fs2
    /\ load_checkpoint fs2
       = {| cp_wallpapers := JList records2;
            cp_start_index := PyInt (i2 + 1); cp_hashes := [] |}
    /\ forall p, p <> CHECKPOINT_PATH -> fs2 p = fs p.
Proof.
  intros H1.
  assert (Hw : fs1 CHECKPOINT_PATH <> Denied).
  { rewrite (CheckpointStore.save_checkpoint_file _ _ _ _ _ H1).
    discriminate. }
  pose proof (save_checkpoint_succeeds fs1 records2 i2 now2 Hw) as H2.
  eexists. split; [exact H2|]. split.
  - apply (load_saved _ records2 i2 now2).
    apply (CheckpointStore.save_checkpoint_file _ _ _ _ _ H2).
  - intros p Hp.
    rewrite (save_checkpoint_elsewhere _ _ _ _ _ p H2 Hp).
    apply (save_checkpoint_elsewhere _ _ _ _ _ p H1 Hp).
Qed.

Lemma last_checkpoint_wins_witness :
  exists fs2,
    save_checkpoint
      (Fs.write_all (Fs.put no_files CHECKPOINT_PATH (File EmptyString))
         CHECKPOINT_PATH
         (Json.dumps (checkpoint_data [sample_record; sample_record] 4
                        "2024-05-01T12:00:00")))
      [sample_record] 0 "2024-05-02T08:30:00" = Returned fs2
    /\ load_checkpoint fs2
       = {| cp_wallpapers := JList [sample_record];
            cp_start_index := PyInt (0 + 1); cp_hashes := [] |}
    /\ forall p, p <> CHECKPOINT_PATH -> fs2 p = no_files p.
Proof.
  apply (last_checkpoint_wins no_files _ [sample_record; sample_record]
           [sample_record] 4 0 "2024-05-01T12:00:00" "2024-05-02T08:30:00").
  reflexivity.
Defined.

End Checkpoints.

(* ================================================================== *)
(** ** PipelineOrchestrator: the run and its checkpoints *)
(* ================================================================== *)

Module Running.
Import Spec Sample Inputs Measure.

Section WithMd5.

Variable md5 : string -> string.

Lemma main_step_same (w1 w2 : world) (test_mode : bool) (st : run_state)
    (idx : Z) (repo : repository) :
  source_of w1 repo = source_of w2 repo ->
  utcnow w1 idx = utcnow w2 idx ->
  main_step md5 w1 test_mode st idx repo
  = main_step md5 w2 test_mode st idx repo.
Proof. intros H1 H2. unfold main_step. now rewrite H1, H2. Qed.

Lemma main_loop_same (w1 w2 : world) (test_mode : bool)
    (repos : list repository) :
  (forall repo, In repo repos -> source_of w1 repo = source_of w2 repo) ->
  (forall i, utcnow w1 i = utcnow w2 i) ->
  forall st idx,
    main_loop md5 w1 test_mode st idx repos
    = main_loop md5 w2 test_mode st idx repos.
Proof.
  intros Hs Hc. induction repos as [|repo repos IH]; intros st idx;
    [reflexivity|].
  cbn [main_loop].
  rewrite (main_step_same w1 w2 test_mode st idx repo);
    [|apply Hs; now left | apply Hc].
  apply IH. intros r Hr. apply Hs. now right.
Qed.

Lemma main_step_writable (w : world) (test_mode : bool) (st : run_state)
    (idx : Z) (repo : repository) (l : list json) :
  all_wallpapers st = JList l ->
  disk st CHECKPOINT_PATH <> Denied ->
  exists l',
    all_wallpapers (main_step md5 w test_mode st idx repo) = JList l'
    /\ saved (main_step md5 w test_mode st idx repo)
       = saved st ++ [(idx, l')]
    /\ disk (main_step md5 w test_mode st idx repo) CHECKPOINT_PATH
       = File (Json.dumps (checkpoint_data l' idx (utcnow w idx)))
    /\ forall p, p <> CHECKPOINT_PATH ->
                 disk (main_step md5 w test_mode st idx repo) p = disk st p.
Proof.
  intros Hl Hw. unfold main_step.
  destruct (process_repository md5 repo (source_of w repo)
              (processed_hashes st) test_mode) as [wallpapers hashes].
  rewrite Hl. cbn [Py.extend].
  rewrite (Checkpoints.save_checkpoint_succeeds _ _ _ _ Hw).
  exists (l ++ wallpapers). cbn [all_wallpapers saved disk].
  split; [reflexivity|]. split; [reflexivity|]. split.
  - unfold Fs.write_all. apply FsFacts.put_same.
  - intros p Hp. unfold Fs.write_all. now rewrite !FsFacts.put_other.
Qed.

Lemma main_loop_writable (w : world) (test_mode : bool)
    (repos : list repository) :
  forall st idx l,
    all_wallpapers st = JList l ->
    disk st CHECKPOINT_PATH <> Denied ->
    map fst (saved (main_loop md5 w test_mode st idx repos))
    = map fst (saved st)
      ++ map (fun k => idx + Z.of_nat k) (seq 0 (List.length repos))
    /\ (forall p, p <> CHECKPOINT_PATH ->
                  disk (main_loop md5 w test_mode st idx repos) p = disk st p)
    /\ (repos <> [] ->
        load_checkpoint (disk (main_loop md5 w test_mode st idx repos))
        = {| cp_wallpapers :=
               all_wallpapers (main_loop md5 w test_mode st idx repos);
             cp_start_index := PyInt (idx + Z.of_nat (List.length repos));
             cp_hashes := [] |}).
Proof.
  induction repos as [|repo repos IH]; intros st idx l Hl Hw.
  - cbn. rewrite List.app_nil_r. repeat split. intros H; now elim H.
  - cbn [main_loop].
    destruct (main_step_writable w test_mode st idx repo l Hl Hw)
      as (l' & Hl' & Hs & Hd & Ho).
    assert (Hw' : disk (main_step md5 w test_mode st idx repo) CHECKPOINT_PATH
                  <> Denied) by (rewrite Hd; discriminate).
    destruct (IH _ (idx + 1) l' Hl' Hw') as (I1 & I2 & I3).
    split; [|split].
    + rewrite I1, Hs, map_app, <- List.app_assoc. f_equal.
      cbn [map fst app List.length seq]. f_equal; [f_equal; lia|].
      rewrite <- seq_shift, map_map. apply map_ext. intros k. lia.
    + intros p Hp. rewrite (I2 p Hp). now apply Ho.
    + intros _. destruct repos as [|r repos].
      * cbn [main_loop List.length]. rewrite Hl'.
        rewrite (Checkpoints.load_saved _ l' idx (utcnow w idx) Hd).
        f_equal.
      * rewrite I3 by discriminate. f_equal. f_equal.
        cbn [List.length]. lia.
Qed.

Lemma main_loop_unwritable (w : world) (test_mode : bool)
    (repos : list repository) :
  forall st idx,
    disk st CHECKPOINT_PATH = Denied ->
    saved (main_loop md5 w test_mode st idx repos) = saved st
    /\ disk (main_loop md5 w test_mode st idx repos) = disk st.
Proof.
  induction repos as [|repo repos IH]; intros st idx Hd; [now split|].
  cbn [main_loop].
  assert (E : saved (main_step md5 w test_mode st idx repo) = saved st
              /\ disk (main_step md5 w test_mode st idx repo) = disk st).
  { unfold main_step.
    destruct (process_repository md5 repo (source_of w repo)
                (processed_hashes st) test_mode) as [wallpapers hashes].
    destruct (Py.extend (all_wallpapers st) wallpapers) as [extended|];
      [|now split].
    unfold save_checkpoint, Fs.open_w. rewrite Hd. now split. }
  destruct E as [E1 E2].
  destruct (IH (main_step md5 w test_mode st idx repo) (idx + 1)) as [I1 I2];
    [now rewrite E2|].
  split; congruence.
Qed.

End WithMd5.

(** X16.  Checkpoint trouble does not change the output: a fresh run
    ends with the same records and the same seen set on every file
    system, whether the checkpoint file can be written or every
    [save_checkpoint] raises. *)
Theorem records_do_not_depend_on_disk (md5 : string -> string) (w : world)
    (test_mode : bool) (fs fs' : filesystem) :
  exists st st',
    main md5 w test_mode false fs = Returned st
    /\ main md5 w test_mode false fs' = Returned st'
    /\ all_wallpapers st = all_wallpapers st'
    /\ processed_hashes st = processed_hashes st'.
Proof.
  rewrite !Harvesting.main_fresh.
  eexists. eexists. split; [reflexivity|]. split; [reflexivity|].
  destruct (Deduplication.main_loop_harvest md5 w test_mode REPOSITORIES
              {| disk := fs; all_wallpapers := JList [];
                 processed_hashes := []; saved := [] |} 0 [] eq_refl)
    as [H1 H2].
  destruct (Deduplication.main_loop_harvest md5 w test_mode REPOSITORIES
              {| disk := fs'; all_wallpapers := JList [];
                 processed_hashes := []; saved := [] |} 0 [] eq_refl)
    as [H3 H4].
  rewrite H1, H2, H3, H4. now split.
Qed.

(** X17.  On a file system where the checkpoint path can be opened, a
    fresh run writes one checkpoint after every configured source, with
    the indices 0 to 7 in order; at the end of the loop the checkpoint
    file reads back as the final record list with resume index 8, and
    the loop has written to no other path. *)
Theorem writable_run_checkpoints_every_source (md5 : string -> string)
    (w : world) (test_mode : bool) (fs : filesystem) :
  fs CHECKPOINT_PATH <> Denied ->
  exists st,
    main md5 w test_mode false fs = Returned st
    /\ map fst (saved st) = [0; 1; 2; 3; 4; 5; 6; 7]
    /\ load_checkpoint (disk st)
       = {| cp_wallpapers := all_wallpapers st;
            cp_start_index := PyInt 8; cp_hashes := [] |}
    /\ forall p, p <> CHECKPOINT_PATH -> disk st p = fs p.
Proof.
  intros Hw. rewrite Harvesting.main_fresh. eexists. split; [reflexivity|].
  destruct (main_loop_writable md5 w test_mode REPOSITORIES
              {| disk := fs; all_wallpapers := JList [];
                 processed_hashes := []; saved := [] |} 0 [] eq_refl Hw)
    as (H1 & H2 & H3).
  split; [exact H1|]. split; [|exact H2].
  apply H3. discriminate.
Qed.

Lemma writable_run_checkpoints_every_source_witness :
  exists st,
    main md5_stub two_pictures_world false false no_files = Returned st
    /\ map fst (saved st) = [0; 1; 2; 3; 4; 5; 6; 7]
    /\ load_checkpoint (disk st)
       = {| cp_wallpapers := all_wallpapers st;
            cp_start_index := PyInt 8; cp_hashes := [] |}
    /\ forall p, p <> CHECKPOINT_PATH -> disk st p = no_files p.
Proof.
  apply (writable_run_checkpoints_every_source md5_stub two_pictures_world
           false no_files).
  discriminate.
Defined.

(** X18.  On a file system where the checkpoint path cannot be opened,
    every [save_checkpoint] raises inside the [try] of the loop: the run
    still returns, no checkpoint is written and the loop leaves every
    path as it was. *)
Theorem unwritable_run_writes_nothing (md5 : string -> string) (w : world)
    (test_mode : bool) (fs : filesystem) :
  fs CHECKPOINT_PATH = Denied ->
  exists st,
    main md5 w test_mode false fs = Returned st
    /\ saved st = []
    /\ disk st = fs.
Proof.
  intros Hd. rewrite Harvesting.main_fresh. eexists. split; [reflexivity|].
  exact (main_loop_unwritable md5 w test_mode REPOSITORIES
           {| disk := fs; all_wallpapers := JList [];
              processed_hashes := []; saved := [] |} 0 Hd).
Qed.

Lemma unwritable_run_writes_nothing_witness :
  exists st,
    main md5_stub two_pictures_world false false
         (Fs.put no_files CHECKPOINT_PATH Denied) = Returned st
    /\ saved st = []
    /\ disk st = Fs.put no_files CHECKPOINT_PATH Denied.
Proof.
  apply (unwritable_run_writes_nothing md5_stub two_pictures_world false
           (Fs.put no_files CHECKPOINT_PATH Denied)).
  reflexivity.
Defined.

(** X19.  A resumed run keeps what the checkpoint held: when
    [load_checkpoint] restores a list of records, the record list at the
    end of the run starts with exactly these records, in their order;
    the run only appends. *)
Theorem resumed_run_keeps_restored_records (md5 : string -> string)
    (w : world) (test_mode : bool) (fs : filesystem) (st : run_state)
    (restored : list json) :
  main md5 w test_mode true fs = Returned st ->
  cp_wallpapers (load_checkpoint fs) = JList restored ->
  exists more, all_wallpapers st = JList (restored ++ more).
Proof.
  unfold main. intros H Hr.
  destruct (cp_start_index (load_checkpoint fs)) as [k|f]; [|discriminate].
  injection H as <-.
  edestruct (Deduplication.main_loop_harvest md5 w test_mode
               (Py.slice_from REPOSITORIES k)) as [H1 _];
    [|eexists; exact H1].
  exact Hr.
Qed.

Lemma resumed_run_keeps_restored_records_witness :
  exists more,
    all_wallpapers
      (main_loop md5_stub twin_world false
         {| disk := previous_checkpoint; all_wallpapers := JList [sample_record];
            processed_hashes := []; saved := [] |}
         1 (tl REPOSITORIES))
    = JList ([sample_record] ++ more).
Proof.
  apply (resumed_run_keeps_restored_records md5_stub twin_world false
           previous_checkpoint).
  - reflexivity.
  - reflexivity.
Defined.

(** X20.  A resumed run never consults a source the checkpoint counts as
    finished: with resume index [k], two worlds that agree on the sources
    [REPOSITORIES[k:]] (and on the clock) give the same run, whatever the
    sources before [k] would hold or however they would fail. *)
Theorem finished_sources_are_not_consulted (md5 : string -> string)
    (w1 w2 : world) (test_mode : bool) (fs : filesystem) (k : Z) :
  cp_start_index (load_checkpoint fs) = PyInt k ->
  (forall repo, In repo (Py.slice_from REPOSITORIES k) ->
                source_of w1 repo = source_of w2 repo) ->
  (forall i, utcnow w1 i = utcnow w2 i) ->
  main md5 w1 test_mode true fs = main md5 w2 test_mode true fs.
Proof.
  intros Hk Hs Hc. unfold main. rewrite Hk. f_equal.
  now apply main_loop_same.
Qed.

Lemma finished_sources_are_not_consulted_witness :
  main md5_stub twin_world false true previous_checkpoint
  = main md5_stub first_gone_world false true previous_checkpoint.
Proof.
  apply (finished_sources_are_not_consulted md5_stub twin_world
           first_gone_world false previous_checkpoint 1).
  - reflexivity.
  - intros repo H. simpl in H.
    repeat (destruct H as [<-|H]; [reflexivity|]). contradiction.
  - reflexivity.
Defined.

(** With a resume index past the last source the loop has no turn. *)
Lemma resume_idle (md5 : string -> string) (w : world)
    (test_mode : bool) (fs : filesystem) (k : Z) :
  cp_start_index (load_checkpoint fs) = PyInt k ->
  8 <= k ->
  main md5 w test_mode true fs
  = Returned {| disk := fs;
                all_wallpapers := cp_wallpapers (load_checkpoint fs);
                processed_hashes := []; saved := [] |}.
Proof.
  intros Hk H8. unfold main. rewrite Hk.
  rewrite Orchestrator.load_checkpoint_no_hashes.
  unfold Py.slice_from. destruct (Z.ltb_spec k 0) as [|_]; [lia|].
  rewrite skipn_all2; [reflexivity|].
  change (List.length REPOSITORIES) with 8%nat. lia.
Qed.



End Running.

(* ================================================================== *)
(** ** The seen set as a set *)
(* ================================================================== *)

Module SeenSet.
Import Spec Measure.

Lemma not_duplicate_iff (p : string) (hashes : list string) :
  is_duplicate p hashes = Returned false
  <-> forall e, In e hashes -> far p e.
Proof.
  split; [apply Deduplication.not_duplicate_far|].
  induction hashes as [|x hashes IH]; intros H; [reflexivity|].
  cbn [is_duplicate].
  destruct (H x (or_introl eq_refl)) as (d & -> & Hd).
  destruct (Z.leb_spec d PHASH_THRESHOLD) as [Hle|_]; [lia|].
  apply IH. intros e He. apply H. now right.
Qed.

Lemma accepts_any_order (hashes hashes' : list string) (img : image_file) :
  Permutation hashes hashes' -> accepts hashes img = accepts hashes' img.
Proof.
  intros Hp. apply eq_true_iff_eq.
  rewrite !Orchestrator.accepts_iff, !not_duplicate_iff.
  split; intros (H1 & H2 & H3); repeat split; try assumption;
    intros e He; apply H2.
  - eapply Permutation_in; [apply Permutation_sym|]; eassumption.
  - eapply Permutation_in; eassumption.
Qed.

Lemma accepted_any_order (imgs : list image_file) :
  forall hashes hashes',
    Permutation hashes hashes' -> accepted hashes imgs = accepted hashes' imgs.
Proof.
  induction imgs as [|img imgs IH]; intros hashes hashes' Hp; [reflexivity|].
  cbn [accepted]. rewrite (accepts_any_order hashes hashes' img Hp).
  destruct (accepts hashes' img).
  - f_equal. apply IH. now apply Permutation_app_tail.
  - now apply IH.
Qed.

(** X22.  The order in which Python walks the seen set does not matter:
    started with the same fingerprints in another order,
    [process_repository] returns the same records, and leaves the same
    fingerprints in the set.  (The loop over the set breaks at the first
    near fingerprint and skips the image when a comparison raises; either
    way, and in every order, the image is kept exactly when all
    comparisons succeed and none is near.) *)
Theorem set_order_does_not_matter (md5 : string -> string)
    (repo : repository) (src : source) (test_mode : bool)
    (hashes hashes' : list string) :
  Permutation hashes hashes' ->
  fst (process_repository md5 repo src hashes test_mode)
  = fst (process_repository md5 repo src hashes' test_mode)
  /\ Permutation (snd (process_repository md5 repo src hashes test_mode))
                 (snd (process_repository md5 repo src hashes' test_mode)).
Proof.
  intros Hp. unfold process_repository.
  destruct (clone_repository repo (remote src) test_mode 3) as [cloned ev].
  destruct cloned; cbn [negb]; [|now split].
  rewrite !Orchestrator.process_images_run. cbn [fst snd].
  rewrite (accepted_any_order _ hashes hashes' Hp).
  split; [reflexivity|]. now apply Permutation_app_tail.
Qed.

Lemma set_order_does_not_matter_witness :
  fst (process_repository Sample.md5_stub Sample.first_source
         (Sample.reachable [Sample.lake_again; Sample.sunset_lower])
         ["c3a1f0e2b4d59687"; "0123456789abcdef"] false)
  = fst (process_repository Sample.md5_stub Sample.first_source
           (Sample.reachable [Sample.lake_again; Sample.sunset_lower])
           ["0123456789abcdef"; "c3a1f0e2b4d59687"] false)
  /\ Permutation
       (snd (process_repository Sample.md5_stub Sample.first_source
               (Sample.reachable [Sample.lake_again; Sample.sunset_lower])
               ["c3a1f0e2b4d59687"; "0123456789abcdef"] false))
       (snd (process_repository Sample.md5_stub Sample.first_source
               (Sample.reachable [Sample.lake_again; Sample.sunset_lower])
               ["0123456789abcdef"; "c3a1f0e2b4d59687"] false)).
Proof.
  apply (set_order_does_not_matter Sample.md5_stub Sample.first_source
           (Sample.reachable [Sample.lake_again; Sample.sunset_lower]) false
           ["c3a1f0e2b4d59687"; "0123456789abcdef"]
           ["0123456789abcdef"; "c3a1f0e2b4d59687"]).
  apply perm_swap.
Defined.

End SeenSet.

(* ================================================================== *)
(** ** Where the records come from *)
(* ================================================================== *)

Module Provenance.
Import Spec Measure.

Lemma accepted_sub (imgs : list image_file) :
  forall hashes img, In img (accepted hashes imgs) -> In img imgs.
Proof.
  induction imgs as [|x imgs IH]; intros hashes img H; [destruct H|].
  cbn [accepted] in H. destruct (accepts hashes x).
  - destruct H as [<-|H]; [now left | right; now apply IH in H].
  - right. now apply IH in H.
Qed.

Lemma firstn_sub {A} (n : nat) (l : list A) (x : A) :
  In x (firstn n l) -> In x l.
Proof.
  revert l; induction n as [|n IH]; intros [|y l] H; simpl in H;
    try contradiction.
  destruct H as [<-|H]; [now left | right; now apply IH].
Qed.

Section WithMd5.

Variable md5 : string -> string.

Lemma process_repository_provenance (w : world) (test_mode : bool)
    (repo : repository) (hashes : list string) (rec : json) :
  In rec (fst (process_repository md5 repo (source_of w repo) hashes
                 test_mode)) ->
  from_source md5 w test_mode repo rec.
Proof.
  unfold process_repository, from_source. fold (sparse_mode repo test_mode).
  destruct (clone_repository repo (remote (source_of w repo)) test_mode 3)
    as [cloned ev].
  destruct cloned; cbn [negb fst]; [|intros []].
  rewrite Orchestrator.process_images_run. cbn [fst app].
  intros H. split; [reflexivity|].
  apply in_flat_map in H. destruct H as (img & Hacc & Hrec).
  unfold record_of in Hrec. destruct (embedding img) as [emb|] eqn:E;
    [|destruct Hrec].
  destruct Hrec as [<-|[]]. exists img, emb. split; [|now split].
  apply accepted_sub in Hacc.
  destruct test_mode; [now apply firstn_sub in Hacc | exact Hacc].
Qed.

Lemma harvest_provenance (w : world) (test_mode : bool)
    (repos : list repository) :
  forall hashes rec,
    In rec (fst (harvest md5 w test_mode hashes repos)) ->
    exists repo, In repo repos /\ from_source md5 w test_mode repo rec.
Proof.
  induction repos as [|repo repos IH]; intros hashes rec H; [destruct H|].
  cbn [harvest] in H.
  pose proof (process_repository_provenance w test_mode repo hashes rec)
    as Hp.
  destruct (process_repository md5 repo (source_of w repo) hashes test_mode)
    as [wallpapers hashes1].
  specialize (IH hashes1 rec).
  destruct (harvest md5 w test_mode hashes1 repos) as [more hashes2].
  cbn [fst] in *. apply in_app_or in H. destruct H as [H|H].
  - exists repo. split; [now left | now apply Hp].
  - destruct (IH H) as (r & Hr & Hf). exists r. split; [now right | exact Hf].
Qed.

End WithMd5.

(** X23.  Every record of a fresh run comes from a source that was
    cloned: it is the record [process_repository] builds for an image
    that [find_wallpapers] returned on the tree a successful clone of one
    of the configured sources left, and for which the extractor gave an
    embedding.  A source whose clone fails on all attempts has no record
    in the output. *)
Theorem records_come_from_cloned_sources (md5 : string -> string)
    (w : world) (test_mode : bool) (fs : filesystem) :
  exists st records,
    main md5 w test_mode false fs = Returned st
    /\ all_wallpapers st = JList records
    /\ forall rec, In rec records ->
         exists repo, In repo REPOSITORIES
                      /\ from_source md5 w test_mode repo rec.
Proof.
  rewrite Harvesting.main_fresh.
  destruct (Deduplication.main_loop_harvest md5 w test_mode REPOSITORIES
              {| disk := fs; all_wallpapers := JList [];
                 processed_hashes := []; saved := [] |} 0 [] eq_refl)
    as [H1 _].
  eexists. eexists. split; [reflexivity|]. split; [exact H1|].
  cbn [app processed_hashes]. apply harvest_provenance.
Qed.

End Provenance.

(* ================================================================== *)
(** ** ManifestBuilder and the end of the run *)
(* ================================================================== *)

Module Finishing.
Import Spec Sample Inputs Measure Manifest.

Lemma manifest_not_checkpoint : MANIFEST_PATH <> CHECKPOINT_PATH.
Proof. intros E. vm_compute in E. discriminate E. Qed.

Lemma compressed_not_checkpoint : COMPRESSED_PATH <> CHECKPOINT_PATH.
Proof. intros E. vm_compute in E. discriminate E. Qed.

Lemma compressed_not_manifest : COMPRESSED_PATH <> MANIFEST_PATH.
Proof. intros E. vm_compute in E. discriminate E. Qed.

(** [load_checkpoint] reads the checkpoint path and nothing else. *)
Lemma load_checkpoint_local (fs fs' : filesystem) :
  fs CHECKPOINT_PATH = fs' CHECKPOINT_PATH ->
  load_checkpoint fs = load_checkpoint fs'.
Proof.
  intros E. unfold load_checkpoint, Fs.exists_, Fs.read. now rewrite E.
Qed.

Lemma load_checkpoint_missing (fs : filesystem) :
  fs CHECKPOINT_PATH = Missing -> load_checkpoint fs = empty_state.
Proof. intros E. unfold load_checkpoint, Fs.exists_. now rewrite E. Qed.

(** The records the pipeline builds can be counted by category. *)
Lemma counted_categories_ok (md5 : string -> string) (records : list json) :
  (forall rec, In rec records ->
     exists repo img emb, rec = wallpaper_data md5 repo img emb) ->
  exists categories, counted_categories records = Returned categories.
Proof.
  induction records as [|rec records IH]; intros H.
  - now exists [].
  - destruct (H rec (or_introl eq_refl)) as (repo & img & emb & ->).
    destruct IH as [categories E]; [intros r Hr; apply H; now right|].
    cbn [counted_categories]. unfold wallpaper_data at 1.
    cbn [item Py.lookup String.eqb Ascii.eqb Bool.eqb hashable].
    rewrite E. eexists. reflexivity.
Qed.

Lemma open_w_ok (fs : filesystem) (p : string) :
  fs p <> Denied -> Fs.open_w fs p = Returned (Fs.put fs p (File EmptyString)).
Proof.
  intros H. unfold Fs.open_w. destruct (fs p); try reflexivity. now elim H.
Qed.

(** What [save_manifest] leaves when nothing fails. *)
Lemma save_manifest_completes (h : host) (fs : filesystem) (now : string)
    (records : list json) (categories : list json) :
  fs MANIFEST_PATH <> Denied ->
  fs COMPRESSED_PATH <> Denied ->
  (forall text, gzip_compress h text <> EmptyString) ->
  counted_categories records = Returned categories ->
  exists manifest fs',
    generate_manifest now (JList records) = Returned manifest
    /\ save_manifest h fs manifest = Completed fs'
    /\ fs' MANIFEST_PATH = File (dumps_indent 0 manifest)
    /\ fs' COMPRESSED_PATH = File (gzip_compress h (dumps_indent 0 manifest))
    /\ forall p, p <> MANIFEST_PATH -> p <> COMPRESSED_PATH -> fs' p = fs p.
Proof.
  intros Hm Hc Hz Hcat. cbn [generate_manifest len].
  eexists. eexists. split; [reflexivity|].
  set (manifest := JDict _).
  unfold save_manifest. rewrite (open_w_ok fs MANIFEST_PATH Hm).
  rewrite open_w_ok.
  2:{ unfold Fs.write_all.
      rewrite !(FsFacts.put_other _ MANIFEST_PATH _ COMPRESSED_PATH
                  compressed_not_manifest).
      exact Hc. }
  change (item manifest "total_wallpapers")
    with (Returned (JInt (Z.of_nat (List.length records)))).
  change (item manifest "wallpapers") with (Returned (JList records)).
  cbn [iterate]. rewrite Hcat.
  destruct (Nat.eqb_spec
              (String.length (gzip_compress h (dumps_indent 0 manifest))) 0)
    as [E0|_].
  { exfalso. apply (Hz (dumps_indent 0 manifest)).
    now destruct (gzip_compress h (dumps_indent 0 manifest)). }
  split; [reflexivity|]. unfold Fs.write_all. split; [|split].
  - rewrite !(FsFacts.put_other _ COMPRESSED_PATH _ MANIFEST_PATH)
      by (intros E; symmetry in E; now apply compressed_not_manifest).
    apply FsFacts.put_same.
  - apply FsFacts.put_same.
  - intros p Hp1 Hp2. now rewrite !FsFacts.put_other.
Qed.

(** The loop of a fresh run on a disk that takes checkpoints: what it
    leaves for the end of [main]. *)
Lemma fresh_loop_leaves (md5 : string -> string) (w : world)
    (test_mode : bool) (fs : filesystem) :
  fs CHECKPOINT_PATH <> Denied ->
  exists st records text categories,
    main md5 w test_mode false fs = Returned st
    /\ all_wallpapers st = JList records
    /\ disk st CHECKPOINT_PATH = File text
    /\ load_checkpoint (disk st)
       = {| cp_wallpapers := JList records; cp_start_index := PyInt 8;
            cp_hashes := [] |}
    /\ (forall p, p <> CHECKPOINT_PATH -> disk st p = fs p)
    /\ counted_categories records = Returned categories.
Proof.
  intros Hw. rewrite Harvesting.main_fresh.
  set (st0 := {| disk := fs; all_wallpapers := JList [];
                 processed_hashes := []; saved := [] |}).
  destruct (Running.main_loop_writable md5 w test_mode REPOSITORIES st0 0 []
              eq_refl Hw) as (_ & Hother & Hload).
  specialize (Hload ltac:(discriminate)).
  destruct (Deduplication.main_loop_harvest md5 w test_mode REPOSITORIES
              st0 0 [] eq_refl) as [Hall _].
  cbn [app] in Hall. rewrite Hall in Hload.
  set (st := main_loop md5 w test_mode st0 0 REPOSITORIES) in *.
  set (records := fst (harvest md5 w test_mode (processed_hashes st0)
                         REPOSITORIES)) in *.
  destruct (counted_categories_ok md5 records) as [categories Hcat].
  { intros rec Hrec.
    destruct (Provenance.harvest_provenance md5 w test_mode REPOSITORIES
                _ rec Hrec) as (repo & _ & _ & img & emb & _ & _ & ->).
    now exists repo, img, emb. }
  destruct (disk st CHECKPOINT_PATH) as [| |text] eqn:Ecp.
  - rewrite (load_checkpoint_missing _ Ecp) in Hload. discriminate Hload.
  - unfold load_checkpoint, Fs.exists_, Fs.read in Hload.
    rewrite Ecp in Hload. discriminate Hload.
  - exists st, records, text, categories. rewrite Ecp.
    repeat split; try assumption; reflexivity.
Qed.

(** X24.  A fresh run that meets no obstacle ends clean: when the
    checkpoint, manifest and compressed-manifest paths can all be opened
    (and compression writes at least one byte), [main] returns with
    [manifest.json] holding the indented manifest built from the records
    of the loop, [manifest.json.gz] holding the compressed bytes of
    exactly that text, and the checkpoint file removed, so that a later
    [--resume] starts from scratch; the run writes to no other path. *)
Theorem completed_run_ends_clean (h : host) (md5 : string -> string)
    (w : world) (test_mode : bool) (fs : filesystem) :
  fs CHECKPOINT_PATH <> Denied ->
  fs MANIFEST_PATH <> Denied ->
  fs COMPRESSED_PATH <> Denied ->
  (forall text, gzip_compress h text <> EmptyString) ->
  exists st records manifest fs',
    main md5 w test_mode false fs = Returned st
    /\ all_wallpapers st = JList records
    /\ generate_manifest (manifest_time h) (JList records) = Returned manifest
    /\ main_to_end h md5 w test_mode false fs = Completed fs'
    /\ fs' MANIFEST_PATH = File (dumps_indent 0 manifest)
    /\ fs' COMPRESSED_PATH = File (gzip_compress h (dumps_indent 0 manifest))
    /\ fs' CHECKPOINT_PATH = Missing
    /\ load_checkpoint fs' = empty_state
    /\ forall p, p <> CHECKPOINT_PATH -> p <> MANIFEST_PATH ->
                 p <> COMPRESSED_PATH -> fs' p = fs p.
Proof.
  intros Hcp Hm Hc Hz.
  destruct (fresh_loop_leaves md5 w test_mode fs Hcp)
    as (st & records & text & categories & Hmain & Hall & Hfile & _ & Hother
        & Hcat).
  destruct (save_manifest_completes h (disk st) (manifest_time h) records
              categories) as (manifest & fs1 & Hg & Hs & H1 & H2 & H3);
    try assumption.
  { rewrite Hother; [exact Hm | exact manifest_not_checkpoint]. }
  { rewrite Hother; [exact Hc | exact compressed_not_checkpoint]. }
  assert (Hcp1 : fs1 CHECKPOINT_PATH = File text).
  { rewrite H3; [exact Hfile | |].
    - intros E; symmetry in E; now apply manifest_not_checkpoint.
    - intros E; symmetry in E; now apply compressed_not_checkpoint. }
  exists st, records, manifest, (Fs.unlink fs1 CHECKPOINT_PATH).
  split; [exact Hmain|]. split; [exact Hall|]. split; [exact Hg|].
  split.
  { unfold main_to_end. rewrite Hmain. unfold finish. rewrite Hall, Hg, Hs.
    now rewrite Hcp1. }
  unfold Fs.unlink. split; [|split; [|split; [|split]]].
  - rewrite FsFacts.put_other by exact manifest_not_checkpoint. exact H1.
  - rewrite FsFacts.put_other by exact compressed_not_checkpoint. exact H2.
  - apply FsFacts.put_same.
  - apply load_checkpoint_missing, FsFacts.put_same.
  - intros p P1 P2 P3. rewrite FsFacts.put_other by exact P1.
    rewrite H3 by assumption. now apply Hother.
Qed.

Lemma completed_run_ends_clean_witness :
  exists st records manifest fs',
    main md5_stub two_pictures_world false false no_files = Returned st
    /\ all_wallpapers st = JList records
    /\ generate_manifest (manifest_time sample_host) (JList records)
       = Returned manifest
    /\ main_to_end sample_host md5_stub two_pictures_world false false
                   no_files = Completed fs'
    /\ fs' MANIFEST_PATH = File (dumps_indent 0 manifest)
    /\ fs' COMPRESSED_PATH
       = File (gzip_compress sample_host (dumps_indent 0 manifest))
    /\ fs' CHECKPOINT_PATH = Missing
    /\ load_checkpoint fs' = empty_state
    /\ forall p, p <> CHECKPOINT_PATH -> p <> MANIFEST_PATH ->
                 p <> COMPRESSED_PATH -> fs' p = no_files p.
Proof.
  apply (completed_run_ends_clean sample_host md5_stub two_pictures_world
           false no_files).
  - discriminate.
  - discriminate.
  - discriminate.
  - intros text. discriminate.
Defined.

(** X25.  A run that fails at the manifest can be finished by
    [--resume] without cloning anything: when the manifest file (or its
    compressed sibling) cannot be opened, [main] ends with an exception
    after the loop, the checkpoint stays on disk and reads back as all
    records of the run with resume index 8; a resumed run on a disk with
    this checkpoint and writable manifest paths then consults no source,
    writes the manifest of exactly these records and removes the
    checkpoint. *)
Theorem manifest_failure_is_recoverable (h : host) (md5 : string -> string)
    (w : world) (test_mode : bool) (fs : filesystem) :
  fs CHECKPOINT_PATH <> Denied ->
  fs MANIFEST_PATH = Denied \/ fs COMPRESSED_PATH = Denied ->
  exists st records fs1,
    main md5 w test_mode false fs = Returned st
    /\ all_wallpapers st = JList records
    /\ main_to_end h md5 w test_mode false fs = Crashed fs1
    /\ load_checkpoint fs1
       = {| cp_wallpapers := JList records; cp_start_index := PyInt 8;
            cp_hashes := [] |}
    /\ forall h' md5' w' test_mode' fs2,
         fs2 CHECKPOINT_PATH = fs1 CHECKPOINT_PATH ->
         fs2 MANIFEST_PATH <> Denied ->
         fs2 COMPRESSED_PATH <> Denied ->
         (forall text, gzip_compress h' text <> EmptyString) ->
         exists manifest fs3,
           generate_manifest (manifest_time h') (JList records)
           = Returned manifest
           /\ main_to_end h' md5' w' test_mode' true fs2 = Completed fs3
           /\ fs3 MANIFEST_PATH = File (dumps_indent 0 manifest)
           /\ fs3 CHECKPOINT_PATH = Missing.
Proof.
  intros Hcp Hbad.
  destruct (fresh_loop_leaves md5 w test_mode fs Hcp)
    as (st & records & text & categories & Hmain & Hall & Hfile & Hload
        & Hother & Hcat).
  assert (Hcrash : exists fs1,
             main_to_end h md5 w test_mode false fs = Crashed fs1
             /\ fs1 CHECKPOINT_PATH = disk st CHECKPOINT_PATH).
  { unfold main_to_end. rewrite Hmain. unfold finish. rewrite Hall.
    cbn [generate_manifest len]. unfold save_manifest.
    destruct Hbad as [Hbad|Hbad].
    - unfold Fs.open_w at 1.
      rewrite (Hother _ manifest_not_checkpoint), Hbad.
      eexists. split; reflexivity.
    - destruct (Fs.open_w (disk st) MANIFEST_PATH) as [fs1|] eqn:E1;
        [|eexists; split; reflexivity].
      assert (Hfs1 : fs1 = Fs.put (disk st) MANIFEST_PATH (File EmptyString)).
      { unfold Fs.open_w in E1.
        destruct (disk st MANIFEST_PATH); congruence. }
      subst fs1. unfold Fs.open_w at 1. unfold Fs.write_all at 1.
      rewrite !(FsFacts.put_other _ MANIFEST_PATH _ COMPRESSED_PATH
                  compressed_not_manifest).
      rewrite (Hother _ compressed_not_checkpoint), Hbad.
      eexists. split; [reflexivity|]. unfold Fs.write_all.
      rewrite !FsFacts.put_other; [reflexivity | |];
        intros E; symmetry in E; now apply manifest_not_checkpoint. }
  destruct Hcrash as (fs1 & Hcrash & Hsame).
  assert (Hload1 : load_checkpoint fs1
                   = {| cp_wallpapers := JList records;
                        cp_start_index := PyInt 8; cp_hashes := [] |}).
  { now rewrite (load_checkpoint_local fs1 (disk st) Hsame). }
  exists st, records, fs1.
  split; [exact Hmain|]. split; [exact Hall|]. split; [exact Hcrash|].
  split; [exact Hload1|].
  intros h' md5' w' test_mode' fs2 H2cp H2m H2c Hz.
  assert (Hload2 : load_checkpoint fs2
                   = {| cp_wallpapers := JList records;
                        cp_start_index := PyInt 8; cp_hashes := [] |}).
  { now rewrite (load_checkpoint_local fs2 fs1 H2cp). }
  destruct (save_manifest_completes h' fs2 (manifest_time h') records
              categories H2m H2c Hz Hcat)
    as (manifest & fs3 & Hg & Hs & H1 & _ & H3).
  assert (Hcp3 : fs3 CHECKPOINT_PATH = File text).
  { rewrite H3, H2cp, Hsame; [exact Hfile | |];
      intros E; symmetry in E;
      [now apply manifest_not_checkpoint
      | now apply compressed_not_checkpoint]. }
  exists manifest, (Fs.unlink fs3 CHECKPOINT_PATH).
  split; [exact Hg|]. split; [|split].
  - unfold main_to_end.
    rewrite (Running.resume_idle md5' w' test_mode' fs2 8);
      [|now rewrite Hload2 | lia].
    unfold finish. cbn [all_wallpapers disk]. rewrite Hload2.
    cbn [cp_wallpapers]. rewrite Hg, Hs. now rewrite Hcp3.
  - unfold Fs.unlink.
    rewrite FsFacts.put_other by exact manifest_not_checkpoint. exact H1.
  - apply FsFacts.put_same.
Qed.

Lemma manifest_failure_is_recoverable_witness :
  exists st records fs1,
    main md5_stub two_pictures_world false false
         (Fs.put no_files MANIFEST_PATH Denied) = Returned st
    /\ all_wallpapers st = JList records
    /\ main_to_end sample_host md5_stub two_pictures_world false false
                   (Fs.put no_files MANIFEST_PATH Denied) = Crashed fs1
    /\ load_checkpoint fs1
       = {| cp_wallpapers := JList records; cp_start_index := PyInt 8;
            cp_hashes := [] |}
    /\ forall h' md5' w' test_mode' fs2,
         fs2 CHECKPOINT_PATH = fs1 CHECKPOINT_PATH ->
         fs2 MANIFEST_PATH <> Denied ->
         fs2 COMPRESSED_PATH <> Denied ->
         (forall text, gzip_compress h' text <> EmptyString) ->
         exists manifest fs3,
           generate_manifest (manifest_time h') (JList records)
           = Returned manifest
           /\ main_to_end h' md5' w' test_mode' true fs2 = Completed fs3
           /\ fs3 MANIFEST_PATH = File (dumps_indent 0 manifest)
           /\ fs3 CHECKPOINT_PATH = Missing.
Proof.
  apply (manifest_failure_is_recoverable sample_host md5_stub
           two_pictures_world false (Fs.put no_files MANIFEST_PATH Denied)).
  - vm_compute. discriminate.
  - left. reflexivity.
Defined.



(** X27.  A checkpoint whose [last_repo_index] is a float stops a
    resumed run before its first source: [load_checkpoint] accepts it
    (a float can be incremented), but the resume index is then no
    integer, [REPOSITORIES[start_index:]] raises outside every [try], and
    [main] ends with an exception, with no source consulted and no
    checkpoint or manifest written. *)
Theorem fractional_index_stops_the_run (h : host) (md5 : string -> string)
    (w : world) (test_mode : bool) (fs : filesystem) (text : string)
    (d : list (string * json)) (f : pyfloat) :
  fs CHECKPOINT_PATH = File text ->
  Json.loads text = Some (JDict d) ->
  Py.lookup "last_repo_index" d = Some (JFloat f) ->
  Py.has_len (match Py.lookup "wallpapers" d with
              | Some v => v
              | None => JList []
              end) = true ->
  main md5 w test_mode true fs = Raised
  /\ main_to_end h md5 w test_mode true fs = Crashed fs.
Proof.
  intros Hf Ht Hi Hl.
  assert (E : main md5 w test_mode true fs = Raised).
  { unfold main. rewrite (CheckpointStore.load_checkpoint_file fs text Hf), Ht.
    cbn [Py.get]. rewrite Hi, Hl. reflexivity. }
  split; [exact E|]. unfold main_to_end. now rewrite E.
Qed.

Lemma fractional_index_stops_the_run_witness :
  main md5_stub twin_world false true fractional_index_checkpoint = Raised
  /\ main_to_end sample_host md5_stub twin_world false true
                 fractional_index_checkpoint
     = Crashed fractional_index_checkpoint.
Proof.
  apply (fractional_index_stops_the_run sample_host md5_stub twin_world false
           fractional_index_checkpoint
           (Json.dumps (JDict [("wallpapers", JList [sample_record]);
                               ("last_repo_index", JFloat (PyFloat 30 (-1)))]))
           [("wallpapers", JList [sample_record]);
            ("last_repo_index", JFloat (PyFloat 30 (-1)))]
           (PyFloat 30 (-1))).
  - reflexivity.
  - vm_compute. reflexivity.
  - reflexivity.
  - reflexivity.
Defined.

Lemma find_wallpapers_valid (tree : list image_file) (img : image_file) :
  In img (find_wallpapers tree) -> valid_wallpaper img = true.
Proof. unfold find_wallpapers. intros H. now apply filter_In in H. Qed.

(** X28.  Every record of a fresh run carries a real resolution: under
    [resolution] it holds the text [WIDTHxHEIGHT] of an image at least
    800 wide and 600 high, never ["unknown"], because every candidate
    passed the resolution filter of [find_wallpapers] (a file has one
    size here: the image opens the same way both times). *)
Theorem records_carry_a_resolution (md5 : string -> string) (w : world)
    (test_mode : bool) (fs : filesystem) :
  exists st records,
    main md5 w test_mode false fs = Returned st
    /\ all_wallpapers st = JList records
    /\ forall rec, In rec records ->
         exists width height,
           800 <= width /\ 600 <= height
           /\ item rec "resolution"
              = Returned (JStr (Json.dumps_int width ++ "x"
                                ++ Json.dumps_int height)).
Proof.
  rewrite Harvesting.main_fresh.
  destruct (Deduplication.main_loop_harvest md5 w test_mode REPOSITORIES
              {| disk := fs; all_wallpapers := JList [];
                 processed_hashes := []; saved := [] |} 0 [] eq_refl)
    as [H1 _].
  eexists. eexists. split; [reflexivity|]. split; [exact H1|].
  cbn [app processed_hashes]. intros rec Hrec.
  destruct (Provenance.harvest_provenance md5 w test_mode REPOSITORIES
              _ rec Hrec) as (repo & _ & _ & img & emb & Himg & _ & ->).
  apply find_wallpapers_valid in Himg. unfold valid_wallpaper in Himg.
  destruct (st_size img >? MAX_FILE_SIZE); [discriminate|].
  destruct (image_size img) as [[width height]|] eqn:Es; [|discriminate].
  apply andb_true_iff in Himg. destruct Himg as [Hw Hh].
  cbn [MIN_RESOLUTION fst snd] in Hw, Hh.
  exists width, height. split; [lia|]. split; [lia|].
  unfold wallpaper_data.
  cbn [item Py.lookup String.eqb Ascii.eqb Bool.eqb].
  unfold get_image_resolution. now rewrite Es.
Qed.

End Finishing.

(* ================================================================== *)
(** ** The indented manifest reads back *)
(* ================================================================== *)

Module IndentFacts.
Import Json Manifest.






















End IndentFacts.
